(** * Product/Business API: a shallow embedding of the in-memory CRUD service

    The development follows the three source files:
    - [models/business.py]: [EINType], [BusinessBase], [BusinessCreate],
      [BusinessUpdate], [BusinessRead];
    - [models/product.py]: [ProductBase], [ProductCreate], [ProductUpdate],
      [ProductRead];
    - [main.py]: the two module-level dictionaries [businesses] and
      [products] and the ten request handlers working on them.

    Python dictionaries are finite maps ([gmap]); a handler is a computation
    in a state-and-exception monad over the two dictionaries and the clock
    read by [datetime.utcnow]. *)

From stdpp Require Import gmap strings list fin_maps.
From Stdlib Require Import ZArith Ascii String.

Open Scope Z_scope.
Open Scope string_scope.

(** ** Python values

    The values that occur in the dictionaries produced by [model_dump] and
    consumed by the model constructors (a call [BusinessRead] on the unpacked
    dictionary [stored]).  A Python string is the string of the bytes of its
    UTF-8 encoding: equal strings have equal encodings, and the pattern of
    [EINType], which reads characters, decodes them. *)

Definition datetime := Z.

#[warnings="-register-all"]
Inductive value :=
| VNone
| VStr (s : string)
| VInt (z : Z)
| VDatetime (t : datetime)
| VDict (d : gmap string value).

Abbreviation kwargs := (gmap string value).

Definition opt_str (o : option string) : value :=
  match o with Some s => VStr s | None => VNone end.

Definition opt_int (o : option Z) : value :=
  match o with Some z => VInt z | None => VNone end.

(** [stored.update(other)]: the entries of [other] win. *)
Definition update (stored other : kwargs) : kwargs := other ∪ stored.

(** A field of an update payload: pydantic records in [model_fields_set]
    whether the field was supplied, so [Omitted] and [Supplied None] differ;
    [model_dump(exclude_unset=True)] keeps exactly the supplied ones. *)
Inductive field (A : Type) :=
| Omitted
| Supplied (a : A).
Arguments Omitted {A}.
Arguments Supplied {A} a.

Definition dump_field (k : string) (f : field value) : kwargs :=
  match f with
  | Omitted => ∅
  | Supplied v => {[ k := v ]}
  end.

Definition field_map {A B} (g : A -> B) (f : field A) : field B :=
  match f with
  | Omitted => Omitted
  | Supplied a => Supplied (g a)
  end.

(** The value an update-payload attribute reads as: the default [None] when
    the field was omitted. *)
Definition field_value {A} (f : field (option A)) : option A :=
  match f with
  | Omitted => None
  | Supplied o => o
  end.

(** ** What is outside the repository

    Three things the code relies on are outside the repository and are
    parameters here: the address check of [EmailStr] (the [email_validator]
    package, which returns the normalised address or rejects), the clock
    behind [datetime.utcnow], given as the sequence of its successive
    readings, and the table of the character class [\d] of the regular
    expression engine, a set of code points. *)

Class Runtime := {
  email_validator : string -> option string;
  clock : nat -> datetime;
  regex_digit : N -> bool
}.

(** What is used of the class [\d], which is Unicode-aware: below 128 it
    holds the ten digits [0]..[9] and nothing else, and it holds decimal
    digits of other scripts, of which ARABIC-INDIC DIGIT TWO (U+0662) is
    one. *)
Definition digit_class_ok `{Runtime} : Prop :=
  (forall n : N, (n < 128)%N ->
     regex_digit n = ((48 <=? n) && (n <=? 57))%N) /\
  regex_digit 1634 = true.

(** ** The EIN pattern [^\d{2}-\d{7}$]

    A small regular-expression language, enough for the pattern of
    [EINType], with a prefix matcher.  The matcher reads characters: [\d]
    decodes one code point from the UTF-8 bytes and looks it up in the
    class.  The pattern is anchored at both ends and [$] matches at the end
    of the text only (the regex engine pydantic uses by default). *)

Inductive regex :=
| Digit
| Lit (c : ascii)
| Cat (r1 r2 : regex)
| Repeat (n : nat) (r : regex).

(** The payload of a continuation byte [10xxxxxx]. *)
Definition continuation (c : ascii) : option N :=
  let b := N_of_ascii c in
  if ((128 <=? b) && (b <? 192))%N then Some (b - 128)%N else None.

(** The first code point of a UTF-8 string and the rest of the string.
    Overlong forms, surrogates and values above U+10FFFF are no UTF-8, and a
    string of bytes that is no UTF-8 stands for no Python string. *)
Definition utf8_decode (s : string) : option (N * string) :=
  match s with
  | EmptyString => None
  | String c0 s1 =>
      let b0 := N_of_ascii c0 in
      if (b0 <? 128)%N then Some (b0, s1)
      else if (b0 <? 194)%N then None
      else if (b0 <? 224)%N then
        match s1 with
        | String c1 s2 =>
            match continuation c1 with
            | Some x1 => Some (((b0 - 192) * 64 + x1)%N, s2)
            | None => None
            end
        | EmptyString => None
        end
      else if (b0 <? 240)%N then
        match s1 with
        | String c1 (String c2 s3) =>
            match continuation c1, continuation c2 with
            | Some x1, Some x2 =>
                let cp := ((b0 - 224) * 4096 + x1 * 64 + x2)%N in
                if ((cp <? 2048) || ((55296 <=? cp) && (cp <? 57344)))%N
                then None else Some (cp, s3)
            | _, _ => None
            end
        | _ => None
        end
      else if (b0 <? 245)%N then
        match s1 with
        | String c1 (String c2 (String c3 s4)) =>
            match continuation c1, continuation c2, continuation c3 with
            | Some x1, Some x2, Some x3 =>
                let cp :=
                  ((b0 - 240) * 262144 + x1 * 4096 + x2 * 64 + x3)%N in
                if ((cp <? 65536) || (1114111 <? cp))%N
                then None else Some (cp, s4)
            | _, _, _ => None
            end
        | _ => None
        end
      else None
  end.

(** The byte of value [n]. *)
Definition byte (n : N) : ascii := ascii_of_N n.

(** The UTF-8 encoding of a code point, which the decoder inverts;
    surrogates and values above U+10FFFF have none. *)
Definition utf8_encode (cp : N) : option string :=
  if (cp <? 128)%N then Some (String (byte cp) "")
  else if (cp <? 2048)%N then
    Some (String (byte (192 + cp / 64))
         (String (byte (128 + cp mod 64)) ""))
  else if (cp <? 65536)%N then
    if ((55296 <=? cp) && (cp <? 57344))%N then None else
    Some (String (byte (224 + cp / 4096))
         (String (byte (128 + (cp / 64) mod 64))
         (String (byte (128 + cp mod 64)) "")))
  else if (cp <? 1114112)%N then
    Some (String (byte (240 + cp / 262144))
         (String (byte (128 + (cp / 4096) mod 64))
         (String (byte (128 + (cp / 64) mod 64))
         (String (byte (128 + cp mod 64)) ""))))
  else None.

(** [rmatch r s] consumes a prefix of [s] matching [r] and returns the rest. *)
Fixpoint rmatch `{Runtime} (r : regex) (s : string) : option string :=
  match r with
  | Digit =>
      match utf8_decode s with
      | Some (cp, s') => if regex_digit cp then Some s' else None
      | None => None
      end
  | Lit a =>
      match s with
      | String c s' => if Ascii.eqb a c then Some s' else None
      | EmptyString => None
      end
  | Cat r1 r2 =>
      match rmatch r1 s with
      | Some s' => rmatch r2 s'
      | None => None
      end
  | Repeat n r1 =>
      Nat.iter n (fun k s0 => match rmatch r1 s0 with
                              | Some s' => k s'
                              | None => None
                              end) Some s
  end.

(** [^ r $] *)
Definition fullmatch `{Runtime} (r : regex) (s : string) : bool :=
  match rmatch r s with
  | Some EmptyString => true
  | _ => false
  end.

Definition EIN_regex : regex :=
  Cat (Repeat 2 Digit) (Cat (Lit "-") (Repeat 7 Digit)).

Definition EIN_pattern `{Runtime} (s : string) : bool := fullmatch EIN_regex s.

(** The format as the specification words it, [DD-DDDDDDD] with [D] a digit
    [0]..[9]: two digits, a hyphen, seven digits, and nothing else. *)
Definition ascii_digit (c : ascii) : bool :=
  ((48 <=? nat_of_ascii c) && (nat_of_ascii c <=? 57))%nat.

Fixpoint all_ascii_digits (s : string) : bool :=
  match s with
  | EmptyString => true
  | String c s' => ascii_digit c && all_ascii_digits s'
  end.

Definition ein_shape (s : string) : Prop :=
  exists a b : string,
    s = a +:+ "-" +:+ b /\
    String.length a = 2%nat /\ all_ascii_digits a = true /\
    String.length b = 7%nat /\ all_ascii_digits b = true.

(** The format with the decimal digits of the class [\d]: [s] starts with
    [n] characters of the class and goes on with [rest]. *)
Inductive digits `{Runtime} : nat -> string -> string -> Prop :=
| digits_O (s : string) : digits 0 s s
| digits_S (n : nat) (s s' rest : string) (cp : N) :
    utf8_decode s = Some (cp, s') -> regex_digit cp = true ->
    digits n s' rest -> digits (S n) s rest.

Definition decimal_ein_shape `{Runtime} (s : string) : Prop :=
  exists rest, digits 2 s (String "-" rest) /\ digits 7 rest "".

(** The strings of ASCII characters. *)
Fixpoint ascii_only (s : string) : bool :=
  match s with
  | EmptyString => true
  | String c s' => (N_of_ascii c <? 128)%N && ascii_only s'
  end.

(** The string [1] ARABIC-INDIC DIGIT TWO [-3456789]; the digit is the two
    bytes 217, 162. *)
Definition arabic_ein : string :=
  String "1" (String (ascii_of_nat 217) (String (ascii_of_nat 162) "-3456789")).

(** ** The models of [models/business.py] *)

Module BusinessBase.
Record t := mk {
  ein : string;
  name : string;
  email : string;
  phone : option string
}.

Definition model_dump (b : t) : kwargs :=
  <["ein" := VStr (ein b)]>
    (<["name" := VStr (name b)]>
       (<["email" := VStr (email b)]>
          (<["phone" := opt_str (phone b)]> ∅))).

(** A [BusinessBase] instance nested in an update payload, with the part
    of its [model_fields_set] that [exclude_unset] consults: [ein], [name]
    and [email] are required, so only [phone] can be unset, and then it
    reads as its default [None]. *)
Record tracked := track {
  ein' : string;
  name' : string;
  email' : string;
  phone' : field (option string)
}.

Definition fields (i : tracked) : t :=
  mk (ein' i) (name' i) (email' i) (field_value (phone' i)).

Definition model_dump_exclude_unset (i : tracked) : kwargs :=
  <["ein" := VStr (ein' i)]>
    (<["name" := VStr (name' i)]>
       (<["email" := VStr (email' i)]>
          (dump_field "phone" (field_map opt_str (phone' i))))).
End BusinessBase.

(** [class BusinessCreate(BusinessBase): pass] *)
Abbreviation BusinessCreate := BusinessBase.t.

Module BusinessUpdate.
Record t := mk {
  ein : field (option string);
  name : field (option string);
  email : field (option string);
  phone : field (option string)
}.

Definition model_dump_exclude_unset (u : t) : kwargs :=
  dump_field "ein" (field_map opt_str (ein u)) ∪
  dump_field "name" (field_map opt_str (name u)) ∪
  dump_field "email" (field_map opt_str (email u)) ∪
  dump_field "phone" (field_map opt_str (phone u)).
End BusinessUpdate.

Module BusinessRead.
Record t := mk {
  ein : string;
  name : string;
  email : string;
  phone : option string;
  created_at : datetime;
  updated_at : datetime
}.

Definition model_dump (b : t) : kwargs :=
  <["ein" := VStr (ein b)]>
    (<["name" := VStr (name b)]>
       (<["email" := VStr (email b)]>
          (<["phone" := opt_str (phone b)]>
             (<["created_at" := VDatetime (created_at b)]>
                (<["updated_at" := VDatetime (updated_at b)]> ∅))))).

(** The [BusinessBase] part of a stored record. *)
Definition base (b : t) : BusinessBase.t :=
  BusinessBase.mk (ein b) (name b) (email b) (phone b).
End BusinessRead.

(** ** The models of [models/product.py] *)

Module ProductBase.
Record t := mk {
  product_id : Z;
  name : string;
  business : BusinessBase.t
}.

Definition model_dump (p : t) : kwargs :=
  <["product_id" := VInt (product_id p)]>
    (<["name" := VStr (name p)]>
       (<["business" := VDict (BusinessBase.model_dump (business p))]> ∅)).
End ProductBase.

(** [class ProductCreate(ProductBase): pass] *)
Abbreviation ProductCreate := ProductBase.t.

Module ProductUpdate.
Record t := mk {
  product_id : field (option Z);
  name : field (option string);
  business : field (option BusinessBase.tracked)
}.

Definition opt_business (o : option BusinessBase.tracked) : value :=
  match o with
  | Some i => VDict (BusinessBase.model_dump_exclude_unset i)
  | None => VNone
  end.

Definition model_dump_exclude_unset (u : t) : kwargs :=
  dump_field "product_id" (field_map opt_int (product_id u)) ∪
  dump_field "name" (field_map opt_str (name u)) ∪
  dump_field "business" (field_map opt_business (business u)).
End ProductUpdate.

Module ProductRead.
Record t := mk {
  product_id : Z;
  name : string;
  business : BusinessBase.t;
  created_at : datetime;
  updated_at : datetime
}.

Definition model_dump (p : t) : kwargs :=
  <["product_id" := VInt (product_id p)]>
    (<["name" := VStr (name p)]>
       (<["business" := VDict (BusinessBase.model_dump (business p))]>
          (<["created_at" := VDatetime (created_at p)]>
             (<["updated_at" := VDatetime (updated_at p)]> ∅)))).
End ProductRead.

(** ** Validation errors and exceptions *)

(** The [type] of a pydantic error line. *)
Inductive error_type :=
| missing
| string_type
| string_pattern_mismatch
| value_error
| int_type
| datetime_type
| model_type.

(** One line of a pydantic [ValidationError]: the location and the type. *)
Definition line_error := (list string * error_type)%type.

Definition validated (A : Type) := (list line_error + A)%type.

Definition errors_of {A} (r : validated A) : list line_error :=
  match r with
  | inl es => es
  | inr _ => []
  end.

Definition at_loc {A} (f : string) (r : validated A) : validated A :=
  match r with
  | inl es => inl (map (fun e : line_error => (f :: e.1, e.2)) es)
  | inr a => inr a
  end.

(** A field declared with [Field(...)]: required. *)
Definition required {A} (d : kwargs) (f : string)
    (v : value -> validated A) : validated A :=
  match d !! f with
  | Some x => at_loc f (v x)
  | None => inl [([f], missing)]
  end.

(** A field declared with [Field(None, ...)]. *)
Definition with_default {A} (d : kwargs) (f : string)
    (v : value -> validated A) (dflt : A) : validated A :=
  match d !! f with
  | Some x => at_loc f (v x)
  | None => inr dflt
  end.

Definition str_validator (v : value) : validated string :=
  match v with
  | VStr s => inr s
  | _ => inl [([], string_type)]
  end.

(** [EINType = Annotated[str, StringConstraints(pattern=...)]] *)
Definition EINType `{Runtime} (v : value) : validated string :=
  match v with
  | VStr s => if EIN_pattern s then inr s else inl [([], string_pattern_mismatch)]
  | _ => inl [([], string_type)]
  end.

(** [Optional[T]] *)
Definition Optional {A} (v : value -> validated A) (x : value) : validated (option A) :=
  match x with
  | VNone => inr None
  | _ => match v x with
         | inr a => inr (Some a)
         | inl es => inl es
         end
  end.

(** An [int] field; the dictionaries validated here come from [model_dump]
    and from validated payloads, where the value is an [int] or [None]. *)
Definition int_validator (v : value) : validated Z :=
  match v with
  | VInt z => inr z
  | _ => inl [([], int_type)]
  end.

(** A [datetime] field; only [datetime] objects reach it, from
    [model_dump] of a stored record. *)
Definition datetime_validator (v : value) : validated datetime :=
  match v with
  | VDatetime t => inr t
  | _ => inl [([], datetime_type)]
  end.

(** What a handler can raise. *)
Inductive exn :=
| HTTPException (status_code : Z) (detail : string)
| ValidationError (errors : list line_error)
| KeyError.

Inductive outcome (A : Type) :=
| Return (a : A)
| Raise (e : exn).
Arguments Return {A} a.
Arguments Raise {A} e.

(** ** The process state: the two module-level dictionaries of [main.py]
    and the number of readings of the clock taken so far. *)

Record world := World {
  w_businesses : gmap string BusinessRead.t;
  w_products : gmap Z ProductRead.t;
  w_ticks : nat
}.

Definition initial : world := World ∅ ∅ 0.

Definition M (A : Type) := world -> outcome A * world.

Definition ret {A} (a : A) : M A := fun w => (Return a, w).

Definition bind {A B} (m : M A) (k : A -> M B) : M B :=
  fun w =>
    match m w with
    | (Return a, w') => k a w'
    | (Raise e, w') => (Raise e, w')
    end.

Definition raise {A} (e : exn) : M A := fun w => (Raise e, w).

#[global] Instance M_ret : MRet M := @ret.
#[global] Instance M_bind : MBind M := fun A B k m => bind m k.

(** A module-level dictionary, as a reference into the state. *)
Record global (K : Type) `{Countable K} (V : Type) := Global {
  read : world -> gmap K V;
  assign : gmap K V -> world -> world
}.
Arguments read {K _ _ V} g w.
Arguments assign {K _ _ V} g m w.

Definition businesses : global string BusinessRead.t :=
  Global _ _ _ _ w_businesses
    (fun m w => World m (w_products w) (w_ticks w)).

Definition products : global Z ProductRead.t :=
  Global _ _ _ _ w_products
    (fun m w => World (w_businesses w) m (w_ticks w)).

Section Dict.
Context {K : Type} `{Countable K} {V : Type}.

(** [k in d] *)
Definition contains (g : global K V) (k : K) : M bool :=
  fun w => (Return (bool_decide (is_Some (read g w !! k))), w).

(** [d[k] = v] *)
Definition setitem (g : global K V) (k : K) (v : V) : M unit :=
  fun w => (Return tt, assign g (<[k := v]> (read g w)) w).

(** [d[k]] *)
Definition getitem (g : global K V) (k : K) : M V :=
  fun w =>
    match read g w !! k with
    | Some v => (Return v, w)
    | None => (Raise KeyError, w)
    end.

(** [del d[k]] *)
Definition delitem (g : global K V) (k : K) : M unit :=
  fun w =>
    match read g w !! k with
    | Some _ => (Return tt, assign g (delete k (read g w)) w)
    | None => (Raise KeyError, w)
    end.

(** [list(d.values())].  Python enumerates in insertion order, the map in
    its own; the specification leaves the order of a List unspecified, and
    the properties below are about membership. *)
Definition values (g : global K V) : M (list V) :=
  fun w => (Return (map_to_list (read g w)).*2, w).
End Dict.

(** ** Model constructors and request handlers *)

Section Service.
Context `{Runtime}.

(** [EmailStr] *)
Definition EmailStr (v : value) : validated string :=
  match v with
  | VStr s =>
      match email_validator s with
      | Some s' => inr s'
      | None => inl [([], value_error)]
      end
  | _ => inl [([], string_type)]
  end.

(** The constructor [BusinessBase] on keyword arguments [d]: every field is validated, in declaration order,
    and the error lines of all fields are collected. *)
Definition BusinessBase_init (d : kwargs) : validated BusinessBase.t :=
  let ein := required d "ein" EINType in
  let name := required d "name" str_validator in
  let email := required d "email" EmailStr in
  let phone := with_default d "phone" (Optional str_validator) None in
  match ein, name, email, phone with
  | inr e, inr n, inr m, inr p => inr (BusinessBase.mk e n m p)
  | _, _, _, _ =>
      inl (errors_of ein ++ errors_of name ++ errors_of email ++
           errors_of phone)%list
  end.

(** A field of type [BusinessBase]: a dictionary is validated as the
    model's keyword arguments. *)
Definition BusinessBase_validator (v : value) : validated BusinessBase.t :=
  match v with
  | VDict d => BusinessBase_init d
  | _ => inl [([], model_type)]
  end.

(** [datetime.utcnow()] *)
Definition utcnow : M datetime :=
  fun w => (Return (clock (w_ticks w)),
            World (w_businesses w) (w_products w) (S (w_ticks w))).

(** A field declared with [Field(default_factory=datetime.utcnow, ...)]:
    the factory is called when the key is absent. *)
Definition with_default_factory {A} (d : kwargs) (f : string)
    (v : value -> validated A) (factory : M A) : M (validated A) :=
  match d !! f with
  | Some x => mret (at_loc f (v x))
  | None => a ← factory; mret (inr a)
  end.

(** The constructor [BusinessRead] on keyword arguments [d]. *)
Definition BusinessRead_init (d : kwargs) : M BusinessRead.t :=
  let ein := required d "ein" EINType in
  let name := required d "name" str_validator in
  let email := required d "email" EmailStr in
  let phone := with_default d "phone" (Optional str_validator) None in
  created_at ← with_default_factory d "created_at" datetime_validator utcnow;
  updated_at ← with_default_factory d "updated_at" datetime_validator utcnow;
  match ein, name, email, phone, created_at, updated_at with
  | inr e, inr n, inr m, inr p, inr c, inr u =>
      mret (BusinessRead.mk e n m p c u)
  | _, _, _, _, _, _ =>
      raise (ValidationError
               (errors_of ein ++ errors_of name ++ errors_of email ++
                errors_of phone ++ errors_of created_at ++
                errors_of updated_at)%list)
  end.

(** The constructor [ProductBase] (and [ProductCreate]) on keyword
    arguments [d]. *)
Definition ProductBase_init (d : kwargs) : validated ProductBase.t :=
  let product_id := required d "product_id" int_validator in
  let name := required d "name" str_validator in
  let business := required d "business" BusinessBase_validator in
  match product_id, name, business with
  | inr i, inr n, inr b => inr (ProductBase.mk i n b)
  | _, _, _ =>
      inl (errors_of product_id ++ errors_of name ++ errors_of business)%list
  end.

(** The constructor [ProductRead] on keyword arguments [d]. *)
Definition ProductRead_init (d : kwargs) : M ProductRead.t :=
  let product_id := required d "product_id" int_validator in
  let name := required d "name" str_validator in
  let business := required d "business" BusinessBase_validator in
  created_at ← with_default_factory d "created_at" datetime_validator utcnow;
  updated_at ← with_default_factory d "updated_at" datetime_validator utcnow;
  match product_id, name, business, created_at, updated_at with
  | inr i, inr n, inr b, inr c, inr u =>
      mret (ProductRead.mk i n b c u)
  | _, _, _, _, _ =>
      raise (ValidationError
               (errors_of product_id ++ errors_of name ++
                errors_of business ++ errors_of created_at ++
                errors_of updated_at)%list)
  end.

(** *** Business endpoints *)

Definition create_business (business : BusinessCreate) : M BusinessRead.t :=
  present ← contains businesses (BusinessBase.ein business);
  if present : bool then
    raise (HTTPException 400 "Business with this EIN already exists")
  else
    r ← BusinessRead_init (BusinessBase.model_dump business);
    setitem businesses (BusinessBase.ein business) r;;
    getitem businesses (BusinessBase.ein business).

Definition list_businesses (ein name email phone : option string)
    : M (list BusinessRead.t) :=
  results ← values businesses;
  let results :=
    match ein with
    | Some ein => filter (fun b => BusinessRead.ein b = ein) results
    | None => results
    end in
  let results :=
    match name with
    | Some name => filter (fun b => BusinessRead.name b = name) results
    | None => results
    end in
  let results :=
    match email with
    | Some email => filter (fun b => BusinessRead.email b = email) results
    | None => results
    end in
  let results :=
    match phone with
    | Some phone => filter (fun b => BusinessRead.phone b = Some phone) results
    | None => results
    end in
  mret results.

Definition get_business (business_ein : string) : M BusinessRead.t :=
  present ← contains businesses business_ein;
  if present : bool then getitem businesses business_ein
  else raise (HTTPException 404 "Business not found").

Definition update_business (business_ein : string) (upd : BusinessUpdate.t)
    : M BusinessRead.t :=
  present ← contains businesses business_ein;
  if present : bool then
    b ← getitem businesses business_ein;
    let stored := BusinessRead.model_dump b in
    let stored := update stored (BusinessUpdate.model_dump_exclude_unset upd) in
    r ← BusinessRead_init stored;
    setitem businesses business_ein r;;
    getitem businesses business_ein
  else raise (HTTPException 404 "Business not found").

Definition delete_business (ein : string) : M unit :=
  present ← contains businesses ein;
  if present : bool then delitem businesses ein
  else raise (HTTPException 404 "Business not found").

(** *** Product endpoints *)

Definition create_product (product : ProductCreate) : M ProductRead.t :=
  present ← contains products (ProductBase.product_id product);
  if present : bool then
    raise (HTTPException 400 "Product with this ID already exists")
  else
    product_read ← ProductRead_init (ProductBase.model_dump product);
    setitem products (ProductRead.product_id product_read) product_read;;
    mret product_read.

Definition list_products (product_id : option Z) (name : option string)
    (business_ein business_name : option string) : M (list ProductRead.t) :=
  results ← values products;
  let results :=
    match product_id with
    | Some product_id =>
        filter (fun p => ProductRead.product_id p = product_id) results
    | None => results
    end in
  let results :=
    match name with
    | Some name => filter (fun p => ProductRead.name p = name) results
    | None => results
    end in
  let results :=
    match business_ein with
    | Some business_ein =>
        filter (fun p => BusinessBase.ein (ProductRead.business p) = business_ein)
               results
    | None => results
    end in
  let results :=
    match business_name with
    | Some business_name =>
        filter (fun p => BusinessBase.name (ProductRead.business p) = business_name)
               results
    | None => results
    end in
  mret results.

Definition get_product (product_id : Z) : M ProductRead.t :=
  present ← contains products product_id;
  if present : bool then getitem products product_id
  else raise (HTTPException 404 "Product not found").

Definition update_product (product_id : Z) (upd : ProductUpdate.t)
    : M ProductRead.t :=
  present ← contains products product_id;
  if present : bool then
    p ← getitem products product_id;
    let stored := ProductRead.model_dump p in
    let stored := update stored (ProductUpdate.model_dump_exclude_unset upd) in
    r ← ProductRead_init stored;
    setitem products product_id r;;
    getitem products product_id
  else raise (HTTPException 404 "Product not found").

Definition delete_product (product_id : Z) : M unit :=
  present ← contains products product_id;
  if present : bool then delitem products product_id
  else raise (HTTPException 404 "Product not found").

End Service.

(** ** Vocabulary of the properties *)

(** The state after one more reading of the clock. *)
Definition tick (w : world) : world :=
  World (w_businesses w) (w_products w) (S (w_ticks w)).

(** The state with one of the dictionaries replaced. *)
Definition put_businesses (m : gmap string BusinessRead.t) (w : world) : world :=
  World m (w_products w) (w_ticks w).

Definition put_products (m : gmap Z ProductRead.t) (w : world) : world :=
  World (w_businesses w) m (w_ticks w).

(** The read models built from a validated base part and two timestamps. *)
Definition BusinessRead_of (b : BusinessBase.t) (c u : datetime) : BusinessRead.t :=
  BusinessRead.mk (BusinessBase.ein b) (BusinessBase.name b)
    (BusinessBase.email b) (BusinessBase.phone b) c u.

Definition ProductRead_of (p : ProductBase.t) (c u : datetime) : ProductRead.t :=
  ProductRead.mk (ProductBase.product_id p) (ProductBase.name p)
    (ProductBase.business p) c u.

Definition ProductRead_base (p : ProductRead.t) : ProductBase.t :=
  ProductBase.mk (ProductRead.product_id p) (ProductRead.name p)
    (ProductRead.business p).

(** What a constructor call returns or raises, from the validation result. *)
Definition construct {A B} (g : A -> B) (r : validated A) : outcome B :=
  match r with
  | inr a => Return (g a)
  | inl es => Raise (ValidationError es)
  end.

(** The failure kinds of the specification, as the handlers signal them:
    [Conflict] is the HTTP status 400 of the create handlers, [NotFound] the
    status 404, and [InvalidFormat] of a field a validation error with a
    pattern-mismatch line at that field. *)
Definition is_Conflict {A} (o : outcome A) : Prop :=
  exists detail, o = Raise (HTTPException 400 detail).

Definition is_NotFound {A} (o : outcome A) : Prop :=
  exists detail, o = Raise (HTTPException 404 detail).

Definition is_InvalidFormat {A} (loc : list string) (o : outcome A) : Prop :=
  exists es, o = Raise (ValidationError es) /\ (loc, string_pattern_mismatch) ∈ es.

(** A validated instance: validating it again gives it back.  For the two
    constrained fields this says that [ein] matches the pattern and that
    [email] is an address the check accepts in its normalised form. *)
Definition BusinessBase_valid `{Runtime} (b : BusinessBase.t) : Prop :=
  EIN_pattern (BusinessBase.ein b) = true /\
  email_validator (BusinessBase.email b) = Some (BusinessBase.email b).

Definition BusinessRead_valid `{Runtime} (b : BusinessRead.t) : Prop :=
  BusinessBase_valid (BusinessRead.base b).

Definition ProductBase_valid `{Runtime} (p : ProductBase.t) : Prop :=
  BusinessBase_valid (ProductBase.business p).

Definition ProductRead_valid `{Runtime} (p : ProductRead.t) : Prop :=
  BusinessBase_valid (ProductRead.business p).

Definition BusinessUpdate_valid `{Runtime} (u : BusinessUpdate.t) : Prop :=
  (forall e, BusinessUpdate.ein u = Supplied (Some e) -> EIN_pattern e = true) /\
  (forall m, BusinessUpdate.email u = Supplied (Some m) ->
             email_validator m = Some m).

Definition ProductUpdate_valid `{Runtime} (u : ProductUpdate.t) : Prop :=
  forall i, ProductUpdate.business u = Supplied (Some i) ->
            BusinessBase_valid (BusinessBase.fields i).

(** The address check returns addresses in a form it accepts and leaves as
    they are. *)
Definition normalises `{Runtime} : Prop :=
  forall s v, email_validator s = Some v -> email_validator v = Some v.

(** Every stored record is a validated one. *)
Definition store_valid `{Runtime} (w : world) : Prop :=
  (forall k b, w_businesses w !! k = Some b -> BusinessRead_valid b) /\
  (forall k p, w_products w !! k = Some p -> ProductRead_valid p).

(** The merge of a partial update as the specification words it: a field
    present in the payload overwrites, every other field is copied. *)
Definition overwrite {A} (f : field A) (old : A) : A :=
  match f with
  | Omitted => old
  | Supplied a => a
  end.

(** A payload value of a required field is [None] when the field was
    explicitly set to null; the merged record exists when no required field
    is.  The timestamps are no fields of a payload and are copied. *)
Definition merge_business (b : BusinessRead.t) (u : BusinessUpdate.t)
    : option BusinessRead.t :=
  e ← overwrite (BusinessUpdate.ein u) (Some (BusinessRead.ein b));
  n ← overwrite (BusinessUpdate.name u) (Some (BusinessRead.name b));
  m ← overwrite (BusinessUpdate.email u) (Some (BusinessRead.email b));
  Some (BusinessRead.mk e n m
          (overwrite (BusinessUpdate.phone u) (BusinessRead.phone b))
          (BusinessRead.created_at b) (BusinessRead.updated_at b)).

Definition merge_product (p : ProductRead.t) (u : ProductUpdate.t)
    : option ProductRead.t :=
  i ← overwrite (ProductUpdate.product_id u) (Some (ProductRead.product_id p));
  n ← overwrite (ProductUpdate.name u) (Some (ProductRead.name p));
  b ← overwrite (field_map (fmap BusinessBase.fields) (ProductUpdate.business u))
                (Some (ProductRead.business p));
  Some (ProductRead.mk i n b
          (ProductRead.created_at p) (ProductRead.updated_at p)).

Definition is_ValidationError {A} (o : outcome A) : Prop :=
  exists es, o = Raise (ValidationError es).

(** The payload with no field set. *)
Definition BusinessUpdate_empty : BusinessUpdate.t :=
  BusinessUpdate.mk Omitted Omitted Omitted Omitted.

Definition ProductUpdate_empty : ProductUpdate.t :=
  ProductUpdate.mk Omitted Omitted Omitted.

(** The filters of the two list operations, as predicates on a record. *)
Definition business_matches (ein name email phone : option string)
    (b : BusinessRead.t) : Prop :=
  (forall x, ein = Some x -> BusinessRead.ein b = x) /\
  (forall x, name = Some x -> BusinessRead.name b = x) /\
  (forall x, email = Some x -> BusinessRead.email b = x) /\
  (forall x, phone = Some x -> BusinessRead.phone b = Some x).

Definition product_matches (product_id : option Z)
    (name business_ein business_name : option string)
    (p : ProductRead.t) : Prop :=
  (forall x, product_id = Some x -> ProductRead.product_id p = x) /\
  (forall x, name = Some x -> ProductRead.name p = x) /\
  (forall x, business_ein = Some x ->
             BusinessBase.ein (ProductRead.business p) = x) /\
  (forall x, business_name = Some x ->
             BusinessBase.name (ProductRead.business p) = x).

(** Two filter settings put together; they are on distinct fields when no
    field is constrained by both. *)
Definition both {A} (f1 f2 : option A) : option A :=
  match f1 with
  | Some x => Some x
  | None => f2
  end.

Definition distinct_fields {A} (f1 f2 : option A) : Prop :=
  f1 = None \/ f2 = None.

(** ** The constructor of the update payload

    [BusinessUpdate]: every field is [Optional] with the default [None], so
    no key is required; a key that is present is validated and recorded in
    [model_fields_set], a key that is absent leaves the field unset. *)

Definition optional_field {A} (d : kwargs) (f : string)
    (v : value -> validated A) : validated (field (option A)) :=
  match d !! f with
  | Some x =>
      match at_loc f (Optional v x) with
      | inr o => inr (Supplied o)
      | inl es => inl es
      end
  | None => inr Omitted
  end.

Definition BusinessUpdate_init `{Runtime} (d : kwargs)
    : validated BusinessUpdate.t :=
  let ein := optional_field d "ein" EINType in
  let name := optional_field d "name" str_validator in
  let email := optional_field d "email" EmailStr in
  let phone := optional_field d "phone" str_validator in
  match ein, name, email, phone with
  | inr e, inr n, inr m, inr p => inr (BusinessUpdate.mk e n m p)
  | _, _, _, _ =>
      inl (errors_of ein ++ errors_of name ++ errors_of email ++
           errors_of phone)%list
  end.

(** ** More vocabulary *)

(** A handler raising a validation error with a given line. *)
Definition raises_line {A} (loc : list string) (t : error_type)
    (o : outcome A) : Prop :=
  exists es, o = Raise (ValidationError es) /\ (loc, t) ∈ es.

(** Two payloads put together, the later one winning field by field. *)
Definition field_then {A} (f1 f2 : field A) : field A :=
  match f2 with
  | Supplied a => Supplied a
  | Omitted => f1
  end.

Definition BusinessUpdate_then (u1 u2 : BusinessUpdate.t) : BusinessUpdate.t :=
  BusinessUpdate.mk
    (field_then (BusinessUpdate.ein u1) (BusinessUpdate.ein u2))
    (field_then (BusinessUpdate.name u1) (BusinessUpdate.name u2))
    (field_then (BusinessUpdate.email u1) (BusinessUpdate.email u2))
    (field_then (BusinessUpdate.phone u1) (BusinessUpdate.phone u2)).

Definition ProductUpdate_then (u1 u2 : ProductUpdate.t) : ProductUpdate.t :=
  ProductUpdate.mk
    (field_then (ProductUpdate.product_id u1) (ProductUpdate.product_id u2))
    (field_then (ProductUpdate.name u1) (ProductUpdate.name u2))
    (field_then (ProductUpdate.business u1) (ProductUpdate.business u2)).

(** The two timestamps of every stored record are two successive readings
    of the clock, taken before now. *)
Definition stamped_at `{Runtime} (t : nat) (c u : datetime) : Prop :=
  exists n, (S n < t)%nat /\ c = clock n /\ u = clock (S n).

Definition stamps_ok `{Runtime} (w : world) : Prop :=
  (forall k b, w_businesses w !! k = Some b ->
     stamped_at (w_ticks w) (BusinessRead.created_at b)
       (BusinessRead.updated_at b)) /\
  (forall k p, w_products w !! k = Some p ->
     stamped_at (w_ticks w) (ProductRead.created_at p)
       (ProductRead.updated_at p)).

(** ** A sample runtime

    An address check that accepts the strings containing [@] and leaves them
    as they are, a clock whose [n]-th reading is [n], and a class [\d] made
    of the digits [0]..[9] and the ten Arabic-Indic digits U+0660..U+0669. *)

Fixpoint has_at (s : string) : bool :=
  match s with
  | EmptyString => false
  | String c s' => Ascii.eqb c "@" || has_at s'
  end.

Definition sample_runtime : Runtime :=
  {| email_validator := fun s => if has_at s then Some s else None;
     clock := fun n => Z.of_nat n;
     regex_digit := fun n =>
       (((48 <=? n) && (n <=? 57)) || ((1632 <=? n) && (n <=? 1641)))%N |}.

Definition cupcakes : BusinessCreate :=
  BusinessBase.mk "12-3456789" "Ashley's Cupcakes" "a@example.com" None.

Definition vanilla : ProductCreate :=
  ProductBase.mk 0 "Vanilla Cupcake" cupcakes.


(** The records the two creates of the scenario store, and four payloads of
    partial updates. *)
Definition cupcakes_read : BusinessRead.t := BusinessRead_of cupcakes 0 1.

Definition vanilla_read : ProductRead.t := ProductRead_of vanilla 2 3.

Definition bakery_patch : BusinessUpdate.t :=
  BusinessUpdate.mk Omitted (Supplied (Some "Ashley's Bakery")) Omitted
    (Supplied None).

Definition rekey_patch : BusinessUpdate.t :=
  BusinessUpdate.mk (Supplied (Some "98-7654321")) Omitted Omitted Omitted.

Definition chocolate_patch : ProductUpdate.t :=
  ProductUpdate.mk Omitted (Supplied (Some "Chocolate Cupcake")) Omitted.

Definition renumber_patch : ProductUpdate.t :=
  ProductUpdate.mk (Supplied (Some 7)) Omitted Omitted.

(** The sample store: one business and one product embedding it. *)
Definition shop : world :=
  let w := (@create_business sample_runtime cupcakes initial).2 in
  (@create_product sample_runtime vanilla w).2.

(** A second business, and the store holding both. *)
Definition donuts : BusinessCreate :=
  BusinessBase.mk "98-7654321" "Dana's Donuts" "d@example.com"
    (Some "+1-212-555-0199").

Definition donuts_read : BusinessRead.t := BusinessRead_of donuts 4 5.

Definition glazed : ProductCreate := ProductBase.mk 7 "Glazed Donut" donuts.

Definition glazed_read : ProductRead.t := ProductRead_of glazed 6 7.

Definition mall : world :=
  let w := (@create_business sample_runtime donuts shop).2 in
  (@create_product sample_runtime glazed w).2.

(** The body of a partial update, as keyword arguments, and one whose
    address the sample check rejects. *)
Definition bakery_body : kwargs :=
  <["name" := VStr "Ashley's Bakery"]> (<["phone" := VNone]> ∅).

Definition no_address : BusinessCreate :=
  BusinessBase.mk "55-5555555" "Nameless" "nowhere" None.

(** A business whose [ein] holds an Arabic-Indic digit. *)
Definition arabic : BusinessCreate :=
  BusinessBase.mk arabic_ein "Ashley's Cupcakes" "a@example.com" None.

(** * Properties *)

(** ** The EIN pattern against the worded format *)

Lemma append_empty_r (s : string) : s +:+ "" = s.
Proof.
  induction s as [|c s IH]; [done|].
  change (String c s +:+ "") with (String c (s +:+ "")). by rewrite IH.
Qed.

Lemma length_append (a b : string) :
  String.length (a +:+ b) = (String.length a + String.length b)%nat.
Proof.
  induction a as [|c a IH]; [done|].
  change (String c a +:+ b) with (String c (a +:+ b)). cbn. by rewrite IH.
Qed.

Lemma ein_shape_length s : ein_shape s -> String.length s = 10%nat.
Proof.
  intros (a & b & -> & Ha & _ & Hb & _).
  rewrite !length_append, Ha, Hb. done.
Qed.

Lemma ascii_only_append a b :
  ascii_only (a +:+ b) = ascii_only a && ascii_only b.
Proof.
  induction a as [|c a IH]; [done|].
  change (String c a +:+ b) with (String c (a +:+ b)).
  cbn [ascii_only]. by rewrite IH, andb_assoc.
Qed.

Lemma ascii_digit_code c :
  ascii_digit c = ((48 <=? N_of_ascii c) && (N_of_ascii c <=? 57))%N.
Proof. by destruct c as [[] [] [] [] [] [] [] []]. Qed.

Lemma ascii_digit_below c : ascii_digit c = true -> (N_of_ascii c < 128)%N.
Proof.
  rewrite ascii_digit_code. intros [_ H]%andb_true_iff.
  apply N.leb_le in H. lia.
Qed.

Lemma all_ascii_digits_ascii_only a :
  all_ascii_digits a = true -> ascii_only a = true.
Proof.
  induction a as [|c a IH]; [done|]. cbn [all_ascii_digits ascii_only].
  intros [Hc Ha]%andb_true_iff. apply andb_true_iff. split; [|by apply IH].
  apply N.ltb_lt. by apply ascii_digit_below.
Qed.

Lemma ein_shape_ascii_only s : ein_shape s -> ascii_only s = true.
Proof.
  intros (a & b & -> & _ & Ha & _ & Hb).
  rewrite !ascii_only_append.
  by rewrite (all_ascii_digits_ascii_only a), (all_ascii_digits_ascii_only b).
Qed.

Lemma utf8_decode_ascii c s :
  (N_of_ascii c < 128)%N -> utf8_decode (String c s) = Some (N_of_ascii c, s).
Proof.
  intros Hc. unfold utf8_decode. cbv zeta.
  by rewrite (proj2 (N.ltb_lt _ _) Hc).
Qed.

Lemma N_of_byte n : (n < 256)%N -> N_of_ascii (byte n) = n.
Proof. apply N_ascii_embedding. Qed.

Lemma continuation_byte x :
  (x < 64)%N -> continuation (byte (128 + x)) = Some x.
Proof.
  intros Hx. unfold continuation. rewrite N_of_byte by lia. cbv zeta.
  replace (128 <=? 128 + x)%N with true by (symmetry; apply N.leb_le; lia).
  replace (128 + x <? 192)%N with true by (symmetry; apply N.ltb_lt; lia).
  cbn [andb]. f_equal. lia.
Qed.

Ltac ltb_cases :=
  repeat match goal with
  | |- context [(?a <? ?b)%N] => destruct (N.ltb_spec a b); try lia
  | |- context [(?a <=? ?b)%N] => destruct (N.leb_spec a b); try lia
  end.

(** The decoder reads back what the encoder writes. *)
Lemma utf8_decode_encode cp e s :
  utf8_encode cp = Some e -> utf8_decode (e +:+ s) = Some (cp, s).
Proof.
  unfold utf8_encode.
  replace (cp / 262144)%N with (cp / 64 / 64 / 64)%N
    by by rewrite !N.Div0.div_div.
  replace (cp / 4096)%N with (cp / 64 / 64)%N by by rewrite N.Div0.div_div.
  pose proof (N.mod_lt cp 64 ltac:(lia)) as H0.
  pose proof (N.mod_lt (cp / 64) 64 ltac:(lia)) as H1.
  pose proof (N.mod_lt (cp / 64 / 64) 64 ltac:(lia)) as H2.
  pose proof (N.div_mod cp 64 ltac:(lia)) as D0.
  pose proof (N.div_mod (cp / 64) 64 ltac:(lia)) as D1.
  pose proof (N.div_mod (cp / 64 / 64) 64 ltac:(lia)) as D2.
  generalize dependent (cp / 64 / 64 / 64)%N. intros q3.
  generalize dependent ((cp / 64 / 64) mod 64)%N. intros r2.
  generalize dependent (cp / 64 / 64)%N. intros q2.
  generalize dependent ((cp / 64) mod 64)%N. intros r1.
  generalize dependent (cp / 64)%N. intros q1.
  generalize dependent (cp mod 64)%N. intros r0.
  intros H0 D0 H1 D1 H2 D2 He.
  destruct (N.ltb_spec cp 128).
  { injection He as <-. change (String (byte cp) "" +:+ s) with (String (byte cp) s).
    rewrite utf8_decode_ascii; rewrite N_of_byte by lia; [done|lia]. }
  destruct (N.ltb_spec cp 2048).
  { injection He as <-.
    change (String ?a (String ?b "") +:+ s) with (String a (String b s)).
    unfold utf8_decode. rewrite N_of_byte by lia. cbv zeta.
    rewrite continuation_byte by done.
    ltb_cases. do 2 f_equal. lia. }
  destruct (N.ltb_spec cp 65536).
  { destruct ((55296 <=? cp) && (cp <? 57344))%N eqn:Hs; [done|].
    injection He as <-.
    change (String ?a (String ?b (String ?c "")) +:+ s)
      with (String a (String b (String c s))).
    unfold utf8_decode. rewrite N_of_byte by lia. cbv zeta.
    rewrite !continuation_byte by done.
    replace ((224 + q2 - 224) * 4096 + r1 * 64 + r0)%N
      with cp by lia.
    rewrite Hs. ltb_cases. done. }
  destruct (N.ltb_spec cp 1114112); [|done].
  injection He as <-.
  change (String ?a (String ?b (String ?c (String ?d ""))) +:+ s)
    with (String a (String b (String c (String d s)))).
  unfold utf8_decode. rewrite N_of_byte by lia. cbv zeta.
  rewrite !continuation_byte by done.
  replace ((240 + q3 - 240) * 262144 + r2 * 4096 + r1 * 64 + r0)%N with cp by lia.
  ltb_cases. done.
Qed.

Lemma byte_of_N c : byte (N_of_ascii c) = c.
Proof. apply ascii_N_embedding. Qed.

Lemma continuation_inv c x :
  continuation c = Some x -> (x < 64)%N /\ c = byte (128 + x).
Proof.
  unfold continuation. cbv zeta.
  destruct (N.leb_spec 128 (N_of_ascii c)); [|done].
  destruct (N.ltb_spec (N_of_ascii c) 192); [|done].
  cbn [andb]. intros [= <-]. split; [lia|].
  replace (128 + (N_of_ascii c - 128))%N with (N_of_ascii c) by lia.
  by rewrite byte_of_N.
Qed.

(** The decoder reads nothing else: no overlong form, no surrogate. *)
Lemma utf8_encode_decode s cp s' :
  utf8_decode s = Some (cp, s') ->
  exists e, utf8_encode cp = Some e /\ s = e +:+ s'.
Proof.
  unfold utf8_decode, utf8_encode.
  replace (cp / 262144)%N with (cp / 64 / 64 / 64)%N
    by by rewrite !N.Div0.div_div.
  replace (cp / 4096)%N with (cp / 64 / 64)%N by by rewrite N.Div0.div_div.
  pose proof (N.mod_lt cp 64 ltac:(lia)) as H0.
  pose proof (N.mod_lt (cp / 64) 64 ltac:(lia)) as H1.
  pose proof (N.mod_lt (cp / 64 / 64) 64 ltac:(lia)) as H2.
  pose proof (N.div_mod cp 64 ltac:(lia)) as D0.
  pose proof (N.div_mod (cp / 64) 64 ltac:(lia)) as D1.
  pose proof (N.div_mod (cp / 64 / 64) 64 ltac:(lia)) as D2.
  generalize dependent (cp / 64 / 64 / 64)%N. intros q3.
  generalize dependent ((cp / 64 / 64) mod 64)%N. intros r2.
  generalize dependent (cp / 64 / 64)%N. intros q2.
  generalize dependent ((cp / 64) mod 64)%N. intros r1.
  generalize dependent (cp / 64)%N. intros q1.
  generalize dependent (cp mod 64)%N. intros r0.
  intros H0 D0 H1 D1 H2 D2.
  destruct s as [|c0 s1]; [done|]. cbv zeta.
  assert (Hc0 : c0 = byte (N_of_ascii c0)) by by rewrite byte_of_N.
  remember (N_of_ascii c0) as b0 eqn:Hb0. clear Hb0. subst c0.
  destruct (N.ltb_spec b0 128).
  { intros [= <- <-]. destruct (N.ltb_spec b0 128); [|lia].
    eexists. split; reflexivity. }
  destruct (N.ltb_spec b0 194); [done|].
  destruct (N.ltb_spec b0 224).
  { destruct s1 as [|c1 s2]; [done|].
    destruct (continuation c1) as [x1|] eqn:E1; [|done].
    apply continuation_inv in E1 as [Hx1 ->].
    intros [= <- <-]. ltb_cases. eexists. split; [reflexivity|].
    replace q1 with (b0 - 192)%N by lia. replace r0 with x1 by lia.
    replace (192 + (b0 - 192))%N with b0 by lia. done. }
  destruct (N.ltb_spec b0 240).
  { destruct s1 as [|c1 [|c2 s3]]; [done..|].
    destruct (continuation c1) as [x1|] eqn:E1; [|done].
    destruct (continuation c2) as [x2|] eqn:E2; [|done].
    apply continuation_inv in E1 as [Hx1 ->].
    apply continuation_inv in E2 as [Hx2 ->].
    destruct (N.ltb_spec ((b0 - 224) * 4096 + x1 * 64 + x2) 2048); [done|].
    cbn [orb].
    destruct ((55296 <=? (b0 - 224) * 4096 + x1 * 64 + x2) &&
              ((b0 - 224) * 4096 + x1 * 64 + x2 <? 57344))%N eqn:Hs; [done|].
    intros [= <- <-]. rewrite Hs. ltb_cases. eexists. split; [reflexivity|].
    replace q2 with (b0 - 224)%N by lia. replace r1 with x1 by lia.
    replace r0 with x2 by lia.
    replace (224 + (b0 - 224))%N with b0 by lia. done. }
  destruct (N.ltb_spec b0 245); [|done].
  destruct s1 as [|c1 [|c2 [|c3 s4]]]; [done..|].
  destruct (continuation c1) as [x1|] eqn:E1; [|done].
  destruct (continuation c2) as [x2|] eqn:E2; [|done].
  destruct (continuation c3) as [x3|] eqn:E3; [|done].
  apply continuation_inv in E1 as [Hx1 ->].
  apply continuation_inv in E2 as [Hx2 ->].
  apply continuation_inv in E3 as [Hx3 ->].
  destruct (N.ltb_spec ((b0 - 240) * 262144 + x1 * 4096 + x2 * 64 + x3) 65536);
    [done|].
  destruct (N.ltb_spec 1114111 ((b0 - 240) * 262144 + x1 * 4096 + x2 * 64 + x3));
    [done|].
  cbn [orb]. intros [= <- <-]. ltb_cases. eexists. split; [reflexivity|].
  replace q3 with (b0 - 240)%N by lia. replace r2 with x1 by lia.
  replace r1 with x2 by lia. replace r0 with x3 by lia.
  replace (240 + (b0 - 240))%N with b0 by lia. done.
Qed.

Lemma arabic_two_encoding :
  utf8_encode 1634 =
  Some (String (ascii_of_nat 217) (String (ascii_of_nat 162) "")).
Proof. reflexivity. Qed.

(** A decoded code point takes at least one byte. *)
Lemma utf8_decode_shorter s cp s' :
  utf8_decode s = Some (cp, s') -> (String.length s' < String.length s)%nat.
Proof.
  unfold utf8_decode. intros Hd.
  repeat case_match; simplify_eq; cbn [String.length]; lia.
Qed.

Lemma arabic_ein_not_shape : ~ ein_shape arabic_ein.
Proof. intros Hs%ein_shape_length. discriminate Hs. Qed.

Section Pattern.
Context `{rt : Runtime}.

Lemma rmatch_Repeat_0 r s : rmatch (Repeat 0 r) s = Some s.
Proof. reflexivity. Qed.

Lemma rmatch_Repeat_S n r s :
  rmatch (Repeat (S n) r) s =
  match rmatch r s with
  | Some s' => rmatch (Repeat n r) s'
  | None => None
  end.
Proof. reflexivity. Qed.

Lemma rmatch_Cat r1 r2 s :
  rmatch (Cat r1 r2) s =
  match rmatch r1 s with
  | Some s' => rmatch r2 s'
  | None => None
  end.
Proof. reflexivity. Qed.

Lemma rmatch_Lit a c s :
  rmatch (Lit a) (String c s) = if Ascii.eqb a c then Some s else None.
Proof. reflexivity. Qed.

Lemma rmatch_Digit s :
  rmatch Digit s =
  match utf8_decode s with
  | Some (cp, s') => if regex_digit cp then Some s' else None
  | None => None
  end.
Proof. reflexivity. Qed.

(** [\d{n}] consumes exactly [n] characters of the class. *)
Lemma rmatch_digits n : forall s rest,
  rmatch (Repeat n Digit) s = Some rest <-> digits n s rest.
Proof.
  induction n as [|n IH]; intros s rest.
  - rewrite rmatch_Repeat_0. split.
    + intros [= ->]. constructor.
    + by inversion 1.
  - rewrite rmatch_Repeat_S, rmatch_Digit. split.
    + destruct (utf8_decode s) as [[cp s']|] eqn:Hd; [|done].
      destruct (regex_digit cp) eqn:Hc; [|done].
      intros Hm%IH. by econstructor.
    + inversion 1 as [|n0 s0 s' rest0 cp Hd Hc Hn]; subst.
      rewrite Hd, Hc. by apply IH.
Qed.

(** The pattern accepts exactly: two characters of the class [\d], a
    hyphen, seven characters of the class, and the end of the string. *)
Lemma EIN_pattern_decimal s : EIN_pattern s = true <-> decimal_ein_shape s.
Proof.
  unfold EIN_pattern, fullmatch, EIN_regex, decimal_ein_shape.
  rewrite rmatch_Cat. split.
  - destruct (rmatch (Repeat 2 Digit) s) as [s1|] eqn:H1; [|done].
    destruct s1 as [|c s2]; [done|]. rewrite rmatch_Cat, rmatch_Lit.
    destruct (Ascii.eqb "-" c) eqn:Hc; [|done].
    apply Ascii.eqb_eq in Hc as <-.
    destruct (rmatch (Repeat 7 Digit) s2) as [s3|] eqn:H2; [|done].
    destruct s3; [|done]. intros _.
    exists s2. split; by apply rmatch_digits.
  - intros (rest & H1%rmatch_digits & H2%rmatch_digits).
    rewrite H1, rmatch_Cat, rmatch_Lit.
    change (Ascii.eqb "-" "-") with true. cbv beta iota. by rewrite H2.
Qed.

(** A string without a hyphen fails, whatever the class [\d] holds. *)
Lemma no_hyphen_pattern : EIN_pattern "123456789" = false.
Proof.
  unfold EIN_pattern, fullmatch, EIN_regex.
  rewrite rmatch_Cat, rmatch_Repeat_S, rmatch_Digit.
  rewrite (utf8_decode_ascii "1") by (cbn; lia).
  destruct (regex_digit (N_of_ascii "1")); [|done].
  rewrite rmatch_Repeat_S, rmatch_Digit.
  rewrite (utf8_decode_ascii "2") by (cbn; lia).
  destruct (regex_digit (N_of_ascii "2")); done.
Qed.

Section AsciiDigits.
Hypothesis Hok : digit_class_ok.

Lemma rmatch_Digit_ascii c s :
  (N_of_ascii c < 128)%N ->
  rmatch Digit (String c s) = if ascii_digit c then Some s else None.
Proof.
  intros Hc. rewrite rmatch_Digit, utf8_decode_ascii by done.
  by rewrite (proj1 Hok _ Hc), <- ascii_digit_code.
Qed.

Lemma rmatch_digits_sound n : forall s rest,
  ascii_only s = true ->
  rmatch (Repeat n Digit) s = Some rest ->
  exists a, s = a +:+ rest /\ String.length a = n /\
            all_ascii_digits a = true /\ ascii_only rest = true.
Proof.
  induction n as [|n IH]; intros s rest Has Hm.
  - rewrite rmatch_Repeat_0 in Hm. injection Hm as ->. by exists "".
  - rewrite rmatch_Repeat_S in Hm. destruct s as [|c s].
    { by rewrite rmatch_Digit in Hm. }
    cbn [ascii_only] in Has. apply andb_true_iff in Has as [Hc Has].
    apply N.ltb_lt in Hc. rewrite rmatch_Digit_ascii in Hm by done.
    destruct (ascii_digit c) eqn:Hd; [|done].
    destruct (IH _ _ Has Hm) as (a & -> & Hlen & Hall & Hrest).
    exists (String c a). split; [done|]. split; [cbn; by rewrite Hlen|].
    split; [|done]. cbn [all_ascii_digits]. by rewrite Hd, Hall.
Qed.

Lemma rmatch_digits_complete a : forall rest,
  all_ascii_digits a = true ->
  rmatch (Repeat (String.length a) Digit) (a +:+ rest) = Some rest.
Proof.
  induction a as [|c a IH]; intros rest Hall; [done|].
  cbn in Hall. apply andb_true_iff in Hall as [Hc Hall].
  change (String c a +:+ rest) with (String c (a +:+ rest)).
  cbn [String.length]. rewrite rmatch_Repeat_S.
  rewrite rmatch_Digit_ascii by by apply ascii_digit_below.
  rewrite Hc. by apply IH.
Qed.

(** Every string of the worded format is accepted. *)
Lemma ein_shape_pattern s : ein_shape s -> EIN_pattern s = true.
Proof.
  unfold EIN_pattern, fullmatch, EIN_regex. rewrite rmatch_Cat.
  intros (a & b & -> & Ha & Hda & Hb & Hdb).
  rewrite <- Ha at 1. rewrite rmatch_digits_complete by done.
  rewrite rmatch_Cat. change ("-" +:+ b) with (String "-" b). rewrite rmatch_Lit.
  change (Ascii.eqb "-" "-") with true. cbv beta iota.
  rewrite <- Hb. rewrite <- (append_empty_r b) at 2.
  rewrite rmatch_digits_complete; done.
Qed.

(** Among the strings of ASCII characters the pattern accepts the worded
    format only. *)
Lemma ascii_pattern_shape s :
  ascii_only s = true -> EIN_pattern s = true -> ein_shape s.
Proof.
  unfold EIN_pattern, fullmatch, EIN_regex. rewrite rmatch_Cat. intros Has.
  destruct (rmatch (Repeat 2 Digit) s) as [s1|] eqn:H1; [|done].
  apply rmatch_digits_sound in H1 as (a & -> & Ha & Hda & Hs1); [|done].
  destruct s1 as [|c s2]; [done|]. rewrite rmatch_Cat, rmatch_Lit.
  destruct (Ascii.eqb "-" c) eqn:Hc; [|done].
  apply Ascii.eqb_eq in Hc as <-.
  cbn [ascii_only] in Hs1. apply andb_true_iff in Hs1 as [_ Hs2].
  destruct (rmatch (Repeat 7 Digit) s2) as [s3|] eqn:H2; [|done].
  destruct s3; [|done]. intros _.
  apply rmatch_digits_sound in H2 as (b & -> & Hb & Hdb & _); [|done].
  exists a, b. rewrite append_empty_r. done.
Qed.

(** The string with the Arabic-Indic digit is accepted. *)
Lemma arabic_ein_pattern : EIN_pattern arabic_ein = true.
Proof.
  unfold EIN_pattern, fullmatch, EIN_regex, arabic_ein.
  rewrite rmatch_Cat, rmatch_Repeat_S.
  rewrite rmatch_Digit_ascii by (cbn; lia).
  change (ascii_digit "1") with true. cbv beta iota.
  rewrite rmatch_Repeat_S, rmatch_Digit.
  change (utf8_decode (String (ascii_of_nat 217)
            (String (ascii_of_nat 162) "-3456789")))
    with (Some (1634%N, "-3456789")).
  cbv beta iota. rewrite (proj2 Hok), rmatch_Repeat_0.
  rewrite rmatch_Cat, rmatch_Lit.
  change (Ascii.eqb "-" "-") with true. cbv beta iota.
  change (rmatch (Repeat 7 Digit) "3456789")
    with (rmatch (Repeat (String.length "3456789") Digit) ("3456789" +:+ "")).
  by rewrite rmatch_digits_complete.
Qed.

End AsciiDigits.

End Pattern.


(** ** The model constructors *)

Section Constructors.
Context `{Runtime}.

Lemma BusinessRead_init_fresh (d : kwargs) (w : world) :
  d !! "created_at" = None -> d !! "updated_at" = None ->
  BusinessRead_init d w =
    (construct (fun b => BusinessRead_of b (clock (w_ticks w))
                           (clock (S (w_ticks w))))
       (BusinessBase_init d),
     tick (tick w)).
Proof.
  intros Hc Hu. unfold BusinessRead_init, BusinessBase_init, with_default_factory.
  rewrite Hc, Hu. unfold mbind, M_bind, bind, mret, M_ret, ret, raise, utcnow.
  cbn [w_ticks].
  destruct (required d "ein" EINType), (required d "name" str_validator),
    (required d "email" EmailStr),
    (with_default d "phone" (Optional str_validator) None);
    cbn [errors_of construct]; rewrite ?app_nil_r; reflexivity.
Qed.

Lemma BusinessRead_init_stamped (d : kwargs) (c u : datetime) (w : world) :
  d !! "created_at" = Some (VDatetime c) ->
  d !! "updated_at" = Some (VDatetime u) ->
  BusinessRead_init d w =
    (construct (fun b => BusinessRead_of b c u) (BusinessBase_init d), w).
Proof.
  intros Hc Hu. unfold BusinessRead_init, BusinessBase_init, with_default_factory.
  rewrite Hc, Hu. unfold mbind, M_bind, bind, mret, M_ret, ret, raise.
  cbn [datetime_validator at_loc].
  destruct (required d "ein" EINType), (required d "name" str_validator),
    (required d "email" EmailStr),
    (with_default d "phone" (Optional str_validator) None);
    cbn [errors_of construct]; rewrite ?app_nil_r; reflexivity.
Qed.

Lemma ProductRead_init_fresh (d : kwargs) (w : world) :
  d !! "created_at" = None -> d !! "updated_at" = None ->
  ProductRead_init d w =
    (construct (fun p => ProductRead_of p (clock (w_ticks w))
                           (clock (S (w_ticks w))))
       (ProductBase_init d),
     tick (tick w)).
Proof.
  intros Hc Hu. unfold ProductRead_init, ProductBase_init, with_default_factory.
  rewrite Hc, Hu. unfold mbind, M_bind, bind, mret, M_ret, ret, raise, utcnow.
  cbn [w_ticks].
  destruct (required d "product_id" int_validator),
    (required d "name" str_validator),
    (required d "business" BusinessBase_validator);
    cbn [errors_of construct]; rewrite ?app_nil_r; reflexivity.
Qed.

Lemma ProductRead_init_stamped (d : kwargs) (c u : datetime) (w : world) :
  d !! "created_at" = Some (VDatetime c) ->
  d !! "updated_at" = Some (VDatetime u) ->
  ProductRead_init d w =
    (construct (fun p => ProductRead_of p c u) (ProductBase_init d), w).
Proof.
  intros Hc Hu. unfold ProductRead_init, ProductBase_init, with_default_factory.
  rewrite Hc, Hu. unfold mbind, M_bind, bind, mret, M_ret, ret, raise.
  cbn [datetime_validator at_loc].
  destruct (required d "product_id" int_validator),
    (required d "name" str_validator),
    (required d "business" BusinessBase_validator);
    cbn [errors_of construct]; rewrite ?app_nil_r; reflexivity.
Qed.

(** Validation of the four fields of a business, from what the keyword
    arguments hold under the four keys. *)
Lemma BusinessBase_init_strings (d : kwargs) (e n m : string) (vp : value) :
  d !! "ein" = Some (VStr e) -> d !! "name" = Some (VStr n) ->
  d !! "email" = Some (VStr m) ->
  d !! "phone" = Some vp \/ (d !! "phone" = None /\ vp = VNone) ->
  BusinessBase_init d =
    match (if EIN_pattern e then inr e
           else inl [(["ein"], string_pattern_mismatch)]),
          (match email_validator m with
           | Some m' => inr m'
           | None => inl [(["email"], value_error)]
           end),
          at_loc "phone" (Optional str_validator vp) with
    | inr e', inr m', inr p => inr (BusinessBase.mk e' n m' p)
    | r1, r2, r3 => inl (errors_of r1 ++ errors_of r2 ++ errors_of r3)%list
    end.
Proof.
  intros He Hn Hm Hp. unfold BusinessBase_init, required, with_default.
  rewrite He, Hn, Hm.
  assert (Hph : match d !! "phone" with
                | Some x => at_loc "phone" (Optional str_validator x)
                | None => inr None
                end = at_loc "phone" (Optional str_validator vp)).
  { destruct Hp as [-> | [-> ->]]; reflexivity. }
  rewrite Hph. cbn [EINType str_validator EmailStr at_loc].
  destruct (EIN_pattern e), (email_validator m),
    (at_loc "phone" (Optional str_validator vp)); reflexivity.
Qed.

Lemma Optional_str_opt (p : option string) :
  Optional str_validator (opt_str p) = inr p.
Proof. by destruct p. Qed.

Lemma BusinessBase_init_valid (d : kwargs) (b : BusinessBase.t) :
  BusinessBase_valid b ->
  d !! "ein" = Some (VStr (BusinessBase.ein b)) ->
  d !! "name" = Some (VStr (BusinessBase.name b)) ->
  d !! "email" = Some (VStr (BusinessBase.email b)) ->
  d !! "phone" = Some (opt_str (BusinessBase.phone b)) \/
    (d !! "phone" = None /\ BusinessBase.phone b = None) ->
  BusinessBase_init d = inr b.
Proof.
  intros [Hv1 Hv2] He Hn Hm Hp.
  rewrite (BusinessBase_init_strings d _ _ _ (opt_str (BusinessBase.phone b)) He Hn Hm).
  - rewrite Hv1, Hv2, Optional_str_opt. by destruct b.
  - destruct Hp as [Hp | [Hp ->]]; [by left | by right].
Qed.

Lemma BusinessBase_init_bad_ein (d : kwargs) (e : string) :
  d !! "ein" = Some (VStr e) -> EIN_pattern e = false ->
  exists es, BusinessBase_init d = inl es /\
             (["ein"], string_pattern_mismatch) ∈ es.
Proof.
  intros He Hbad.
  assert (Hein : required d "ein" EINType =
                 inl [(["ein"], string_pattern_mismatch)]).
  { unfold required. rewrite He. cbn [EINType]. by rewrite Hbad. }
  unfold BusinessBase_init. rewrite Hein. cbv beta iota zeta.
  eexists. split; [reflexivity|]. cbn [errors_of]. set_solver.
Qed.

End Constructors.

(** ** The dictionaries of [model_dump] and their merge *)

Lemma BusinessBase_dump_lookup (b : BusinessBase.t) :
  let d := BusinessBase.model_dump b in
  d !! "ein" = Some (VStr (BusinessBase.ein b)) /\
  d !! "name" = Some (VStr (BusinessBase.name b)) /\
  d !! "email" = Some (VStr (BusinessBase.email b)) /\
  d !! "phone" = Some (opt_str (BusinessBase.phone b)) /\
  d !! "created_at" = None /\ d !! "updated_at" = None.
Proof. repeat split; reflexivity. Qed.

Lemma BusinessBase_tracked_dump_lookup (i : BusinessBase.tracked) :
  let d := BusinessBase.model_dump_exclude_unset i in
  let b := BusinessBase.fields i in
  d !! "ein" = Some (VStr (BusinessBase.ein b)) /\
  d !! "name" = Some (VStr (BusinessBase.name b)) /\
  d !! "email" = Some (VStr (BusinessBase.email b)) /\
  (d !! "phone" = Some (opt_str (BusinessBase.phone b)) \/
   (d !! "phone" = None /\ BusinessBase.phone b = None)).
Proof.
  destruct i as [e n m [|p]]; repeat split; try reflexivity.
  - right. split; reflexivity.
  - left. reflexivity.
Qed.

(** The merged keyword arguments of [update_business], key by key. *)
Lemma business_merge_lookup (b : BusinessRead.t) (u : BusinessUpdate.t) :
  let d := update (BusinessRead.model_dump b)
                  (BusinessUpdate.model_dump_exclude_unset u) in
  d !! "ein" = Some (overwrite (field_map opt_str (BusinessUpdate.ein u))
                               (VStr (BusinessRead.ein b))) /\
  d !! "name" = Some (overwrite (field_map opt_str (BusinessUpdate.name u))
                                (VStr (BusinessRead.name b))) /\
  d !! "email" = Some (overwrite (field_map opt_str (BusinessUpdate.email u))
                                 (VStr (BusinessRead.email b))) /\
  d !! "phone" = Some (overwrite (field_map opt_str (BusinessUpdate.phone u))
                                 (opt_str (BusinessRead.phone b))) /\
  d !! "created_at" = Some (VDatetime (BusinessRead.created_at b)) /\
  d !! "updated_at" = Some (VDatetime (BusinessRead.updated_at b)).
Proof.
  destruct u as [[|e] [|n] [|m] [|p]]; repeat split; reflexivity.
Qed.

(** The merged keyword arguments of [update_product], key by key. *)
Lemma product_merge_lookup (p : ProductRead.t) (u : ProductUpdate.t) :
  let d := update (ProductRead.model_dump p)
                  (ProductUpdate.model_dump_exclude_unset u) in
  d !! "product_id" =
    Some (overwrite (field_map opt_int (ProductUpdate.product_id u))
                    (VInt (ProductRead.product_id p))) /\
  d !! "name" = Some (overwrite (field_map opt_str (ProductUpdate.name u))
                                (VStr (ProductRead.name p))) /\
  d !! "business" =
    Some (overwrite (field_map ProductUpdate.opt_business (ProductUpdate.business u))
                    (VDict (BusinessBase.model_dump (ProductRead.business p)))) /\
  d !! "created_at" = Some (VDatetime (ProductRead.created_at p)) /\
  d !! "updated_at" = Some (VDatetime (ProductRead.updated_at p)).
Proof.
  destruct u as [[|i] [|n] [|b]]; repeat split; reflexivity.
Qed.

(** ** The handlers, run on a state *)

Section Handlers.
Context `{Runtime}.

Lemma get_business_run (k : string) (w : world) :
  get_business k w =
    match w_businesses w !! k with
    | Some b => (Return b, w)
    | None => (Raise (HTTPException 404 "Business not found"), w)
    end.
Proof.
  unfold get_business, mbind, M_bind, bind, contains, getitem.
  cbn [read businesses].
  destruct (w_businesses w !! k) as [b|] eqn:Hk; [|reflexivity].
  change (bool_decide (is_Some (Some b))) with true. cbv beta iota.
  by rewrite Hk.
Qed.

Lemma get_product_run (k : Z) (w : world) :
  get_product k w =
    match w_products w !! k with
    | Some p => (Return p, w)
    | None => (Raise (HTTPException 404 "Product not found"), w)
    end.
Proof.
  unfold get_product, mbind, M_bind, bind, contains, getitem.
  cbn [read products].
  destruct (w_products w !! k) as [p|] eqn:Hk; [|reflexivity].
  change (bool_decide (is_Some (Some p))) with true. cbv beta iota.
  by rewrite Hk.
Qed.

Lemma delete_business_run (k : string) (w : world) :
  delete_business k w =
    match w_businesses w !! k with
    | Some _ => (Return tt, put_businesses (delete k (w_businesses w)) w)
    | None => (Raise (HTTPException 404 "Business not found"), w)
    end.
Proof.
  unfold delete_business, mbind, M_bind, bind, contains, delitem.
  cbn [read assign businesses].
  destruct (w_businesses w !! k) as [b|] eqn:Hk; [|reflexivity].
  change (bool_decide (is_Some (Some b))) with true. cbv beta iota.
  by rewrite Hk.
Qed.

Lemma delete_product_run (k : Z) (w : world) :
  delete_product k w =
    match w_products w !! k with
    | Some _ => (Return tt, put_products (delete k (w_products w)) w)
    | None => (Raise (HTTPException 404 "Product not found"), w)
    end.
Proof.
  unfold delete_product, mbind, M_bind, bind, contains, delitem.
  cbn [read assign products].
  destruct (w_products w !! k) as [p|] eqn:Hk; [|reflexivity].
  change (bool_decide (is_Some (Some p))) with true. cbv beta iota.
  by rewrite Hk.
Qed.

Lemma create_business_run (b : BusinessCreate) (w : world) :
  create_business b w =
    match w_businesses w !! BusinessBase.ein b with
    | Some _ =>
        (Raise (HTTPException 400 "Business with this EIN already exists"), w)
    | None =>
        match BusinessBase_init (BusinessBase.model_dump b) with
        | inr b' =>
            let r := BusinessRead_of b' (clock (w_ticks w))
                       (clock (S (w_ticks w))) in
            (Return r,
             put_businesses (<[BusinessBase.ein b := r]> (w_businesses w))
               (tick (tick w)))
        | inl es => (Raise (ValidationError es), tick (tick w))
        end
    end.
Proof.
  unfold create_business, mbind, M_bind, bind, contains.
  cbn [read businesses].
  destruct (w_businesses w !! BusinessBase.ein b) eqn:Hk; [reflexivity|].
  cbv beta iota. change (bool_decide (is_Some None)) with false. cbv beta iota.
  rewrite BusinessRead_init_fresh by reflexivity.
  destruct (BusinessBase_init (BusinessBase.model_dump b)) as [es|b'];
    cbn [construct]; [reflexivity|].
  unfold setitem, getitem. cbn [read assign businesses tick w_businesses].
  rewrite lookup_insert_eq. reflexivity.
Qed.

Lemma update_business_run (k : string) (u : BusinessUpdate.t) (w : world) :
  update_business k u w =
    match w_businesses w !! k with
    | None => (Raise (HTTPException 404 "Business not found"), w)
    | Some b =>
        match BusinessBase_init
                (update (BusinessRead.model_dump b)
                        (BusinessUpdate.model_dump_exclude_unset u)) with
        | inr b' =>
            let r := BusinessRead_of b' (BusinessRead.created_at b)
                       (BusinessRead.updated_at b) in
            (Return r, put_businesses (<[k := r]> (w_businesses w)) w)
        | inl es => (Raise (ValidationError es), w)
        end
    end.
Proof.
  unfold update_business, mbind, M_bind, bind, contains, getitem.
  cbn [read businesses].
  destruct (w_businesses w !! k) as [b|] eqn:Hk; [|reflexivity].
  cbv beta iota. change (bool_decide (is_Some (Some b))) with true. cbv beta iota.
  rewrite Hk.
  destruct (business_merge_lookup b u) as (_ & _ & _ & _ & Hc & Hu).
  rewrite (BusinessRead_init_stamped _ _ _ _ Hc Hu).
  destruct (BusinessBase_init _) as [es|b']; cbn [construct]; [reflexivity|].
  unfold setitem. cbn [read assign businesses w_businesses].
  rewrite lookup_insert_eq. reflexivity.
Qed.

Lemma create_product_run (p : ProductCreate) (w : world) :
  create_product p w =
    match w_products w !! ProductBase.product_id p with
    | Some _ =>
        (Raise (HTTPException 400 "Product with this ID already exists"), w)
    | None =>
        match ProductBase_init (ProductBase.model_dump p) with
        | inr p' =>
            let r := ProductRead_of p' (clock (w_ticks w))
                       (clock (S (w_ticks w))) in
            (Return r,
             put_products (<[ProductBase.product_id p' := r]> (w_products w))
               (tick (tick w)))
        | inl es => (Raise (ValidationError es), tick (tick w))
        end
    end.
Proof.
  unfold create_product, mbind, M_bind, bind, contains.
  cbn [read products].
  destruct (w_products w !! ProductBase.product_id p) eqn:Hk; [reflexivity|].
  cbv beta iota. change (bool_decide (is_Some None)) with false. cbv beta iota.
  rewrite ProductRead_init_fresh by reflexivity.
  destruct (ProductBase_init (ProductBase.model_dump p)) as [es|p'];
    cbn [construct]; reflexivity.
Qed.

Lemma update_product_run (k : Z) (u : ProductUpdate.t) (w : world) :
  update_product k u w =
    match w_products w !! k with
    | None => (Raise (HTTPException 404 "Product not found"), w)
    | Some p =>
        match ProductBase_init
                (update (ProductRead.model_dump p)
                        (ProductUpdate.model_dump_exclude_unset u)) with
        | inr p' =>
            let r := ProductRead_of p' (ProductRead.created_at p)
                       (ProductRead.updated_at p) in
            (Return r, put_products (<[k := r]> (w_products w)) w)
        | inl es => (Raise (ValidationError es), w)
        end
    end.
Proof.
  unfold update_product, mbind, M_bind, bind, contains, getitem.
  cbn [read products].
  destruct (w_products w !! k) as [p|] eqn:Hk; [|reflexivity].
  cbv beta iota. change (bool_decide (is_Some (Some p))) with true. cbv beta iota.
  rewrite Hk.
  destruct (product_merge_lookup p u) as (_ & _ & _ & Hc & Hu).
  rewrite (ProductRead_init_stamped _ _ _ _ Hc Hu).
  destruct (ProductBase_init _) as [es|p']; cbn [construct]; [reflexivity|].
  unfold setitem. cbn [read assign products w_products].
  rewrite lookup_insert_eq. reflexivity.
Qed.

End Handlers.

(** ** Properties of the service *)

Section Claims.
Context `{rt : Runtime}.

Lemma world_eta (w : world) :
  World (w_businesses w) (w_products w) (w_ticks w) = w.
Proof. by destruct w. Qed.

(** C1: a create on a key that is already stored fails with Conflict and
    leaves the whole state as it was; in particular the record stored under
    that key is still the one stored before.  This holds for the Business
    store (key [ein]) and for the Product store (key [product_id]), for every
    state and every payload. *)
Theorem create_existing_key_conflict
    (w : world) (b : BusinessCreate) (p : ProductCreate) :
  (forall b0, w_businesses w !! BusinessBase.ein b = Some b0 ->
     is_Conflict (create_business b w).1 /\
     (create_business b w).2 = w /\
     w_businesses (create_business b w).2 !! BusinessBase.ein b = Some b0) /\
  (forall p0, w_products w !! ProductBase.product_id p = Some p0 ->
     is_Conflict (create_product p w).1 /\
     (create_product p w).2 = w /\
     w_products (create_product p w).2 !! ProductBase.product_id p = Some p0).
Proof.
  split.
  - intros b0 Hk. rewrite create_business_run, Hk. cbn [fst snd].
    split; [by eexists|]. by split.
  - intros p0 Hk. rewrite create_product_run, Hk. cbn [fst snd].
    split; [by eexists|]. by split.
Qed.

(** C6: Get, Update and Delete fail with NotFound exactly when the key is
    absent, and then the state is unchanged; in particular a delete of an
    absent key leaves the number of stored records as it was.  Both stores. *)
Theorem not_found_iff_absent
    (w : world) (k : string) (ub : BusinessUpdate.t)
    (i : Z) (up : ProductUpdate.t) :
  ((is_NotFound (get_business k w).1 <-> w_businesses w !! k = None) /\
   (is_NotFound (update_business k ub w).1 <-> w_businesses w !! k = None) /\
   (is_NotFound (delete_business k w).1 <-> w_businesses w !! k = None) /\
   (w_businesses w !! k = None ->
      (get_business k w).2 = w /\
      (update_business k ub w).2 = w /\
      (delete_business k w).2 = w /\
      size (w_businesses (delete_business k w).2) = size (w_businesses w))) /\
  ((is_NotFound (get_product i w).1 <-> w_products w !! i = None) /\
   (is_NotFound (update_product i up w).1 <-> w_products w !! i = None) /\
   (is_NotFound (delete_product i w).1 <-> w_products w !! i = None) /\
   (w_products w !! i = None ->
      (get_product i w).2 = w /\
      (update_product i up w).2 = w /\
      (delete_product i w).2 = w /\
      size (w_products (delete_product i w).2) = size (w_products w))).
Proof.
  rewrite get_business_run, update_business_run, delete_business_run,
    get_product_run, update_product_run, delete_product_run.
  split.
  - destruct (w_businesses w !! k) as [b|] eqn:Hk.
    + repeat split; try done; intros [detail Hd]; cbn in Hd; try done.
      destruct (BusinessBase_init _); cbn in Hd; done.
    + repeat split; try done; intros _; by eexists.
  - destruct (w_products w !! i) as [p|] eqn:Hk.
    + repeat split; try done; intros [detail Hd]; cbn in Hd; try done.
      destruct (ProductBase_init _); cbn in Hd; done.
    + repeat split; try done; intros _; by eexists.
Qed.

(** C8: the two stores are independent.  A product creation or update
    leaves the Business store as it was and does not read it: run on a state
    whose Business store is replaced by any other one, it has the same
    outcome and the same effect on the Product store (so the embedded
    business is accepted whether or not its ein is a key of the Business
    store).  A business creation, update or deletion leaves the Product
    store, and with it every embedded business, as it was. *)
Theorem stores_independent
    (w : world) (bs : gmap string BusinessRead.t)
    (p : ProductCreate) (i : Z) (up : ProductUpdate.t)
    (b : BusinessCreate) (k : string) (ub : BusinessUpdate.t) :
  w_businesses (create_product p w).2 = w_businesses w /\
  w_businesses (update_product i up w).2 = w_businesses w /\
  create_product p (put_businesses bs w) =
    ((create_product p w).1, put_businesses bs (create_product p w).2) /\
  update_product i up (put_businesses bs w) =
    ((update_product i up w).1, put_businesses bs (update_product i up w).2) /\
  w_products (create_business b w).2 = w_products w /\
  w_products (update_business k ub w).2 = w_products w /\
  w_products (delete_business k w).2 = w_products w.
Proof.
  rewrite !create_product_run, !update_product_run, create_business_run,
    update_business_run, delete_business_run.
  cbn [put_businesses w_products w_businesses w_ticks].
  repeat split.
  - destruct (w_products w !! _); [done|]. by destruct (ProductBase_init _).
  - destruct (w_products w !! _); [|done]. by destruct (ProductBase_init _).
  - destruct (w_products w !! _); [done|]. by destruct (ProductBase_init _).
  - destruct (w_products w !! _); [|done]. by destruct (ProductBase_init _).
  - destruct (w_businesses w !! _); [done|]. by destruct (BusinessBase_init _).
  - destruct (w_businesses w !! _); [|done]. by destruct (BusinessBase_init _).
  - by destruct (w_businesses w !! _).
Qed.

(** *** Validation of the merged keyword arguments *)

Lemma BusinessBase_init_values (d : kwargs) (ve vn vm vp : value) :
  d !! "ein" = Some ve -> d !! "name" = Some vn -> d !! "email" = Some vm ->
  d !! "phone" = Some vp ->
  BusinessBase_init d =
    match at_loc "ein" (EINType ve), at_loc "name" (str_validator vn),
          at_loc "email" (EmailStr vm),
          at_loc "phone" (Optional str_validator vp) with
    | inr e, inr n, inr m, inr p => inr (BusinessBase.mk e n m p)
    | r1, r2, r3, r4 =>
        inl (errors_of r1 ++ errors_of r2 ++ errors_of r3 ++ errors_of r4)%list
    end.
Proof.
  intros He Hn Hm Hp. unfold BusinessBase_init, required, with_default.
  rewrite He, Hn, Hm, Hp.
  destruct (at_loc "ein" (EINType ve)), (at_loc "name" (str_validator vn)),
    (at_loc "email" (EmailStr vm)),
    (at_loc "phone" (Optional str_validator vp)); reflexivity.
Qed.

Lemma merged_ein (f : field (option string)) (old : string) :
  (forall e, f = Supplied (Some e) -> EIN_pattern e = true) ->
  EIN_pattern old = true ->
  at_loc "ein" (EINType (overwrite (field_map opt_str f) (VStr old))) =
    match overwrite f (Some old) with
    | Some e => inr e
    | None => inl [(["ein"], string_type)]
    end.
Proof.
  intros Hf Hold. destruct f as [|[e|]]; cbn [overwrite field_map opt_str EINType].
  - by rewrite Hold.
  - by rewrite (Hf e eq_refl).
  - reflexivity.
Qed.

Lemma merged_name (f : field (option string)) (old : string) :
  at_loc "name" (str_validator (overwrite (field_map opt_str f) (VStr old))) =
    match overwrite f (Some old) with
    | Some n => inr n
    | None => inl [(["name"], string_type)]
    end.
Proof. by destruct f as [|[n|]]. Qed.

Lemma merged_email (f : field (option string)) (old : string) :
  (forall m, f = Supplied (Some m) -> email_validator m = Some m) ->
  email_validator old = Some old ->
  at_loc "email" (EmailStr (overwrite (field_map opt_str f) (VStr old))) =
    match overwrite f (Some old) with
    | Some m => inr m
    | None => inl [(["email"], string_type)]
    end.
Proof.
  intros Hf Hold. destruct f as [|[m|]]; cbn [overwrite field_map opt_str EmailStr].
  - by rewrite Hold.
  - by rewrite (Hf m eq_refl).
  - reflexivity.
Qed.

Lemma merged_phone (f : field (option string)) (old : option string) :
  at_loc "phone"
    (Optional str_validator (overwrite (field_map opt_str f) (opt_str old))) =
    inr (overwrite f old).
Proof.
  destruct f as [|p]; cbn [overwrite field_map]; by rewrite Optional_str_opt.
Qed.

(** The constructor on the merged keyword arguments of [update_business]
    builds the merged record, or fails when a required field is null. *)
Lemma BusinessBase_init_merge (b : BusinessRead.t) (u : BusinessUpdate.t) :
  BusinessRead_valid b -> BusinessUpdate_valid u ->
  match merge_business b u with
  | Some r =>
      BusinessBase_init (update (BusinessRead.model_dump b)
                           (BusinessUpdate.model_dump_exclude_unset u)) =
        inr (BusinessRead.base r) /\
      BusinessRead.created_at r = BusinessRead.created_at b /\
      BusinessRead.updated_at r = BusinessRead.updated_at b
  | None =>
      exists es,
        BusinessBase_init (update (BusinessRead.model_dump b)
                             (BusinessUpdate.model_dump_exclude_unset u)) =
          inl es
  end.
Proof.
  intros [Hb1 Hb2] [Hu1 Hu2].
  cbn [BusinessRead.base BusinessBase.ein BusinessBase.email] in Hb1, Hb2.
  destruct (business_merge_lookup b u) as (He & Hn & Hm & Hp & _ & _).
  rewrite (BusinessBase_init_values _ _ _ _ _ He Hn Hm Hp).
  rewrite (merged_ein _ _ Hu1 Hb1), merged_name, (merged_email _ _ Hu2 Hb2),
    merged_phone.
  unfold merge_business.
  destruct (overwrite (BusinessUpdate.ein u) _) as [e|],
    (overwrite (BusinessUpdate.name u) _) as [n|],
    (overwrite (BusinessUpdate.email u) _) as [m|];
    cbn; eauto.
Qed.

Lemma BusinessBase_init_dump (b : BusinessBase.t) :
  BusinessBase_valid b -> BusinessBase_init (BusinessBase.model_dump b) = inr b.
Proof.
  intros Hb. destruct (BusinessBase_dump_lookup b) as (He & Hn & Hm & Hp & _).
  apply BusinessBase_init_valid; auto.
Qed.

Lemma BusinessBase_init_tracked (i : BusinessBase.tracked) :
  BusinessBase_valid (BusinessBase.fields i) ->
  BusinessBase_init (BusinessBase.model_dump_exclude_unset i) =
    inr (BusinessBase.fields i).
Proof.
  intros Hb. destruct (BusinessBase_tracked_dump_lookup i) as (He & Hn & Hm & Hp).
  apply BusinessBase_init_valid; auto.
Qed.

Lemma merged_product_id (f : field (option Z)) (old : Z) :
  at_loc "product_id"
    (int_validator (overwrite (field_map opt_int f) (VInt old))) =
    match overwrite f (Some old) with
    | Some i => inr i
    | None => inl [(["product_id"], int_type)]
    end.
Proof. by destruct f as [|[i|]]. Qed.

Lemma merged_embedded (f : field (option BusinessBase.tracked))
    (old : BusinessBase.t) :
  (forall i, f = Supplied (Some i) -> BusinessBase_valid (BusinessBase.fields i)) ->
  BusinessBase_valid old ->
  at_loc "business"
    (BusinessBase_validator
       (overwrite (field_map ProductUpdate.opt_business f)
          (VDict (BusinessBase.model_dump old)))) =
    match overwrite (field_map (fmap BusinessBase.fields) f) (Some old) with
    | Some b => inr b
    | None => inl [(["business"], model_type)]
    end.
Proof.
  intros Hf Hold.
  destruct f as [|[i|]];
    cbn [overwrite field_map ProductUpdate.opt_business BusinessBase_validator fmap
         option_fmap option_map].
  - by rewrite (BusinessBase_init_dump _ Hold).
  - by rewrite (BusinessBase_init_tracked _ (Hf i eq_refl)).
  - reflexivity.
Qed.

Lemma ProductBase_init_values (d : kwargs) (vi vn vb : value) :
  d !! "product_id" = Some vi -> d !! "name" = Some vn ->
  d !! "business" = Some vb ->
  ProductBase_init d =
    match at_loc "product_id" (int_validator vi),
          at_loc "name" (str_validator vn),
          at_loc "business" (BusinessBase_validator vb) with
    | inr i, inr n, inr b => inr (ProductBase.mk i n b)
    | r1, r2, r3 => inl (errors_of r1 ++ errors_of r2 ++ errors_of r3)%list
    end.
Proof.
  intros Hi Hn Hb. unfold ProductBase_init, required. rewrite Hi, Hn, Hb.
  destruct (at_loc "product_id" (int_validator vi)),
    (at_loc "name" (str_validator vn)),
    (at_loc "business" (BusinessBase_validator vb)); reflexivity.
Qed.

(** The same for the merged keyword arguments of [update_product]. *)
Lemma ProductBase_init_merge (p : ProductRead.t) (u : ProductUpdate.t) :
  ProductRead_valid p -> ProductUpdate_valid u ->
  match merge_product p u with
  | Some r =>
      ProductBase_init (update (ProductRead.model_dump p)
                          (ProductUpdate.model_dump_exclude_unset u)) =
        inr (ProductRead_base r) /\
      ProductRead.created_at r = ProductRead.created_at p /\
      ProductRead.updated_at r = ProductRead.updated_at p
  | None =>
      exists es,
        ProductBase_init (update (ProductRead.model_dump p)
                            (ProductUpdate.model_dump_exclude_unset u)) =
          inl es
  end.
Proof.
  intros Hp Hu.
  destruct (product_merge_lookup p u) as (Hi & Hn & Hb & _ & _).
  rewrite (ProductBase_init_values _ _ _ _ Hi Hn Hb).
  rewrite merged_product_id, merged_name, (merged_embedded _ _ Hu Hp).
  unfold merge_product.
  destruct (overwrite (ProductUpdate.product_id u) _) as [i|],
    (overwrite (ProductUpdate.name u) _) as [n|],
    (overwrite (field_map (fmap BusinessBase.fields) (ProductUpdate.business u))
       (Some (ProductRead.business p))) as [b|];
    cbn; eauto.
Qed.

(** *** The update handlers against the merge *)

Lemma BusinessRead_of_base (r : BusinessRead.t) (c u : datetime) :
  BusinessRead.created_at r = c -> BusinessRead.updated_at r = u ->
  BusinessRead_of (BusinessRead.base r) c u = r.
Proof. intros <- <-. by destruct r. Qed.

Lemma ProductRead_of_base (r : ProductRead.t) (c u : datetime) :
  ProductRead.created_at r = c -> ProductRead.updated_at r = u ->
  ProductRead_of (ProductRead_base r) c u = r.
Proof. intros <- <-. by destruct r. Qed.

Lemma update_business_merged (w : world) (k : string) (b : BusinessRead.t)
    (u : BusinessUpdate.t) :
  w_businesses w !! k = Some b ->
  BusinessRead_valid b -> BusinessUpdate_valid u ->
  match merge_business b u with
  | Some r =>
      update_business k u w =
        (Return r, put_businesses (<[k := r]> (w_businesses w)) w)
  | None =>
      is_ValidationError (update_business k u w).1 /\
      (update_business k u w).2 = w
  end.
Proof.
  intros Hk Hb Hu. rewrite update_business_run, Hk.
  pose proof (BusinessBase_init_merge b u Hb Hu) as Hm.
  destruct (merge_business b u) as [r|].
  - destruct Hm as (-> & Hc & Hup). cbv zeta.
    by rewrite (BusinessRead_of_base r _ _ Hc Hup).
  - destruct Hm as [es ->]. split; [by exists es | done].
Qed.

Lemma update_product_merged (w : world) (k : Z) (p : ProductRead.t)
    (u : ProductUpdate.t) :
  w_products w !! k = Some p ->
  ProductRead_valid p -> ProductUpdate_valid u ->
  match merge_product p u with
  | Some r =>
      update_product k u w =
        (Return r, put_products (<[k := r]> (w_products w)) w)
  | None =>
      is_ValidationError (update_product k u w).1 /\
      (update_product k u w).2 = w
  end.
Proof.
  intros Hk Hp Hu. rewrite update_product_run, Hk.
  pose proof (ProductBase_init_merge p u Hp Hu) as Hm.
  destruct (merge_product p u) as [r|].
  - destruct Hm as (-> & Hc & Hup). cbv zeta.
    by rewrite (ProductRead_of_base r _ _ Hc Hup).
  - destruct Hm as [es ->]. split; [by exists es | done].
Qed.

(** C2: on a stored record and a partial-update payload, Update returns
    and stores the merge: each field present in the payload, a field
    explicitly set to None included, has the payload's value, and each field
    absent from the payload, the two timestamps included, has the stored
    value; an omitted field and a field set to its default are told apart.
    The merged record exists unless the payload sets a required field to
    None, and then Update raises a validation error and stores nothing.
    Stored records and payloads are validated instances. *)
Theorem update_merges_payload
    (w : world) (k : string) (b : BusinessRead.t) (u : BusinessUpdate.t)
    (i : Z) (p : ProductRead.t) (up : ProductUpdate.t) :
  (w_businesses w !! k = Some b ->
   BusinessRead_valid b -> BusinessUpdate_valid u ->
   match merge_business b u with
   | Some r =>
       update_business k u w =
         (Return r, put_businesses (<[k := r]> (w_businesses w)) w) /\
       Some (BusinessRead.ein r) =
         overwrite (BusinessUpdate.ein u) (Some (BusinessRead.ein b)) /\
       Some (BusinessRead.name r) =
         overwrite (BusinessUpdate.name u) (Some (BusinessRead.name b)) /\
       Some (BusinessRead.email r) =
         overwrite (BusinessUpdate.email u) (Some (BusinessRead.email b)) /\
       BusinessRead.phone r =
         overwrite (BusinessUpdate.phone u) (BusinessRead.phone b) /\
       BusinessRead.created_at r = BusinessRead.created_at b /\
       BusinessRead.updated_at r = BusinessRead.updated_at b
   | None =>
       is_ValidationError (update_business k u w).1 /\
       (update_business k u w).2 = w
   end) /\
  (w_products w !! i = Some p ->
   ProductRead_valid p -> ProductUpdate_valid up ->
   match merge_product p up with
   | Some r =>
       update_product i up w =
         (Return r, put_products (<[i := r]> (w_products w)) w) /\
       Some (ProductRead.product_id r) =
         overwrite (ProductUpdate.product_id up) (Some (ProductRead.product_id p)) /\
       Some (ProductRead.name r) =
         overwrite (ProductUpdate.name up) (Some (ProductRead.name p)) /\
       Some (ProductRead.business r) =
         overwrite (field_map (fmap BusinessBase.fields) (ProductUpdate.business up))
                   (Some (ProductRead.business p)) /\
       ProductRead.created_at r = ProductRead.created_at p /\
       ProductRead.updated_at r = ProductRead.updated_at p
   | None =>
       is_ValidationError (update_product i up w).1 /\
       (update_product i up w).2 = w
   end).
Proof.
  split.
  - intros Hk Hb Hu. pose proof (update_business_merged w k b u Hk Hb Hu) as Hm.
    destruct (merge_business b u) as [r|] eqn:Hr; [|done].
    split; [done|]. unfold merge_business in Hr.
    destruct (overwrite (BusinessUpdate.ein u) _) as [e|]; [|done].
    destruct (overwrite (BusinessUpdate.name u) _) as [n|]; [|done].
    destruct (overwrite (BusinessUpdate.email u) _) as [m|]; [|done].
    cbn in Hr. by injection Hr as <-.
  - intros Hk Hp Hu. pose proof (update_product_merged w i p up Hk Hp Hu) as Hm.
    destruct (merge_product p up) as [r|] eqn:Hr; [|done].
    split; [done|]. unfold merge_product in Hr.
    destruct (overwrite (ProductUpdate.product_id up) _) as [j|]; [|done].
    destruct (overwrite (ProductUpdate.name up) _) as [n|]; [|done].
    destruct (overwrite (field_map (fmap BusinessBase.fields)
                (ProductUpdate.business up)) _) as [bb|]; [|done].
    cbn in Hr. by injection Hr as <-.
Qed.

(** C10: an update whose payload sets no field returns the stored record
    and leaves the state as it was, the entry under the key included, with
    its [created_at] and [updated_at].  The stored record is a validated
    instance. *)
Theorem update_empty_identity
    (w : world) (k : string) (b : BusinessRead.t) (i : Z) (p : ProductRead.t) :
  (w_businesses w !! k = Some b -> BusinessRead_valid b ->
   update_business k BusinessUpdate_empty w = (Return b, w)) /\
  (w_products w !! i = Some p -> ProductRead_valid p ->
   update_product i ProductUpdate_empty w = (Return p, w)).
Proof.
  split.
  - intros Hk Hb.
    assert (Hu : BusinessUpdate_valid BusinessUpdate_empty) by (split; intros; done).
    pose proof (update_business_merged w k b _ Hk Hb Hu) as Hm.
    assert (Hmerge : merge_business b BusinessUpdate_empty = Some b) by by destruct b.
    rewrite Hmerge in Hm. rewrite Hm. unfold put_businesses.
    by rewrite (insert_id _ _ _ Hk), world_eta.
  - intros Hk Hp.
    assert (Hu : ProductUpdate_valid ProductUpdate_empty) by (intros j; done).
    pose proof (update_product_merged w i p _ Hk Hp Hu) as Hm.
    assert (Hmerge : merge_product p ProductUpdate_empty = Some p) by by destruct p.
    rewrite Hmerge in Hm. rewrite Hm. unfold put_products.
    by rewrite (insert_id _ _ _ Hk), world_eta.
Qed.

(** *** Create, then read *)

Lemma ProductBase_init_dump (p : ProductBase.t) :
  ProductBase_valid p -> ProductBase_init (ProductBase.model_dump p) = inr p.
Proof.
  intros Hp.
  rewrite (ProductBase_init_values _ (VInt (ProductBase.product_id p))
             (VStr (ProductBase.name p))
             (VDict (BusinessBase.model_dump (ProductBase.business p))));
    [|reflexivity..].
  cbn [int_validator str_validator BusinessBase_validator at_loc].
  rewrite (BusinessBase_init_dump _ Hp). by destruct p.
Qed.

(** C5: a create of a validated payload on a key not yet stored succeeds,
    and a Get on that key right after it returns the very record the create
    returned; that record has the payload's fields (the embedded business
    of a product included) and the two readings of the clock taken by the
    create as its timestamps. *)
Theorem create_then_get (w : world) (b : BusinessCreate) (p : ProductCreate) :
  (BusinessBase_valid b -> w_businesses w !! BusinessBase.ein b = None ->
   exists r w',
     create_business b w = (Return r, w') /\
     get_business (BusinessBase.ein b) w' = (Return r, w') /\
     BusinessRead.base r = b /\
     BusinessRead.created_at r = clock (w_ticks w) /\
     BusinessRead.updated_at r = clock (S (w_ticks w))) /\
  (ProductBase_valid p -> w_products w !! ProductBase.product_id p = None ->
   exists r w',
     create_product p w = (Return r, w') /\
     get_product (ProductBase.product_id p) w' = (Return r, w') /\
     ProductRead_base r = p /\
     ProductRead.created_at r = clock (w_ticks w) /\
     ProductRead.updated_at r = clock (S (w_ticks w))).
Proof.
  split.
  - intros Hb Hk. rewrite create_business_run, Hk, (BusinessBase_init_dump _ Hb).
    cbv zeta. eexists _, _. split; [reflexivity|].
    rewrite get_business_run. cbn [put_businesses w_businesses].
    rewrite lookup_insert_eq. repeat split. by destruct b.
  - intros Hp Hk. rewrite create_product_run, Hk, (ProductBase_init_dump _ Hp).
    cbv zeta. eexists _, _. split; [reflexivity|].
    rewrite get_product_run. cbn [put_products w_products].
    rewrite lookup_insert_eq. repeat split. by destruct p.
Qed.

(** *** Keys *)

Lemma update_business_dom (w : world) (k : string) (u : BusinessUpdate.t) :
  dom (w_businesses (update_business k u w).2) = dom (w_businesses w).
Proof.
  rewrite update_business_run.
  destruct (w_businesses w !! k) as [b|] eqn:Hk; [|done].
  destruct (BusinessBase_init _); [done|].
  cbn [snd put_businesses w_businesses]. apply dom_insert_lookup_L. eauto.
Qed.

Lemma update_product_dom (w : world) (k : Z) (u : ProductUpdate.t) :
  dom (w_products (update_product k u w).2) = dom (w_products w).
Proof.
  rewrite update_product_run.
  destruct (w_products w !! k) as [p|] eqn:Hk; [|done].
  destruct (ProductBase_init _); [done|].
  cbn [snd put_products w_products]. apply dom_insert_lookup_L. eauto.
Qed.

(** C9: an update never changes the set of keys of a store.  When the
    payload of a business update sets [ein] to a value other than the
    addressed key, the update succeeds (no required field being set to
    None), the merged record carries the new [ein] and is stored under the
    addressed key, where Get returns it, and no entry appears under the new
    value: Get on it still fails with NotFound when it was absent.  Likewise
    for a product update that sets [product_id]. *)
Theorem update_keeps_keys
    (w : world) (k : string) (u : BusinessUpdate.t)
    (i : Z) (up : ProductUpdate.t) :
  dom (w_businesses (update_business k u w).2) = dom (w_businesses w) /\
  dom (w_products (update_product i up w).2) = dom (w_products w) /\
  (forall b e',
     w_businesses w !! k = Some b ->
     BusinessRead_valid b -> BusinessUpdate_valid u ->
     BusinessUpdate.ein u = Supplied (Some e') -> e' <> k ->
     BusinessUpdate.name u <> Supplied None ->
     BusinessUpdate.email u <> Supplied None ->
     exists r w',
       update_business k u w = (Return r, w') /\
       BusinessRead.ein r = e' /\
       get_business k w' = (Return r, w') /\
       (w_businesses w !! e' = None ->
        is_NotFound (get_business e' w').1)) /\
  (forall p i',
     w_products w !! i = Some p ->
     ProductRead_valid p -> ProductUpdate_valid up ->
     ProductUpdate.product_id up = Supplied (Some i') -> i' <> i ->
     ProductUpdate.name up <> Supplied None ->
     ProductUpdate.business up <> Supplied None ->
     exists r w',
       update_product i up w = (Return r, w') /\
       ProductRead.product_id r = i' /\
       get_product i w' = (Return r, w') /\
       (w_products w !! i' = None ->
        is_NotFound (get_product i' w').1)).
Proof.
  split; [apply update_business_dom|]. split; [apply update_product_dom|]. split.
  - intros b e' Hk Hb Hu He Hne Hn Hm.
    pose proof (update_business_merged w k b u Hk Hb Hu) as Hmg.
    unfold merge_business in Hmg. rewrite He in Hmg.
    destruct (BusinessUpdate.name u) as [|[n|]]; [| |done];
      destruct (BusinessUpdate.email u) as [|[m|]]; try done;
      cbn in Hmg; rewrite Hmg; eexists _, _; (split; [reflexivity|]);
      (split; [reflexivity|]);
      rewrite !get_business_run; cbn [put_businesses w_businesses];
      rewrite lookup_insert_eq, lookup_insert_ne by done;
      (split; [reflexivity|]); intros ->; by eexists.
  - intros p i' Hk Hp Hu Hi Hne Hn Hb.
    pose proof (update_product_merged w i p up Hk Hp Hu) as Hmg.
    unfold merge_product in Hmg. rewrite Hi in Hmg.
    destruct (ProductUpdate.name up) as [|[n|]]; [| |done];
      destruct (ProductUpdate.business up) as [|[bb|]]; try done;
      cbn in Hmg; rewrite Hmg; eexists _, _; (split; [reflexivity|]);
      (split; [reflexivity|]);
      rewrite !get_product_run; cbn [put_products w_products];
      rewrite lookup_insert_eq, lookup_insert_ne by done;
      (split; [reflexivity|]); intros ->; by eexists.
Qed.

(** *** Listing with filters *)

Lemma elem_of_values {K} `{Countable K} {V} (m : gmap K V) (r : V) :
  r ∈ (map_to_list m).*2 <-> exists k, m !! k = Some r.
Proof.
  rewrite list_elem_of_fmap. split.
  - intros ([k v] & -> & Hin). exists k. by apply elem_of_map_to_list.
  - intros [k Hk]. exists (k, r). split; [done|]. by apply elem_of_map_to_list.
Qed.

Lemma list_businesses_run (ein name email phone : option string) (w : world) :
  exists l,
    list_businesses ein name email phone w = (Return l, w) /\
    forall r, r ∈ l <->
      (exists k, w_businesses w !! k = Some r) /\
      business_matches ein name email phone r.
Proof.
  eexists. split; [reflexivity|]. intros r. unfold business_matches.
  destruct ein, name, email, phone;
    rewrite ?list_elem_of_filter; cbn [read businesses];
    rewrite elem_of_values; intuition (eauto; congruence).
Qed.

Lemma list_products_run (product_id : option Z)
    (name business_ein business_name : option string) (w : world) :
  exists l,
    list_products product_id name business_ein business_name w = (Return l, w) /\
    forall r, r ∈ l <->
      (exists k, w_products w !! k = Some r) /\
      product_matches product_id name business_ein business_name r.
Proof.
  eexists. split; [reflexivity|]. intros r. unfold product_matches.
  destruct product_id, name, business_ein, business_name;
    rewrite ?list_elem_of_filter; cbn [read products];
    rewrite elem_of_values; intuition (eauto; congruence).
Qed.

Lemma both_matches {A} (P : A -> Prop) (f1 f2 : option A) :
  distinct_fields f1 f2 ->
  (forall x, both f1 f2 = Some x -> P x) <->
  (forall x, f1 = Some x -> P x) /\ (forall x, f2 = Some x -> P x).
Proof.
  unfold distinct_fields. destruct f1, f2; cbn [both];
    intuition (eauto; congruence).
Qed.

Lemma business_matches_both (e1 n1 m1 p1 e2 n2 m2 p2 : option string)
    (r : BusinessRead.t) :
  distinct_fields e1 e2 -> distinct_fields n1 n2 ->
  distinct_fields m1 m2 -> distinct_fields p1 p2 ->
  business_matches (both e1 e2) (both n1 n2) (both m1 m2) (both p1 p2) r <->
  business_matches e1 n1 m1 p1 r /\ business_matches e2 n2 m2 p2 r.
Proof.
  intros He Hn Hm Hp. unfold business_matches.
  pose proof (both_matches (fun x => BusinessRead.ein r = x) _ _ He).
  pose proof (both_matches (fun x => BusinessRead.name r = x) _ _ Hn).
  pose proof (both_matches (fun x => BusinessRead.email r = x) _ _ Hm).
  pose proof (both_matches (fun x => BusinessRead.phone r = Some x) _ _ Hp).
  cbv beta in *. tauto.
Qed.

Lemma product_matches_both (i1 i2 : option Z)
    (n1 e1 b1 n2 e2 b2 : option string) (r : ProductRead.t) :
  distinct_fields i1 i2 -> distinct_fields n1 n2 ->
  distinct_fields e1 e2 -> distinct_fields b1 b2 ->
  product_matches (both i1 i2) (both n1 n2) (both e1 e2) (both b1 b2) r <->
  product_matches i1 n1 e1 b1 r /\ product_matches i2 n2 e2 b2 r.
Proof.
  intros Hi Hn He Hb. unfold product_matches.
  pose proof (both_matches (fun x => ProductRead.product_id r = x) _ _ Hi).
  pose proof (both_matches (fun x => ProductRead.name r = x) _ _ Hn).
  pose proof (both_matches
                (fun x => BusinessBase.ein (ProductRead.business r) = x) _ _ He).
  pose proof (both_matches
                (fun x => BusinessBase.name (ProductRead.business r) = x) _ _ Hb).
  cbv beta in *. tauto.
Qed.

(** C4: a List with two filter settings on distinct fields supplied
    together returns exactly the records that are both in the result of the
    List with the first setting alone and in the result of the List with the
    second alone; a List with no filter returns every stored record.  Both
    stores; every List returns and leaves the state as it was. *)
Theorem list_filters_intersect
    (w : world) (e1 n1 m1 p1 e2 n2 m2 p2 : option string)
    (i1 i2 : option Z) (pn1 pn2 be1 be2 bn1 bn2 : option string) :
  (distinct_fields e1 e2 -> distinct_fields n1 n2 ->
   distinct_fields m1 m2 -> distinct_fields p1 p2 ->
   exists l l1 l2,
     list_businesses (both e1 e2) (both n1 n2) (both m1 m2) (both p1 p2) w =
       (Return l, w) /\
     list_businesses e1 n1 m1 p1 w = (Return l1, w) /\
     list_businesses e2 n2 m2 p2 w = (Return l2, w) /\
     forall r, r ∈ l <-> r ∈ l1 /\ r ∈ l2) /\
  (distinct_fields i1 i2 -> distinct_fields pn1 pn2 ->
   distinct_fields be1 be2 -> distinct_fields bn1 bn2 ->
   exists l l1 l2,
     list_products (both i1 i2) (both pn1 pn2) (both be1 be2) (both bn1 bn2) w =
       (Return l, w) /\
     list_products i1 pn1 be1 bn1 w = (Return l1, w) /\
     list_products i2 pn2 be2 bn2 w = (Return l2, w) /\
     forall r, r ∈ l <-> r ∈ l1 /\ r ∈ l2) /\
  (exists l,
     list_businesses None None None None w = (Return l, w) /\
     forall r, r ∈ l <-> exists k, w_businesses w !! k = Some r) /\
  (exists l,
     list_products None None None None w = (Return l, w) /\
     forall r, r ∈ l <-> exists k, w_products w !! k = Some r).
Proof.
  split; [|split; [|split]].
  - intros He Hn Hm Hp.
    destruct (list_businesses_run (both e1 e2) (both n1 n2) (both m1 m2)
                (both p1 p2) w) as (l & Hl & Hin).
    destruct (list_businesses_run e1 n1 m1 p1 w) as (l1 & Hl1 & Hin1).
    destruct (list_businesses_run e2 n2 m2 p2 w) as (l2 & Hl2 & Hin2).
    exists l, l1, l2. split; [done|]. split; [done|]. split; [done|].
    intros r. rewrite Hin, Hin1, Hin2, business_matches_both by done. tauto.
  - intros Hi Hn He Hb.
    destruct (list_products_run (both i1 i2) (both pn1 pn2) (both be1 be2)
                (both bn1 bn2) w) as (l & Hl & Hin).
    destruct (list_products_run i1 pn1 be1 bn1 w) as (l1 & Hl1 & Hin1).
    destruct (list_products_run i2 pn2 be2 bn2 w) as (l2 & Hl2 & Hin2).
    exists l, l1, l2. split; [done|]. split; [done|]. split; [done|].
    intros r. rewrite Hin, Hin1, Hin2, product_matches_both by done. tauto.
  - eexists. split; [reflexivity|]. intros r. apply elem_of_values.
  - eexists. split; [reflexivity|]. intros r. apply elem_of_values.
Qed.

(** *** The EIN format at the constructors and the handlers *)

Lemma not_shape_pattern (s : string) :
  ~ decimal_ein_shape s -> EIN_pattern s = false.
Proof.
  intros Hs. destruct (EIN_pattern s) eqn:Hp; [|done].
  by apply EIN_pattern_decimal in Hp.
Qed.

Lemma ProductBase_init_bad_ein (d db : kwargs) (e : string) :
  d !! "business" = Some (VDict db) -> db !! "ein" = Some (VStr e) ->
  EIN_pattern e = false ->
  exists es, ProductBase_init d = inl es /\
             (["business"; "ein"], string_pattern_mismatch) ∈ es.
Proof.
  intros Hb He Hbad.
  destruct (BusinessBase_init_bad_ein db e He Hbad) as (es0 & Hes0 & Hin).
  assert (Hreq : required d "business" BusinessBase_validator =
                 inl (map (fun l : line_error => ("business" :: l.1, l.2)) es0)).
  { unfold required. rewrite Hb. cbn [BusinessBase_validator]. by rewrite Hes0. }
  assert (Hin' : (["business"; "ein"], string_pattern_mismatch) ∈
                 map (fun l : line_error => ("business" :: l.1, l.2)) es0).
  { apply (list_elem_of_fmap_2 (fun l : line_error => ("business" :: l.1, l.2))
             _ _ Hin). }
  unfold ProductBase_init. rewrite Hreq.
  destruct (required d "product_id" int_validator),
    (required d "name" str_validator);
    eexists; (split; [reflexivity|]); cbn [errors_of];
    rewrite ?elem_of_app; auto.
Qed.


End Claims.

(** ** The stored records are validated instances *)

Section Invariant.
Context `{rt : Runtime}.
Hypothesis email_normal : normalises.

Lemma BusinessBase_init_sound (d : kwargs) (b : BusinessBase.t) :
  BusinessBase_init d = inr b -> BusinessBase_valid b.
Proof.
  unfold BusinessBase_init, required, with_default. intros Hb.
  destruct (d !! "ein") as [[| e | | |]|]; cbn in Hb; try discriminate Hb.
  destruct (EIN_pattern e) eqn:He; cbn in Hb; [|discriminate Hb].
  destruct (d !! "name") as [[| n | | |]|]; cbn in Hb; try discriminate Hb.
  destruct (d !! "email") as [[| m | | |]|]; cbn in Hb; try discriminate Hb.
  destruct (email_validator m) as [m'|] eqn:Hm; cbn in Hb; [|discriminate Hb].
  destruct (d !! "phone") as [[| p | | |]|]; cbn in Hb; try discriminate Hb;
    injection Hb as <-; (split; [exact He | exact (email_normal _ _ Hm)]).
Qed.

Lemma ProductBase_init_sound (d : kwargs) (p : ProductBase.t) :
  ProductBase_init d = inr p -> ProductBase_valid p.
Proof.
  unfold ProductBase_init, required. intros Hp.
  destruct (d !! "product_id") as [[| | i | |]|]; cbn in Hp; try discriminate Hp.
  destruct (d !! "name") as [[| n | | |]|]; cbn in Hp; try discriminate Hp.
  destruct (d !! "business") as [[| | | | db]|]; cbn in Hp; try discriminate Hp.
  destruct (BusinessBase_init db) as [es|b] eqn:Hb; cbn in Hp; [discriminate Hp|].
  injection Hp as <-. exact (BusinessBase_init_sound _ _ Hb).
Qed.

Lemma store_valid_initial : store_valid initial.
Proof.
  split; intros k x Hk; cbn [initial w_businesses w_products] in Hk;
    by rewrite lookup_empty in Hk.
Qed.

Lemma store_valid_businesses (w : world) (m : gmap string BusinessRead.t)
    (t : nat) :
  store_valid w ->
  (forall k b, m !! k = Some b -> BusinessRead_valid b) ->
  store_valid (World m (w_products w) t).
Proof. intros [_ Hps] Hm. by split. Qed.

Lemma store_valid_products (w : world) (m : gmap Z ProductRead.t) (t : nat) :
  store_valid w ->
  (forall k p, m !! k = Some p -> ProductRead_valid p) ->
  store_valid (World (w_businesses w) m t).
Proof. intros [Hbs _] Hm. by split. Qed.

Lemma store_valid_ticks (w : world) (t : nat) :
  store_valid w -> store_valid (World (w_businesses w) (w_products w) t).
Proof. intros [Hbs Hps]. by split. Qed.

Lemma create_business_store_valid (w : world) (b : BusinessCreate) :
  store_valid w -> store_valid (create_business b w).2.
Proof.
  intros Hw. rewrite create_business_run.
  destruct (w_businesses w !! _); [done|].
  destruct (BusinessBase_init _) as [es|b'] eqn:Hb;
    [by apply (store_valid_ticks w)|].
  apply (store_valid_businesses w); [done|]. intros k x.
  intros [[_ <-]|[_ Hk]]%lookup_insert_Some; [|by eapply Hw].
  exact (BusinessBase_init_sound _ _ Hb).
Qed.

Lemma update_business_store_valid (w : world) (k : string)
    (u : BusinessUpdate.t) :
  store_valid w -> store_valid (update_business k u w).2.
Proof.
  intros Hw. rewrite update_business_run.
  destruct (w_businesses w !! k) as [b0|]; [|done].
  destruct (BusinessBase_init _) as [es|b'] eqn:Hb; [done|].
  apply (store_valid_businesses w); [done|]. intros k' x.
  intros [[_ <-]|[_ Hk]]%lookup_insert_Some; [|by eapply Hw].
  exact (BusinessBase_init_sound _ _ Hb).
Qed.

Lemma delete_business_store_valid (w : world) (k : string) :
  store_valid w -> store_valid (delete_business k w).2.
Proof.
  intros Hw. rewrite delete_business_run.
  destruct (w_businesses w !! k); [|done].
  apply (store_valid_businesses w); [done|]. intros k' x.
  intros [_ Hk]%lookup_delete_Some. by eapply Hw.
Qed.

Lemma create_product_store_valid (w : world) (p : ProductCreate) :
  store_valid w -> store_valid (create_product p w).2.
Proof.
  intros Hw. rewrite create_product_run.
  destruct (w_products w !! _); [done|].
  destruct (ProductBase_init _) as [es|p'] eqn:Hp;
    [by apply (store_valid_ticks w)|].
  apply (store_valid_products w); [done|]. intros k x.
  intros [[_ <-]|[_ Hk]]%lookup_insert_Some; [|by eapply Hw].
  exact (ProductBase_init_sound _ _ Hp).
Qed.

Lemma update_product_store_valid (w : world) (i : Z) (up : ProductUpdate.t) :
  store_valid w -> store_valid (update_product i up w).2.
Proof.
  intros Hw. rewrite update_product_run.
  destruct (w_products w !! i) as [p0|]; [|done].
  destruct (ProductBase_init _) as [es|p'] eqn:Hp; [done|].
  apply (store_valid_products w); [done|]. intros k x.
  intros [[_ <-]|[_ Hk]]%lookup_insert_Some; [|by eapply Hw].
  exact (ProductBase_init_sound _ _ Hp).
Qed.

Lemma delete_product_store_valid (w : world) (i : Z) :
  store_valid w -> store_valid (delete_product i w).2.
Proof.
  intros Hw. rewrite delete_product_run.
  destruct (w_products w !! i); [|done].
  apply (store_valid_products w); [done|]. intros k' x.
  intros [_ Hk]%lookup_delete_Some. by eapply Hw.
Qed.

(** X1: every handler takes a state whose stored records are validated
    instances to such a state, whatever its arguments and its outcome; the
    initial state, with both dictionaries empty, is one.  So the stored
    records met by an update are validated instances in every state the
    service can reach. *)
Theorem store_valid_preserved (w : world)
    (b : BusinessCreate) (k : string) (u : BusinessUpdate.t)
    (p : ProductCreate) (i : Z) (up : ProductUpdate.t) :
  store_valid w ->
  store_valid initial /\
  store_valid (create_business b w).2 /\
  store_valid (update_business k u w).2 /\
  store_valid (delete_business k w).2 /\
  store_valid (create_product p w).2 /\
  store_valid (update_product i up w).2 /\
  store_valid (delete_product i w).2.
Proof.
  intros Hw. split; [apply store_valid_initial|].
  split; [by apply create_business_store_valid|].
  split; [by apply update_business_store_valid|].
  split; [by apply delete_business_store_valid|].
  split; [by apply create_product_store_valid|].
  split; [by apply update_product_store_valid|].
  by apply delete_product_store_valid.
Qed.

End Invariant.

(** ** The scenario, evaluated *)

Lemma shop_businesses :
  w_businesses shop !! "12-3456789" = Some cupcakes_read.
Proof. vm_compute. reflexivity. Qed.

Lemma shop_products : w_products shop !! 0 = Some vanilla_read.
Proof. vm_compute. reflexivity. Qed.

Lemma no_hyphen_not_shape : ~ ein_shape "123456789".
Proof. intros Hs%ein_shape_length. discriminate Hs. Qed.

Lemma sample_digit_class_ok : @digit_class_ok sample_runtime.
Proof.
  split; [|reflexivity]. intros n Hn. cbn [regex_digit sample_runtime].
  replace (1632 <=? n)%N with false; [by rewrite orb_false_r|].
  symmetry. apply N.leb_gt. lia.
Qed.

Lemma cupcakes_valid : @BusinessBase_valid sample_runtime cupcakes.
Proof. split; reflexivity. Qed.

Lemma bakery_patch_valid : @BusinessUpdate_valid sample_runtime bakery_patch.
Proof. split; intros x Hx; discriminate Hx. Qed.

Lemma rekey_patch_valid : @BusinessUpdate_valid sample_runtime rekey_patch.
Proof.
  split; intros x Hx; [|discriminate Hx]. injection Hx as <-. reflexivity.
Qed.

Lemma chocolate_patch_valid : @ProductUpdate_valid sample_runtime chocolate_patch.
Proof. intros x Hx. discriminate Hx. Qed.

Lemma renumber_patch_valid : @ProductUpdate_valid sample_runtime renumber_patch.
Proof. intros x Hx. discriminate Hx. Qed.

(** C3: Update does not refresh [updated_at].  In the sample store the
    business was created at the clock readings 0 and 1 and the product at 2
    and 3; an update made when the clock reads 4 returns and stores a record
    whose [updated_at] is still the reading taken at creation, next to the
    unchanged [created_at]. *)
Lemma update_leaves_updated_at_stale :
  (@utcnow sample_runtime shop).1 = Return 4 /\
  (exists r w',
     @update_business sample_runtime "12-3456789" bakery_patch shop =
       (Return r, w') /\
     w_businesses w' !! "12-3456789" = Some r /\
     BusinessRead.name r = "Ashley's Bakery" /\
     BusinessRead.created_at r = 0 /\
     BusinessRead.updated_at r = 1) /\
  (exists r w',
     @update_product sample_runtime 0 chocolate_patch shop = (Return r, w') /\
     w_products w' !! 0 = Some r /\
     ProductRead.name r = "Chocolate Cupcake" /\
     ProductRead.created_at r = 2 /\
     ProductRead.updated_at r = 3).
Proof.
  split; [reflexivity|]. split.
  - eexists _, _. split; [vm_compute; reflexivity|].
    split; [vm_compute; reflexivity|]. repeat split.
  - eexists _, _. split; [vm_compute; reflexivity|].
    split; [vm_compute; reflexivity|]. repeat split.
Qed.

(** ** The properties at the scenario *)

Lemma create_existing_key_conflict_witness :
  (is_Conflict (@create_business sample_runtime cupcakes shop).1 /\
   (@create_business sample_runtime cupcakes shop).2 = shop) /\
  (is_Conflict (@create_product sample_runtime vanilla shop).1 /\
   (@create_product sample_runtime vanilla shop).2 = shop).
Proof.
  destruct (@create_existing_key_conflict sample_runtime shop cupcakes vanilla)
    as [Hb Hp].
  split.
  - destruct (Hb cupcakes_read shop_businesses) as (Hc & Hw & _).
    split; assumption.
  - destruct (Hp vanilla_read shop_products) as (Hc & Hw & _).
    split; assumption.
Defined.

Lemma update_merges_payload_witness :
  (exists w',
     @update_business sample_runtime "12-3456789" bakery_patch shop =
       (Return (BusinessRead.mk "12-3456789" "Ashley's Bakery" "a@example.com"
                  None 0 1), w')) /\
  (exists w',
     @update_product sample_runtime 0 chocolate_patch shop =
       (Return (ProductRead.mk 0 "Chocolate Cupcake" cupcakes 2 3), w')).
Proof.
  destruct (@update_merges_payload sample_runtime shop "12-3456789"
              cupcakes_read bakery_patch 0 vanilla_read chocolate_patch)
    as [Hb Hp].
  split.
  - destruct (Hb shop_businesses cupcakes_valid bakery_patch_valid) as [Hrun _].
    eexists. exact Hrun.
  - destruct (Hp shop_products cupcakes_valid chocolate_patch_valid) as [Hrun _].
    eexists. exact Hrun.
Defined.

Lemma update_empty_identity_witness :
  @update_business sample_runtime "12-3456789" BusinessUpdate_empty shop =
    (Return cupcakes_read, shop) /\
  @update_product sample_runtime 0 ProductUpdate_empty shop =
    (Return vanilla_read, shop).
Proof.
  destruct (@update_empty_identity sample_runtime shop "12-3456789"
              cupcakes_read 0 vanilla_read) as [Hb Hp].
  split.
  - exact (Hb shop_businesses cupcakes_valid).
  - exact (Hp shop_products cupcakes_valid).
Defined.

Lemma create_then_get_witness :
  (exists r w',
     @create_business sample_runtime cupcakes initial = (Return r, w') /\
     get_business "12-3456789" w' = (Return r, w') /\
     BusinessRead.base r = cupcakes) /\
  (exists r w',
     @create_product sample_runtime vanilla initial = (Return r, w') /\
     get_product 0 w' = (Return r, w') /\
     ProductRead_base r = vanilla).
Proof.
  destruct (@create_then_get sample_runtime initial cupcakes vanilla) as [Hb Hp].
  split.
  - destruct (Hb cupcakes_valid eq_refl) as (r & w' & Hc & Hg & Hr & _).
    exists r, w'. repeat split; assumption.
  - destruct (Hp cupcakes_valid eq_refl) as (r & w' & Hc & Hg & Hr & _).
    exists r, w'. repeat split; assumption.
Defined.

Lemma list_filters_intersect_witness :
  (exists l l1 l2,
     list_businesses (Some "12-3456789") (Some "Ashley's Cupcakes") None None shop =
       (Return l, shop) /\
     list_businesses (Some "12-3456789") None None None shop = (Return l1, shop) /\
     list_businesses None (Some "Ashley's Cupcakes") None None shop =
       (Return l2, shop) /\
     forall r, r ∈ l <-> r ∈ l1 /\ r ∈ l2) /\
  (exists l l1 l2,
     list_products (Some 0) None (Some "12-3456789") None shop = (Return l, shop) /\
     list_products (Some 0) None None None shop = (Return l1, shop) /\
     list_products None None (Some "12-3456789") None shop = (Return l2, shop) /\
     forall r, r ∈ l <-> r ∈ l1 /\ r ∈ l2).
Proof.
  destruct (list_filters_intersect shop
              (Some "12-3456789") None None None
              None (Some "Ashley's Cupcakes") None None
              (Some 0) None None None (Some "12-3456789") None None None)
    as (Hb & Hp & _).
  split.
  - apply Hb; [right | left | left | left]; reflexivity.
  - apply Hp; [right | left | right | left]; reflexivity.
Defined.

Lemma not_found_iff_absent_witness :
  (is_NotFound (get_business "12-3456789" initial).1 /\
   is_NotFound (@update_business sample_runtime "12-3456789" bakery_patch initial).1 /\
   is_NotFound (delete_business "12-3456789" initial).1 /\
   (delete_business "12-3456789" initial).2 = initial) /\
  (is_NotFound (get_product 0 initial).1 /\
   is_NotFound (@update_product sample_runtime 0 chocolate_patch initial).1 /\
   is_NotFound (delete_product 0 initial).1 /\
   (delete_product 0 initial).2 = initial).
Proof.
  destruct (@not_found_iff_absent sample_runtime initial "12-3456789"
              bakery_patch 0 chocolate_patch)
    as [(Hg & Hu & Hd & Hw) (Hg' & Hu' & Hd' & Hw')].
  split.
  - split; [apply Hg; reflexivity|]. split; [apply Hu; reflexivity|].
    split; [apply Hd; reflexivity|]. apply Hw. reflexivity.
  - split; [apply Hg'; reflexivity|]. split; [apply Hu'; reflexivity|].
    split; [apply Hd'; reflexivity|]. apply Hw'. reflexivity.
Defined.

Lemma update_keeps_keys_witness :
  (exists r w',
     @update_business sample_runtime "12-3456789" rekey_patch shop =
       (Return r, w') /\
     BusinessRead.ein r = "98-7654321" /\
     get_business "12-3456789" w' = (Return r, w') /\
     is_NotFound (get_business "98-7654321" w').1) /\
  (exists r w',
     @update_product sample_runtime 0 renumber_patch shop = (Return r, w') /\
     ProductRead.product_id r = 7 /\
     get_product 0 w' = (Return r, w') /\
     is_NotFound (get_product 7 w').1).
Proof.
  destruct (@update_keeps_keys sample_runtime shop "12-3456789" rekey_patch
              0 renumber_patch) as (_ & _ & Hb & Hp).
  split.
  - destruct (Hb cupcakes_read "98-7654321" shop_businesses cupcakes_valid
                rekey_patch_valid eq_refl)
      as (r & w' & Hu & He & Hg & Hn); [discriminate..|].
    exists r, w'. repeat split; try assumption. apply Hn.
    vm_compute. reflexivity.
  - destruct (Hp vanilla_read 7 shop_products cupcakes_valid
                renumber_patch_valid eq_refl)
      as (r & w' & Hu & He & Hg & Hn); [discriminate..|].
    exists r, w'. repeat split; try assumption. apply Hn.
    vm_compute. reflexivity.
Defined.



Lemma sample_normalises : @normalises sample_runtime.
Proof.
  intros s v. cbn [email_validator sample_runtime].
  destruct (has_at s) eqn:Hs; [|discriminate].
  intros Hv. injection Hv as <-. by rewrite Hs.
Qed.

Lemma store_valid_preserved_witness : @store_valid sample_runtime shop.
Proof.
  destruct (@store_valid_preserved sample_runtime sample_normalises initial
              cupcakes "12-3456789" BusinessUpdate_empty vanilla 0
              ProductUpdate_empty) as (Hinit & Hcreate & _).
  { split; intros k x Hk; vm_compute in Hk; discriminate Hk. }
  destruct (@store_valid_preserved sample_runtime sample_normalises
              (@create_business sample_runtime cupcakes initial).2
              cupcakes "12-3456789" BusinessUpdate_empty vanilla 0
              ProductUpdate_empty Hcreate) as (_ & _ & _ & _ & Hproduct & _).
  exact Hproduct.
Defined.

(** X2: Delete removes the entry under the key and nothing else: a Get on
    the key right after it fails with NotFound, every other key reads as
    before, the store is one record smaller and the other store is
    untouched.  Both stores. *)
Theorem delete_then_get (w : world) (k : string) (i : Z) :
  (is_Some (w_businesses w !! k) ->
   exists w',
     delete_business k w = (Return tt, w') /\
     is_NotFound (get_business k w').1 /\
     (forall k', k' <> k -> w_businesses w' !! k' = w_businesses w !! k') /\
     S (size (w_businesses w')) = size (w_businesses w) /\
     w_products w' = w_products w) /\
  (is_Some (w_products w !! i) ->
   exists w',
     delete_product i w = (Return tt, w') /\
     is_NotFound (get_product i w').1 /\
     (forall i', i' <> i -> w_products w' !! i' = w_products w !! i') /\
     S (size (w_products w')) = size (w_products w) /\
     w_businesses w' = w_businesses w).
Proof.
  split.
  - intros [b Hk]. rewrite delete_business_run, Hk. eexists. split; [reflexivity|].
    rewrite get_business_run. cbn [put_businesses w_businesses w_products].
    rewrite lookup_delete_eq. split; [by eexists|].
    split; [intros k' Hne; by rewrite lookup_delete_ne|].
    split; [|done]. rewrite map_size_delete_Some by eauto.
    assert (size (w_businesses w) <> 0%nat)
      by (apply (map_size_ne_0_lookup_2 _ k); eauto).
    lia.
  - intros [p Hk]. rewrite delete_product_run, Hk. eexists. split; [reflexivity|].
    rewrite get_product_run. cbn [put_products w_businesses w_products].
    rewrite lookup_delete_eq. split; [by eexists|].
    split; [intros k' Hne; by rewrite lookup_delete_ne|].
    split; [|done]. rewrite map_size_delete_Some by eauto.
    assert (size (w_products w) <> 0%nat)
      by (apply (map_size_ne_0_lookup_2 _ i); eauto).
    lia.
Qed.

Lemma delete_then_get_witness :
  (exists w',
     delete_business "12-3456789" shop = (Return tt, w') /\
     is_NotFound (get_business "12-3456789" w').1) /\
  (exists w',
     delete_product 0 shop = (Return tt, w') /\
     is_NotFound (get_product 0 w').1).
Proof.
  destruct (delete_then_get shop "12-3456789" 0) as [Hb Hp].
  split.
  - destruct Hb as (w' & Hd & Hg & _); [exists cupcakes_read; exact shop_businesses|].
    exists w'. split; assumption.
  - destruct Hp as (w' & Hd & Hg & _); [exists vanilla_read; exact shop_products|].
    exists w'. split; assumption.
Defined.

(** The scenario of the specification: after the business is renamed, the
    product still embeds the business under its old name. *)
Lemma embedded_business_is_a_snapshot :
  exists r w',
    @update_business sample_runtime "12-3456789" bakery_patch shop =
      (Return r, w') /\
    BusinessRead.name r = "Ashley's Bakery" /\
    get_product 0 w' = (Return vanilla_read, w') /\
    BusinessBase.name (ProductRead.business vanilla_read) = "Ashley's Cupcakes".
Proof.
  eexists _, _. split; [vm_compute; reflexivity|].
  split; [reflexivity|]. split; [vm_compute; reflexivity | reflexivity].
Qed.

(** * Further properties of the handlers *)

Section Effects.
Context `{rt : Runtime}.

Lemma ProductBase_init_dump_id (p p' : ProductBase.t) :
  ProductBase_init (ProductBase.model_dump p) = inr p' ->
  ProductBase.product_id p' = ProductBase.product_id p.
Proof.
  rewrite (ProductBase_init_values _ (VInt (ProductBase.product_id p))
             (VStr (ProductBase.name p))
             (VDict (BusinessBase.model_dump (ProductBase.business p))));
    [|reflexivity..].
  cbn [int_validator str_validator at_loc].
  destruct (at_loc "business" _) as [es|b]; [discriminate|].
  by intros [= <-].
Qed.

(** X3: a handler that raises stores nothing.  Whatever the state and the
    arguments, when a create raises (a duplicate key, or the constructor
    rejecting the payload) both dictionaries are as before, and when a get,
    an update or a delete raises (an absent key, or the constructor
    rejecting the merged record) the whole state is as before. *)
Theorem failure_stores_nothing
    (w : world) (b : BusinessCreate) (k : string) (u : BusinessUpdate.t)
    (p : ProductCreate) (i : Z) (up : ProductUpdate.t) (e : exn) :
  ((create_business b w).1 = Raise e ->
     w_businesses (create_business b w).2 = w_businesses w /\
     w_products (create_business b w).2 = w_products w) /\
  ((create_product p w).1 = Raise e ->
     w_businesses (create_product p w).2 = w_businesses w /\
     w_products (create_product p w).2 = w_products w) /\
  ((update_business k u w).1 = Raise e -> (update_business k u w).2 = w) /\
  ((update_product i up w).1 = Raise e -> (update_product i up w).2 = w) /\
  ((delete_business k w).1 = Raise e -> (delete_business k w).2 = w) /\
  ((delete_product i w).1 = Raise e -> (delete_product i w).2 = w) /\
  ((get_business k w).1 = Raise e -> (get_business k w).2 = w) /\
  ((get_product i w).1 = Raise e -> (get_product i w).2 = w).
Proof.
  rewrite create_business_run, create_product_run, update_business_run,
    update_product_run, delete_business_run, delete_product_run,
    get_business_run, get_product_run.
  split; [|split; [|split; [|split; [|split; [|split; [|split]]]]]].
  - destruct (w_businesses w !! _); [done|].
    by destruct (BusinessBase_init _).
  - destruct (w_products w !! _); [done|].
    by destruct (ProductBase_init _).
  - destruct (w_businesses w !! k); [|done]. by destruct (BusinessBase_init _).
  - destruct (w_products w !! i); [|done]. by destruct (ProductBase_init _).
  - by destruct (w_businesses w !! k).
  - by destruct (w_products w !! i).
  - by destruct (w_businesses w !! k).
  - by destruct (w_products w !! i).
Qed.

(** X4: a create and an update touch the entry under the addressed key
    only.  Every other key of the store reads as before; a create that
    returns makes the store one record larger, and an update never changes
    its size. *)
Theorem other_keys_untouched
    (w : world) (b : BusinessCreate) (k : string) (u : BusinessUpdate.t)
    (p : ProductCreate) (i : Z) (up : ProductUpdate.t) :
  (forall k', k' <> BusinessBase.ein b ->
     w_businesses (create_business b w).2 !! k' = w_businesses w !! k') /\
  (forall k', k' <> k ->
     w_businesses (update_business k u w).2 !! k' = w_businesses w !! k') /\
  (forall i', i' <> ProductBase.product_id p ->
     w_products (create_product p w).2 !! i' = w_products w !! i') /\
  (forall i', i' <> i ->
     w_products (update_product i up w).2 !! i' = w_products w !! i') /\
  (forall r, (create_business b w).1 = Return r ->
     size (w_businesses (create_business b w).2) = S (size (w_businesses w))) /\
  (forall r, (create_product p w).1 = Return r ->
     size (w_products (create_product p w).2) = S (size (w_products w))) /\
  size (w_businesses (update_business k u w).2) = size (w_businesses w) /\
  size (w_products (update_product i up w).2) = size (w_products w).
Proof.
  rewrite create_business_run, create_product_run, update_business_run,
    update_product_run.
  split; [|split; [|split; [|split; [|split; [|split; [|split]]]]]].
  - intros k' Hne. destruct (w_businesses w !! _); [done|].
    destruct (BusinessBase_init _); [done|].
    cbn [snd put_businesses w_businesses]. by rewrite lookup_insert_ne.
  - intros k' Hne. destruct (w_businesses w !! k); [|done].
    destruct (BusinessBase_init _); [done|].
    cbn [snd put_businesses w_businesses]. by rewrite lookup_insert_ne.
  - intros i' Hne. destruct (w_products w !! _); [done|].
    destruct (ProductBase_init _) as [es|p'] eqn:Hp; [done|].
    cbn [snd put_products w_products].
    rewrite (ProductBase_init_dump_id _ _ Hp). by rewrite lookup_insert_ne.
  - intros i' Hne. destruct (w_products w !! i); [|done].
    destruct (ProductBase_init _); [done|].
    cbn [snd put_products w_products]. by rewrite lookup_insert_ne.
  - intros r. destruct (w_businesses w !! _) eqn:Hk; [done|].
    destruct (BusinessBase_init _); [done|]. intros _.
    cbn [snd put_businesses w_businesses]. by rewrite map_size_insert_None.
  - intros r. destruct (w_products w !! _) eqn:Hk; [done|].
    destruct (ProductBase_init _) as [es|p'] eqn:Hp; [done|]. intros _.
    cbn [snd put_products w_products].
    rewrite (ProductBase_init_dump_id _ _ Hp). by rewrite map_size_insert_None.
  - destruct (w_businesses w !! k) eqn:Hk; [|done].
    destruct (BusinessBase_init _); [done|].
    cbn [snd put_businesses w_businesses]. rewrite map_size_insert_Some; eauto.
  - destruct (w_products w !! i) eqn:Hk; [|done].
    destruct (ProductBase_init _); [done|].
    cbn [snd put_products w_products]. rewrite map_size_insert_Some; eauto.
Qed.

End Effects.

(** ** Updates compose *)

Section Composition.
Context `{rt : Runtime}.

Lemma overwrite_field_then {A} (f1 f2 : field A) (old : A) :
  overwrite f2 (overwrite f1 old) = overwrite (field_then f1 f2) old.
Proof. by destruct f2. Qed.

Lemma field_then_same {A} (f : field A) : field_then f f = f.
Proof. by destruct f. Qed.

Lemma merge_business_then (b r1 : BusinessRead.t) (u1 u2 : BusinessUpdate.t) :
  merge_business b u1 = Some r1 ->
  merge_business r1 u2 = merge_business b (BusinessUpdate_then u1 u2).
Proof.
  unfold merge_business. intros Hm.
  destruct (overwrite (BusinessUpdate.ein u1) _) as [e|] eqn:He; [|done].
  destruct (overwrite (BusinessUpdate.name u1) _) as [n|] eqn:Hn; [|done].
  destruct (overwrite (BusinessUpdate.email u1) _) as [m|] eqn:Hm'; [|done].
  cbn in Hm. injection Hm as <-.
  cbn [BusinessUpdate_then BusinessUpdate.ein BusinessUpdate.name
       BusinessUpdate.email BusinessUpdate.phone BusinessRead.ein
       BusinessRead.name BusinessRead.email BusinessRead.phone
       BusinessRead.created_at BusinessRead.updated_at].
  by rewrite <- He, <- Hn, <- Hm', !overwrite_field_then.
Qed.

Lemma merge_product_then (p r1 : ProductRead.t) (u1 u2 : ProductUpdate.t) :
  merge_product p u1 = Some r1 ->
  merge_product r1 u2 = merge_product p (ProductUpdate_then u1 u2).
Proof.
  unfold merge_product. intros Hm.
  destruct (overwrite (ProductUpdate.product_id u1) _) as [i|] eqn:Hi; [|done].
  destruct (overwrite (ProductUpdate.name u1) _) as [n|] eqn:Hn; [|done].
  destruct (overwrite (field_map (fmap BusinessBase.fields)
              (ProductUpdate.business u1)) _) as [b|] eqn:Hb; [|done].
  cbn in Hm. injection Hm as <-.
  cbn [ProductUpdate_then ProductUpdate.product_id ProductUpdate.name
       ProductUpdate.business ProductRead.product_id ProductRead.name
       ProductRead.business ProductRead.created_at ProductRead.updated_at].
  rewrite <- Hi, <- Hn, <- Hb, !overwrite_field_then.
  by destruct (ProductUpdate.business u2).
Qed.

Lemma merge_business_valid (b r : BusinessRead.t) (u : BusinessUpdate.t) :
  BusinessRead_valid b -> BusinessUpdate_valid u ->
  merge_business b u = Some r -> BusinessRead_valid r.
Proof.
  intros [Hb1 Hb2] [Hu1 Hu2]. unfold merge_business. intros Hm.
  destruct (BusinessUpdate.ein u) as [|[e|]] eqn:He; [| |done];
    destruct (BusinessUpdate.name u) as [|[n|]]; try done;
    destruct (BusinessUpdate.email u) as [|[m|]] eqn:Hm'; try done;
    cbn in Hm; injection Hm as <-; split; cbn; eauto.
Qed.

Lemma merge_product_valid (p r : ProductRead.t) (u : ProductUpdate.t) :
  ProductRead_valid p -> ProductUpdate_valid u ->
  merge_product p u = Some r -> ProductRead_valid r.
Proof.
  intros Hp Hu. unfold merge_product. intros Hm.
  destruct (ProductUpdate.product_id u) as [|[i|]]; [| |done];
    destruct (ProductUpdate.name u) as [|[n|]]; try done;
    destruct (ProductUpdate.business u) as [|[b|]] eqn:Hb; try done;
    cbn in Hm; injection Hm as <-; unfold ProductRead_valid; cbn; eauto.
Qed.

Lemma BusinessUpdate_then_valid (u1 u2 : BusinessUpdate.t) :
  BusinessUpdate_valid u1 -> BusinessUpdate_valid u2 ->
  BusinessUpdate_valid (BusinessUpdate_then u1 u2).
Proof.
  intros [H1 H2] [H3 H4]. split; cbn.
  - intros e. destruct (BusinessUpdate.ein u2); cbn; eauto.
  - intros m. destruct (BusinessUpdate.email u2); cbn; eauto.
Qed.

Lemma ProductUpdate_then_valid (u1 u2 : ProductUpdate.t) :
  ProductUpdate_valid u1 -> ProductUpdate_valid u2 ->
  ProductUpdate_valid (ProductUpdate_then u1 u2).
Proof.
  intros H1 H2 i. cbn. destruct (ProductUpdate.business u2) eqn:Hb; cbn; eauto.
  intros Hi. apply H2. by rewrite Hb.
Qed.

Lemma put_businesses_twice (m1 m2 : gmap string BusinessRead.t) (w : world) :
  put_businesses m2 (put_businesses m1 w) = put_businesses m2 w.
Proof. reflexivity. Qed.

Lemma put_products_twice (m1 m2 : gmap Z ProductRead.t) (w : world) :
  put_products m2 (put_products m1 w) = put_products m2 w.
Proof. reflexivity. Qed.

(** What one update of a business does on the state left by an earlier,
    successful one. *)
Lemma update_business_after (w : world) (k : string) (b r1 : BusinessRead.t)
    (u1 u2 : BusinessUpdate.t) :
  w_businesses w !! k = Some b ->
  BusinessRead_valid b -> BusinessUpdate_valid u1 -> BusinessUpdate_valid u2 ->
  merge_business b u1 = Some r1 ->
  let w1 := put_businesses (<[k := r1]> (w_businesses w)) w in
  match merge_business b (BusinessUpdate_then u1 u2) with
  | Some r =>
      update_business k u2 w1 =
        (Return r, put_businesses (<[k := r]> (w_businesses w)) w) /\
      update_business k (BusinessUpdate_then u1 u2) w =
        (Return r, put_businesses (<[k := r]> (w_businesses w)) w)
  | None =>
      is_ValidationError (update_business k u2 w1).1 /\
      is_ValidationError (update_business k (BusinessUpdate_then u1 u2) w).1
  end.
Proof.
  intros Hk Hb Hu1 Hu2 Hm w1.
  pose proof (merge_business_valid _ _ _ Hb Hu1 Hm) as Hr1.
  assert (Hk1 : w_businesses w1 !! k = Some r1) by apply lookup_insert_eq.
  pose proof (update_business_merged w1 k r1 u2 Hk1 Hr1 Hu2) as H2.
  pose proof (update_business_merged w k b _ Hk Hb
                (BusinessUpdate_then_valid _ _ Hu1 Hu2)) as H12.
  rewrite (merge_business_then _ _ _ _ Hm) in H2.
  destruct (merge_business b (BusinessUpdate_then u1 u2)) as [r|].
  - split; [|done]. rewrite H2. unfold w1.
    cbn [put_businesses w_businesses w_products w_ticks].
    by rewrite insert_insert_eq.
  - split; [apply H2 | apply H12].
Qed.

Lemma update_product_after (w : world) (k : Z) (p r1 : ProductRead.t)
    (u1 u2 : ProductUpdate.t) :
  w_products w !! k = Some p ->
  ProductRead_valid p -> ProductUpdate_valid u1 -> ProductUpdate_valid u2 ->
  merge_product p u1 = Some r1 ->
  let w1 := put_products (<[k := r1]> (w_products w)) w in
  match merge_product p (ProductUpdate_then u1 u2) with
  | Some r =>
      update_product k u2 w1 =
        (Return r, put_products (<[k := r]> (w_products w)) w) /\
      update_product k (ProductUpdate_then u1 u2) w =
        (Return r, put_products (<[k := r]> (w_products w)) w)
  | None =>
      is_ValidationError (update_product k u2 w1).1 /\
      is_ValidationError (update_product k (ProductUpdate_then u1 u2) w).1
  end.
Proof.
  intros Hk Hp Hu1 Hu2 Hm w1.
  pose proof (merge_product_valid _ _ _ Hp Hu1 Hm) as Hr1.
  assert (Hk1 : w_products w1 !! k = Some r1) by apply lookup_insert_eq.
  pose proof (update_product_merged w1 k r1 u2 Hk1 Hr1 Hu2) as H2.
  pose proof (update_product_merged w k p _ Hk Hp
                (ProductUpdate_then_valid _ _ Hu1 Hu2)) as H12.
  rewrite (merge_product_then _ _ _ _ Hm) in H2.
  destruct (merge_product p (ProductUpdate_then u1 u2)) as [r|].
  - split; [|done]. rewrite H2. unfold w1.
    cbn [put_products w_businesses w_products w_ticks].
    by rewrite insert_insert_eq.
  - split; [apply H2 | apply H12].
Qed.

End Composition.

Section ComposedUpdates.
Context `{rt : Runtime}.

Lemma BusinessUpdate_then_same (u : BusinessUpdate.t) :
  BusinessUpdate_then u u = u.
Proof. destruct u. unfold BusinessUpdate_then. cbn. by rewrite !field_then_same. Qed.

Lemma ProductUpdate_then_same (u : ProductUpdate.t) :
  ProductUpdate_then u u = u.
Proof. destruct u. unfold ProductUpdate_then. cbn. by rewrite !field_then_same. Qed.

Lemma update_business_returned (w w1 : world) (k : string)
    (b r1 : BusinessRead.t) (u : BusinessUpdate.t) :
  w_businesses w !! k = Some b ->
  BusinessRead_valid b -> BusinessUpdate_valid u ->
  update_business k u w = (Return r1, w1) ->
  merge_business b u = Some r1 /\
  w1 = put_businesses (<[k := r1]> (w_businesses w)) w.
Proof.
  intros Hk Hb Hu Hrun.
  pose proof (update_business_merged w k b u Hk Hb Hu) as Hm.
  destruct (merge_business b u) as [r|].
  - rewrite Hm in Hrun. by injection Hrun as <- <-.
  - destruct Hm as [[es Hes] _]. rewrite Hrun in Hes. discriminate Hes.
Qed.

Lemma update_product_returned (w w1 : world) (k : Z)
    (p r1 : ProductRead.t) (u : ProductUpdate.t) :
  w_products w !! k = Some p ->
  ProductRead_valid p -> ProductUpdate_valid u ->
  update_product k u w = (Return r1, w1) ->
  merge_product p u = Some r1 /\
  w1 = put_products (<[k := r1]> (w_products w)) w.
Proof.
  intros Hk Hp Hu Hrun.
  pose proof (update_product_merged w k p u Hk Hp Hu) as Hm.
  destruct (merge_product p u) as [r|].
  - rewrite Hm in Hrun. by injection Hrun as <- <-.
  - destruct Hm as [[es Hes] _]. rewrite Hrun in Hes. discriminate Hes.
Qed.

(** X5: Update is idempotent.  When an update of a stored record returns,
    the same update made again on the resulting state returns the same
    record and leaves that state as it is.  Both stores; the stored record
    and the payload are validated instances. *)
Theorem update_idempotent
    (w w1 : world) (k : string) (b r1 : BusinessRead.t) (u : BusinessUpdate.t)
    (v1 : world) (i : Z) (p q1 : ProductRead.t) (up : ProductUpdate.t) :
  (w_businesses w !! k = Some b ->
   BusinessRead_valid b -> BusinessUpdate_valid u ->
   update_business k u w = (Return r1, w1) ->
   update_business k u w1 = (Return r1, w1)) /\
  (w_products w !! i = Some p ->
   ProductRead_valid p -> ProductUpdate_valid up ->
   update_product i up w = (Return q1, v1) ->
   update_product i up v1 = (Return q1, v1)).
Proof.
  split.
  - intros Hk Hb Hu Hrun.
    destruct (update_business_returned _ _ _ _ _ _ Hk Hb Hu Hrun) as [Hm ->].
    pose proof (update_business_after w k b r1 u u Hk Hb Hu Hu Hm) as Ha.
    cbv zeta in Ha. rewrite BusinessUpdate_then_same, Hm in Ha. apply Ha.
  - intros Hk Hp Hu Hrun.
    destruct (update_product_returned _ _ _ _ _ _ Hk Hp Hu Hrun) as [Hm ->].
    pose proof (update_product_after w i p q1 up up Hk Hp Hu Hu Hm) as Ha.
    cbv zeta in Ha. rewrite ProductUpdate_then_same, Hm in Ha. apply Ha.
Qed.

(** X6: two updates of one key in a row are one update with the two
    payloads put together, the fields of the second winning.  After a first
    update that returned, the second returns a record and reaches a state
    exactly when the combined update does so from the original state, and
    it raises a validation error exactly when the combined update does.
    Both stores; the stored record and the payloads are validated
    instances. *)
Theorem updates_compose
    (w w1 : world) (k : string) (b r1 : BusinessRead.t)
    (u1 u2 : BusinessUpdate.t)
    (v1 : world) (i : Z) (p q1 : ProductRead.t) (up1 up2 : ProductUpdate.t) :
  (w_businesses w !! k = Some b ->
   BusinessRead_valid b -> BusinessUpdate_valid u1 -> BusinessUpdate_valid u2 ->
   update_business k u1 w = (Return r1, w1) ->
   (forall r w2,
      update_business k u2 w1 = (Return r, w2) <->
      update_business k (BusinessUpdate_then u1 u2) w = (Return r, w2)) /\
   (is_ValidationError (update_business k u2 w1).1 <->
    is_ValidationError (update_business k (BusinessUpdate_then u1 u2) w).1)) /\
  (w_products w !! i = Some p ->
   ProductRead_valid p -> ProductUpdate_valid up1 -> ProductUpdate_valid up2 ->
   update_product i up1 w = (Return q1, v1) ->
   (forall r w2,
      update_product i up2 v1 = (Return r, w2) <->
      update_product i (ProductUpdate_then up1 up2) w = (Return r, w2)) /\
   (is_ValidationError (update_product i up2 v1).1 <->
    is_ValidationError (update_product i (ProductUpdate_then up1 up2) w).1)).
Proof.
  split.
  - intros Hk Hb Hu1 Hu2 Hrun.
    destruct (update_business_returned _ _ _ _ _ _ Hk Hb Hu1 Hrun) as [Hm ->].
    pose proof (update_business_after w k b r1 u1 u2 Hk Hb Hu1 Hu2 Hm) as Ha.
    cbv zeta in Ha.
    destruct (merge_business b (BusinessUpdate_then u1 u2)) as [r'|].
    + destruct Ha as [-> ->]. split; [done|].
      split; intros [es Hes]; discriminate Hes.
    + destruct Ha as [[es2 H2] [es12 H12]]. split; [|split; by eexists].
      intros r w2. split; intros Heq; rewrite Heq in *; discriminate.
  - intros Hk Hp Hu1 Hu2 Hrun.
    destruct (update_product_returned _ _ _ _ _ _ Hk Hp Hu1 Hrun) as [Hm ->].
    pose proof (update_product_after w i p q1 up1 up2 Hk Hp Hu1 Hu2 Hm) as Ha.
    cbv zeta in Ha.
    destruct (merge_product p (ProductUpdate_then up1 up2)) as [r'|].
    + destruct Ha as [-> ->]. split; [done|].
      split; intros [es Hes]; discriminate Hes.
    + destruct Ha as [[es2 H2] [es12 H12]]. split; [|split; by eexists].
      intros r w2. split; intros Heq; rewrite Heq in *; discriminate.
Qed.

End ComposedUpdates.

(** ** Timestamps *)

Section Timestamps.
Context `{rt : Runtime}.

Lemma stamped_at_mono (t t' : nat) (c u : datetime) :
  (t <= t')%nat -> stamped_at t c u -> stamped_at t' c u.
Proof. intros Ht (n & Hn & Hc & Hu). exists n. split; [lia | done]. Qed.

Lemma stamps_ok_later (w : world) (t : nat) :
  (w_ticks w <= t)%nat -> stamps_ok w ->
  stamps_ok (World (w_businesses w) (w_products w) t).
Proof.
  intros Ht [Hbs Hps]. split; intros k x Hk; cbn [w_ticks];
    eapply stamped_at_mono; eauto.
Qed.

Lemma stamps_ok_businesses (w : world) (m : gmap string BusinessRead.t)
    (t : nat) :
  (w_ticks w <= t)%nat -> stamps_ok w ->
  (forall k b, m !! k = Some b ->
     stamped_at t (BusinessRead.created_at b) (BusinessRead.updated_at b)) ->
  stamps_ok (World m (w_products w) t).
Proof.
  intros Ht [_ Hps] Hm. split; [done|]. intros k x Hk. cbn [w_ticks].
  eapply stamped_at_mono; eauto.
Qed.

Lemma stamps_ok_products (w : world) (m : gmap Z ProductRead.t) (t : nat) :
  (w_ticks w <= t)%nat -> stamps_ok w ->
  (forall k p, m !! k = Some p ->
     stamped_at t (ProductRead.created_at p) (ProductRead.updated_at p)) ->
  stamps_ok (World (w_businesses w) m t).
Proof.
  intros Ht [Hbs _] Hm. split; [|done]. intros k x Hk. cbn [w_ticks].
  eapply stamped_at_mono; eauto.
Qed.

Lemma stamps_ok_initial : stamps_ok initial.
Proof.
  split; intros k x Hk; cbn [initial w_businesses w_products] in Hk;
    by rewrite lookup_empty in Hk.
Qed.

Lemma create_business_stamps (w : world) (b : BusinessCreate) :
  stamps_ok w -> stamps_ok (create_business b w).2.
Proof.
  intros Hw. rewrite create_business_run.
  destruct (w_businesses w !! _); [done|].
  destruct (BusinessBase_init _) as [es|b'];
    [apply (stamps_ok_later w); [cbn [tick w_ticks]; lia | done]|].
  apply (stamps_ok_businesses w);
    [cbn [tick w_ticks]; lia | done |]. intros k x.
  intros [[_ <-]|[_ Hk]]%lookup_insert_Some.
  - exists (w_ticks w). cbn [tick w_ticks]. split; [lia | done].
  - eapply stamped_at_mono; [|by eapply Hw]. cbn [tick w_ticks]. lia.
Qed.

Lemma update_business_stamps (w : world) (k : string) (u : BusinessUpdate.t) :
  stamps_ok w -> stamps_ok (update_business k u w).2.
Proof.
  intros Hw. rewrite update_business_run.
  destruct (w_businesses w !! k) as [b0|] eqn:Hk0; [|done].
  destruct (BusinessBase_init _) as [es|b']; [done|].
  apply (stamps_ok_businesses w);
    [cbn [tick w_ticks]; lia | done |]. intros k' x.
  intros [[_ <-]|[_ Hk]]%lookup_insert_Some; [|by eapply Hw].
  apply (proj1 Hw _ _ Hk0).
Qed.

Lemma delete_business_stamps (w : world) (k : string) :
  stamps_ok w -> stamps_ok (delete_business k w).2.
Proof.
  intros Hw. rewrite delete_business_run.
  destruct (w_businesses w !! k); [|done].
  apply (stamps_ok_businesses w);
    [cbn [tick w_ticks]; lia | done |]. intros k' x.
  intros [_ Hk]%lookup_delete_Some. by eapply Hw.
Qed.

Lemma create_product_stamps (w : world) (p : ProductCreate) :
  stamps_ok w -> stamps_ok (create_product p w).2.
Proof.
  intros Hw. rewrite create_product_run.
  destruct (w_products w !! _); [done|].
  destruct (ProductBase_init _) as [es|p'];
    [apply (stamps_ok_later w); [cbn [tick w_ticks]; lia | done]|].
  apply (stamps_ok_products w);
    [cbn [tick w_ticks]; lia | done |]. intros k x.
  intros [[_ <-]|[_ Hk]]%lookup_insert_Some.
  - exists (w_ticks w). cbn [tick w_ticks]. split; [lia | done].
  - eapply stamped_at_mono; [|by eapply Hw]. cbn [tick w_ticks]. lia.
Qed.

Lemma update_product_stamps (w : world) (i : Z) (up : ProductUpdate.t) :
  stamps_ok w -> stamps_ok (update_product i up w).2.
Proof.
  intros Hw. rewrite update_product_run.
  destruct (w_products w !! i) as [p0|] eqn:Hk0; [|done].
  destruct (ProductBase_init _) as [es|p']; [done|].
  apply (stamps_ok_products w);
    [cbn [tick w_ticks]; lia | done |]. intros k' x.
  intros [[_ <-]|[_ Hk]]%lookup_insert_Some; [|by eapply Hw].
  apply (proj2 Hw _ _ Hk0).
Qed.

Lemma delete_product_stamps (w : world) (i : Z) :
  stamps_ok w -> stamps_ok (delete_product i w).2.
Proof.
  intros Hw. rewrite delete_product_run.
  destruct (w_products w !! i); [|done].
  apply (stamps_ok_products w);
    [cbn [tick w_ticks]; lia | done |]. intros k' x.
  intros [_ Hk]%lookup_delete_Some. by eapply Hw.
Qed.

Lemma clock_monotone_le (n m : nat) :
  (forall j, clock j <= clock (S j)) -> (n <= m)%nat -> clock n <= clock m.
Proof.
  intros Hmono Hnm. induction Hnm as [|m Hnm IH]; [lia|].
  specialize (Hmono m). lia.
Qed.

(** X7: the timestamps of every stored record are two successive readings
    of the clock taken before now: the initial state has the property and
    every handler keeps it, an update included, which copies both.  With a
    clock that never goes back, [created_at] is then at most [updated_at] in
    every stored record, and a record that a create returns is stamped no
    earlier than any record stored before. *)
Theorem stamps_preserved
    (w : world) (b : BusinessCreate) (k : string) (u : BusinessUpdate.t)
    (p : ProductCreate) (i : Z) (up : ProductUpdate.t) :
  stamps_ok w ->
  (stamps_ok initial /\
   stamps_ok (create_business b w).2 /\
   stamps_ok (update_business k u w).2 /\
   stamps_ok (delete_business k w).2 /\
   stamps_ok (create_product p w).2 /\
   stamps_ok (update_product i up w).2 /\
   stamps_ok (delete_product i w).2) /\
  ((forall j, clock j <= clock (S j)) ->
   (forall k' b', w_businesses w !! k' = Some b' ->
      BusinessRead.created_at b' <= BusinessRead.updated_at b') /\
   (forall i' p', w_products w !! i' = Some p' ->
      ProductRead.created_at p' <= ProductRead.updated_at p') /\
   (forall r k' b', (create_business b w).1 = Return r ->
      w_businesses w !! k' = Some b' ->
      BusinessRead.updated_at b' <= BusinessRead.created_at r) /\
   (forall r i' p', (create_product p w).1 = Return r ->
      w_products w !! i' = Some p' ->
      ProductRead.updated_at p' <= ProductRead.created_at r)).
Proof.
  intros Hw. split.
  - split; [apply stamps_ok_initial|].
    split; [by apply create_business_stamps|].
    split; [by apply update_business_stamps|].
    split; [by apply delete_business_stamps|].
    split; [by apply create_product_stamps|].
    split; [by apply update_product_stamps|].
    by apply delete_product_stamps.
  - intros Hmono. destruct Hw as [Hbs Hps].
    split; [|split; [|split]].
    + intros k' b' Hk. destruct (Hbs _ _ Hk) as (n & _ & -> & ->). apply Hmono.
    + intros i' p' Hk. destruct (Hps _ _ Hk) as (n & _ & -> & ->). apply Hmono.
    + intros r k' b' Hr Hk. rewrite create_business_run in Hr.
      destruct (w_businesses w !! BusinessBase.ein b); [done|].
      destruct (BusinessBase_init _); [done|]. cbn in Hr. injection Hr as <-.
      destruct (Hbs _ _ Hk) as (n & Hn & _ & ->). cbn.
      apply clock_monotone_le; [done | lia].
    + intros r i' p' Hr Hk. rewrite create_product_run in Hr.
      destruct (w_products w !! ProductBase.product_id p); [done|].
      destruct (ProductBase_init _); [done|]. cbn in Hr. injection Hr as <-.
      destruct (Hps _ _ Hk) as (n & Hn & _ & ->). cbn.
      apply clock_monotone_le; [done | lia].
Qed.

(** X8: only a create reads the clock, and it reads it exactly twice, for
    [created_at] and for [updated_at], whenever the key is free (also when
    the constructor then rejects the payload); a create on a stored key,
    an update, a delete, a get and a list take no reading. *)
Theorem clock_read_by_create_only
    (w : world) (b : BusinessCreate) (k : string) (u : BusinessUpdate.t)
    (p : ProductCreate) (i : Z) (up : ProductUpdate.t)
    (f1 f2 f3 f4 : option string) (g1 : option Z) :
  w_ticks (create_business b w).2 =
    match w_businesses w !! BusinessBase.ein b with
    | Some _ => w_ticks w
    | None => S (S (w_ticks w))
    end /\
  w_ticks (create_product p w).2 =
    match w_products w !! ProductBase.product_id p with
    | Some _ => w_ticks w
    | None => S (S (w_ticks w))
    end /\
  w_ticks (update_business k u w).2 = w_ticks w /\
  w_ticks (update_product i up w).2 = w_ticks w /\
  w_ticks (delete_business k w).2 = w_ticks w /\
  w_ticks (delete_product i w).2 = w_ticks w /\
  w_ticks (get_business k w).2 = w_ticks w /\
  w_ticks (get_product i w).2 = w_ticks w /\
  w_ticks (list_businesses f1 f2 f3 f4 w).2 = w_ticks w /\
  w_ticks (list_products g1 f1 f2 f3 w).2 = w_ticks w.
Proof.
  rewrite create_business_run, create_product_run, update_business_run,
    update_product_run, delete_business_run, delete_product_run,
    get_business_run, get_product_run.
  split; [|split; [|split; [|split; [|split; [|split; [|split; [|split;
    [|split]]]]]]]].
  - destruct (w_businesses w !! _); [done|]. by destruct (BusinessBase_init _).
  - destruct (w_products w !! _); [done|]. by destruct (ProductBase_init _).
  - destruct (w_businesses w !! k); [|done]. by destruct (BusinessBase_init _).
  - destruct (w_products w !! i); [|done]. by destruct (ProductBase_init _).
  - by destruct (w_businesses w !! k).
  - by destruct (w_products w !! i).
  - by destruct (w_businesses w !! k).
  - by destruct (w_products w !! i).
  - reflexivity.
  - reflexivity.
Qed.

End Timestamps.

(** ** The constructors on arbitrary keyword arguments *)

Section Validation.
Context `{rt : Runtime}.

Lemma BusinessBase_init_bad_email (d : kwargs) (m : string) :
  d !! "email" = Some (VStr m) -> email_validator m = None ->
  exists es, BusinessBase_init d = inl es /\ (["email"], value_error) ∈ es.
Proof.
  intros Hm Hbad.
  assert (Hreq : required d "email" EmailStr = inl [(["email"], value_error)]).
  { unfold required. rewrite Hm. cbn [EmailStr]. by rewrite Hbad. }
  unfold BusinessBase_init. rewrite Hreq.
  destruct (required d "ein" EINType), (required d "name" str_validator);
    eexists; (split; [reflexivity|]); cbn [errors_of];
    rewrite ?elem_of_app, ?list_elem_of_singleton; auto.
Qed.

Lemma ProductBase_init_bad_email (d db : kwargs) (m : string) :
  d !! "business" = Some (VDict db) -> db !! "email" = Some (VStr m) ->
  email_validator m = None ->
  exists es, ProductBase_init d = inl es /\
             (["business"; "email"], value_error) ∈ es.
Proof.
  intros Hb Hm Hbad.
  destruct (BusinessBase_init_bad_email db m Hm Hbad) as (es0 & Hes0 & Hin).
  assert (Hreq : required d "business" BusinessBase_validator =
                 inl (map (fun l : line_error => ("business" :: l.1, l.2)) es0)).
  { unfold required. rewrite Hb. cbn [BusinessBase_validator]. by rewrite Hes0. }
  assert (Hin' : (["business"; "email"], value_error) ∈
                 map (fun l : line_error => ("business" :: l.1, l.2)) es0).
  { apply (list_elem_of_fmap_2 (fun l : line_error => ("business" :: l.1, l.2))
             _ _ Hin). }
  unfold ProductBase_init. rewrite Hreq.
  destruct (required d "product_id" int_validator),
    (required d "name" str_validator);
    eexists; (split; [reflexivity|]); cbn [errors_of];
    rewrite ?elem_of_app; auto.
Qed.

Lemma required_missing {A} (d : kwargs) (f : string)
    (v : value -> validated A) :
  d !! f = None -> required d f v = inl [([f], missing)].
Proof. intros Hd. unfold required. by rewrite Hd. Qed.

Lemma BusinessBase_init_missing (d : kwargs) (f : string) :
  f = "ein" \/ f = "name" \/ f = "email" ->
  d !! f = None ->
  exists es, BusinessBase_init d = inl es /\ ([f], missing) ∈ es.
Proof.
  intros Hf Hd. unfold BusinessBase_init.
  destruct Hf as [-> | [-> | ->]].
  - rewrite (required_missing d "ein" _ Hd).
    eexists. split; [reflexivity|]. cbn [errors_of].
    rewrite ?elem_of_app, ?list_elem_of_singleton. auto.
  - rewrite (required_missing d "name" _ Hd).
    destruct (required d "ein" EINType), (required d "email" EmailStr);
      eexists; (split; [reflexivity|]); cbn [errors_of];
      rewrite ?elem_of_app, ?list_elem_of_singleton; auto.
  - rewrite (required_missing d "email" _ Hd).
    destruct (required d "ein" EINType), (required d "name" str_validator);
      eexists; (split; [reflexivity|]); cbn [errors_of];
      rewrite ?elem_of_app, ?list_elem_of_singleton; auto.
Qed.

Lemma ProductBase_init_missing (d : kwargs) (f : string) :
  f = "product_id" \/ f = "name" \/ f = "business" ->
  d !! f = None ->
  exists es, ProductBase_init d = inl es /\ ([f], missing) ∈ es.
Proof.
  intros Hf Hd. unfold ProductBase_init.
  destruct Hf as [-> | [-> | ->]].
  - rewrite (required_missing d "product_id" _ Hd).
    eexists. split; [reflexivity|]. cbn [errors_of].
    rewrite ?elem_of_app, ?list_elem_of_singleton. auto.
  - rewrite (required_missing d "name" _ Hd).
    destruct (required d "product_id" int_validator),
      (required d "business" BusinessBase_validator);
      eexists; (split; [reflexivity|]); cbn [errors_of];
      rewrite ?elem_of_app, ?list_elem_of_singleton; auto.
  - rewrite (required_missing d "business" _ Hd).
    destruct (required d "product_id" int_validator),
      (required d "name" str_validator);
      eexists; (split; [reflexivity|]); cbn [errors_of];
      rewrite ?elem_of_app, ?list_elem_of_singleton; auto.
Qed.

Lemma BusinessBase_init_phone_default (d : kwargs) :
  d !! "phone" = None ->
  BusinessBase_init (<["phone" := VNone]> d) = BusinessBase_init d.
Proof.
  intros Hp. unfold BusinessBase_init, required, with_default.
  rewrite lookup_insert_eq, !lookup_insert_ne, Hp by done. reflexivity.
Qed.

(** X9: the required fields.  The constructor of a business builds no
    model and reports a [missing] line at the field when [ein], [name] or
    [email] is absent from its keyword arguments, and the constructor of a
    product does so for [product_id], [name] and [business]; [phone] may be
    absent and then reads as [None]: the constructor gives the same result
    as when [phone] is passed as [None]. *)
Theorem required_fields_enforced (d : kwargs) (f : string) :
  (f = "ein" \/ f = "name" \/ f = "email" -> d !! f = None ->
   exists es, BusinessBase_init d = inl es /\ ([f], missing) ∈ es) /\
  (f = "product_id" \/ f = "name" \/ f = "business" -> d !! f = None ->
   exists es, ProductBase_init d = inl es /\ ([f], missing) ∈ es) /\
  (d !! "phone" = None ->
   BusinessBase_init (<["phone" := VNone]> d) = BusinessBase_init d /\
   forall b, BusinessBase_init d = inr b -> BusinessBase.phone b = None).
Proof.
  split; [apply BusinessBase_init_missing|].
  split; [apply ProductBase_init_missing|].
  intros Hp. split; [by apply BusinessBase_init_phone_default|].
  intros b. unfold BusinessBase_init, with_default. rewrite Hp.
  destruct (required d "ein" EINType), (required d "name" str_validator),
    (required d "email" EmailStr); try discriminate.
  by intros [= <-].
Qed.

(** X10: an address that the address check rejects.  The constructor of a
    business reports a [value_error] line at [email] and builds no model; a
    create whose payload carries such an address, an update whose payload
    sets [email] to one, and a create of a product whose embedded business
    carries one, raise the validation error and store nothing. *)
Theorem email_format_enforced (m : string) (w : world) :
  email_validator m = None ->
  (forall d, d !! "email" = Some (VStr m) ->
     exists es, BusinessBase_init d = inl es /\
                (["email"], value_error) ∈ es) /\
  (forall b, BusinessBase.email b = m ->
     w_businesses w !! BusinessBase.ein b = None ->
     raises_line ["email"] value_error (create_business b w).1 /\
     w_businesses (create_business b w).2 = w_businesses w /\
     w_products (create_business b w).2 = w_products w) /\
  (forall k u, BusinessUpdate.email u = Supplied (Some m) ->
     is_Some (w_businesses w !! k) ->
     raises_line ["email"] value_error (update_business k u w).1 /\
     (update_business k u w).2 = w) /\
  (forall p, BusinessBase.email (ProductBase.business p) = m ->
     w_products w !! ProductBase.product_id p = None ->
     raises_line ["business"; "email"] value_error (create_product p w).1 /\
     w_businesses (create_product p w).2 = w_businesses w /\
     w_products (create_product p w).2 = w_products w).
Proof.
  intros Hbad. split; [|split; [|split]].
  - intros d Hd. by apply (BusinessBase_init_bad_email d m).
  - intros b <- Hk. rewrite create_business_run, Hk.
    destruct (BusinessBase_dump_lookup b) as (_ & _ & Hm & _).
    destruct (BusinessBase_init_bad_email _ _ Hm Hbad) as (es & -> & Hin).
    cbn [fst snd tick w_businesses w_products].
    split; [by exists es|]. by split.
  - intros k u Hu [b Hk]. rewrite update_business_run, Hk.
    destruct (business_merge_lookup b u) as (_ & _ & Hm & _).
    rewrite Hu in Hm. cbn [field_map overwrite opt_str] in Hm.
    destruct (BusinessBase_init_bad_email _ _ Hm Hbad) as (es & -> & Hin).
    cbn [fst snd]. split; [by exists es | done].
  - intros p <- Hk. rewrite create_product_run, Hk.
    destruct (BusinessBase_dump_lookup (ProductBase.business p))
      as (_ & _ & Hm & _).
    destruct (ProductBase_init_bad_email (ProductBase.model_dump p) _ _
                eq_refl Hm Hbad) as (es & -> & Hin).
    cbn [fst snd tick w_businesses w_products].
    split; [by exists es|]. by split.
Qed.

End Validation.

(** ** The update payload, and validated requests *)

Section Payloads.
Context `{rt : Runtime}.

Lemma BusinessUpdate_dump_lookup (u : BusinessUpdate.t) :
  let d := BusinessUpdate.model_dump_exclude_unset u in
  let shown (f : field (option string)) :=
    match f with
    | Omitted => None
    | Supplied o => Some (opt_str o)
    end in
  d !! "ein" = shown (BusinessUpdate.ein u) /\
  d !! "name" = shown (BusinessUpdate.name u) /\
  d !! "email" = shown (BusinessUpdate.email u) /\
  d !! "phone" = shown (BusinessUpdate.phone u).
Proof. destruct u as [[|e] [|n] [|m] [|p]]; repeat split; reflexivity. Qed.

Lemma optional_field_present {A} (d : kwargs) (f : string)
    (v : value -> validated A) (fl : field (option A)) :
  optional_field d f v = inr fl -> (fl = Omitted <-> d !! f = None).
Proof.
  unfold optional_field. destruct (d !! f) as [x|].
  - destruct (at_loc f (Optional v x)); [discriminate|]. by intros [= <-].
  - by intros [= <-].
Qed.

Lemma optional_field_dumped {A} (d : kwargs) (f : string)
    (v : value -> validated A) (g : A -> value) (fl : field (option A)) :
  (forall a, fl = Supplied (Some a) -> v (g a) = inr a) ->
  (forall a, g a <> VNone) ->
  d !! f = match fl with
           | Omitted => None
           | Supplied o => Some (from_option g VNone o)
           end ->
  optional_field d f v = inr fl.
Proof.
  intros Hv Hg Hd. unfold optional_field. rewrite Hd.
  destruct fl as [|[a|]]; cbn [from_option]; [done| |done].
  unfold Optional. specialize (Hg a). rewrite (Hv a eq_refl).
  by destruct (g a).
Qed.

Lemma opt_str_from_option (o : option string) :
  opt_str o = from_option VStr VNone o.
Proof. by destruct o. Qed.

Lemma BusinessUpdate_init_dump (u : BusinessUpdate.t) :
  BusinessUpdate_valid u ->
  BusinessUpdate_init (BusinessUpdate.model_dump_exclude_unset u) = inr u.
Proof.
  intros [He Hm].
  destruct (BusinessUpdate_dump_lookup u) as (H1 & H2 & H3 & H4).
  cbv zeta in H1, H2, H3, H4. unfold BusinessUpdate_init.
  rewrite (optional_field_dumped _ "ein" EINType VStr (BusinessUpdate.ein u)),
    (optional_field_dumped _ "name" str_validator VStr (BusinessUpdate.name u)),
    (optional_field_dumped _ "email" EmailStr VStr (BusinessUpdate.email u)),
    (optional_field_dumped _ "phone" str_validator VStr (BusinessUpdate.phone u)).
  - by destruct u.
  - done.
  - done.
  - rewrite H4. destruct (BusinessUpdate.phone u); [done|].
    by rewrite opt_str_from_option.
  - intros m Hs. cbn [EmailStr]. by rewrite (Hm m Hs).
  - done.
  - rewrite H3. destruct (BusinessUpdate.email u); [done|].
    by rewrite opt_str_from_option.
  - done.
  - done.
  - rewrite H2. destruct (BusinessUpdate.name u); [done|].
    by rewrite opt_str_from_option.
  - intros e Hs. cbn [EINType]. by rewrite (He e Hs).
  - done.
  - rewrite H1. destruct (BusinessUpdate.ein u); [done|].
    by rewrite opt_str_from_option.
Qed.

Lemma optional_ein_sound (d : kwargs) (fl : field (option string)) (e : string) :
  optional_field d "ein" EINType = inr fl -> fl = Supplied (Some e) ->
  EIN_pattern e = true.
Proof.
  unfold optional_field. destruct (d !! "ein") as [x|]; [|by intros [= <-]].
  destruct x as [| s | | |]; cbn; try discriminate; try by intros [= <-].
  destruct (EIN_pattern s) eqn:Hs; cbn; [|discriminate].
  intros [= <-] [= <-]. exact Hs.
Qed.

Lemma optional_email_sound (d : kwargs) (fl : field (option string))
    (m : string) :
  normalises ->
  optional_field d "email" EmailStr = inr fl -> fl = Supplied (Some m) ->
  email_validator m = Some m.
Proof.
  intros Hnorm.
  unfold optional_field. destruct (d !! "email") as [x|]; [|by intros [= <-]].
  destruct x as [| s | | |]; cbn; try discriminate; try by intros [= <-].
  destruct (email_validator s) as [s'|] eqn:Hs; cbn; [|discriminate].
  intros [= <-] [= <-]. exact (Hnorm _ _ Hs).
Qed.

Lemma BusinessUpdate_init_sound (d : kwargs) (u : BusinessUpdate.t) :
  normalises -> BusinessUpdate_init d = inr u -> BusinessUpdate_valid u.
Proof.
  intros Hnorm. unfold BusinessUpdate_init.
  destruct (optional_field d "ein" EINType) as [|e] eqn:He; [discriminate|].
  destruct (optional_field d "name" str_validator) as [|n]; [discriminate|].
  destruct (optional_field d "email" EmailStr) as [|m] eqn:Hm; [discriminate|].
  destruct (optional_field d "phone" str_validator) as [|p]; [discriminate|].
  intros [= <-]. split; cbn.
  - intros x. by apply optional_ein_sound with d.
  - intros x. by apply optional_email_sound with d.
Qed.

(** X11: the constructor of the update payload.  It requires no key:
    keyword arguments holding none of the four keys give the payload with no
    field set.  A field of the payload it builds is set exactly when its key
    is present, so a key passed as [None] and an absent key are told apart.
    Every payload it builds is a validated instance, and building from the
    dump of a validated payload (unset fields excluded) gives the payload
    back. *)
Theorem BusinessUpdate_init_spec (d : kwargs) (u : BusinessUpdate.t) :
  (d !! "ein" = None -> d !! "name" = None -> d !! "email" = None ->
   d !! "phone" = None -> BusinessUpdate_init d = inr BusinessUpdate_empty) /\
  (BusinessUpdate_init d = inr u ->
   (BusinessUpdate.ein u = Omitted <-> d !! "ein" = None) /\
   (BusinessUpdate.name u = Omitted <-> d !! "name" = None) /\
   (BusinessUpdate.email u = Omitted <-> d !! "email" = None) /\
   (BusinessUpdate.phone u = Omitted <-> d !! "phone" = None)) /\
  (normalises -> BusinessUpdate_init d = inr u -> BusinessUpdate_valid u) /\
  (BusinessUpdate_valid u ->
   BusinessUpdate_init (BusinessUpdate.model_dump_exclude_unset u) = inr u).
Proof.
  split; [|split; [|split]].
  - intros H1 H2 H3 H4. unfold BusinessUpdate_init, optional_field.
    by rewrite H1, H2, H3, H4.
  - unfold BusinessUpdate_init.
    destruct (optional_field d "ein" EINType) as [|e] eqn:He;
      [discriminate|].
    destruct (optional_field d "name" str_validator) as [|n] eqn:Hn;
      [discriminate|].
    destruct (optional_field d "email" EmailStr) as [|m] eqn:Hm;
      [discriminate|].
    destruct (optional_field d "phone" str_validator) as [|p] eqn:Hp;
      [discriminate|].
    intros [= <-]. cbn.
    split; [by eapply optional_field_present|].
    split; [by eapply optional_field_present|].
    split; by eapply optional_field_present.
  - apply BusinessUpdate_init_sound.
  - apply BusinessUpdate_init_dump.
Qed.

End Payloads.

Section RoundTrips.
Context `{rt : Runtime}.

Lemma BusinessRead_init_dump (r : BusinessRead.t) (w : world) :
  BusinessRead_valid r ->
  BusinessRead_init (BusinessRead.model_dump r) w = (Return r, w).
Proof.
  intros Hr.
  rewrite (BusinessRead_init_stamped _ (BusinessRead.created_at r)
             (BusinessRead.updated_at r)) by reflexivity.
  rewrite (BusinessBase_init_valid _ (BusinessRead.base r)); try reflexivity;
    [|done|by left].
  cbn [construct]. by rewrite BusinessRead_of_base.
Qed.

Lemma ProductRead_init_dump (r : ProductRead.t) (w : world) :
  ProductRead_valid r ->
  ProductRead_init (ProductRead.model_dump r) w = (Return r, w).
Proof.
  intros Hr.
  rewrite (ProductRead_init_stamped _ (ProductRead.created_at r)
             (ProductRead.updated_at r)) by reflexivity.
  rewrite (ProductBase_init_values _ (VInt (ProductRead.product_id r))
             (VStr (ProductRead.name r))
             (VDict (BusinessBase.model_dump (ProductRead.business r))));
    [|reflexivity..].
  cbn [int_validator str_validator BusinessBase_validator at_loc].
  rewrite (BusinessBase_init_dump _ Hr). cbn [construct]. by destruct r.
Qed.

(** X12: dumping a model and constructing from the dump gives the model
    back.  This holds for the validated instances of [BusinessBase] and
    [ProductBase], and for those of the two read models, whose constructor
    then takes no reading of the clock since both timestamps are passed.
    When the address check returns addresses it leaves as they are, every
    model a constructor builds is such an instance, so constructing a second
    time from the dump of what the first call built changes nothing. *)
Theorem dump_then_construct
    (b : BusinessBase.t) (p : ProductBase.t)
    (r : BusinessRead.t) (q : ProductRead.t) (w : world) (d : kwargs) :
  (BusinessBase_valid b ->
   BusinessBase_init (BusinessBase.model_dump b) = inr b) /\
  (ProductBase_valid p ->
   ProductBase_init (ProductBase.model_dump p) = inr p) /\
  (BusinessRead_valid r ->
   BusinessRead_init (BusinessRead.model_dump r) w = (Return r, w)) /\
  (ProductRead_valid q ->
   ProductRead_init (ProductRead.model_dump q) w = (Return q, w)) /\
  (normalises -> BusinessBase_init d = inr b ->
   BusinessBase_init (BusinessBase.model_dump b) = inr b) /\
  (normalises -> ProductBase_init d = inr p ->
   ProductBase_init (ProductBase.model_dump p) = inr p).
Proof.
  split; [apply BusinessBase_init_dump|].
  split; [apply ProductBase_init_dump|].
  split; [apply BusinessRead_init_dump|].
  split; [apply ProductRead_init_dump|].
  split.
  - intros Hn Hd. apply BusinessBase_init_dump.
    by apply (BusinessBase_init_sound Hn d).
  - intros Hn Hd. apply ProductBase_init_dump.
    by apply (ProductBase_init_sound Hn d).
Qed.

(** X13: requests whose bodies the constructors accepted.  When the
    address check returns addresses it leaves as they are, a create with a
    payload built by the constructor, on a free key, returns and stores a
    record carrying exactly that payload; and in a state whose records are
    validated instances, an update with a payload built by the constructor
    of the update payload returns and stores the merge, or raises a
    validation error and changes nothing when the payload sets a required
    field to [None]. *)
Theorem validated_requests
    (w : world) (d dp du : kwargs) (b : BusinessBase.t) (p : ProductBase.t)
    (k : string) (b0 : BusinessRead.t) (u : BusinessUpdate.t) :
  normalises ->
  (BusinessBase_init d = inr b ->
   w_businesses w !! BusinessBase.ein b = None ->
   exists r w',
     create_business b w = (Return r, w') /\
     BusinessRead.base r = b /\
     w_businesses w' !! BusinessBase.ein b = Some r) /\
  (ProductBase_init dp = inr p ->
   w_products w !! ProductBase.product_id p = None ->
   exists r w',
     create_product p w = (Return r, w') /\
     ProductRead_base r = p /\
     w_products w' !! ProductBase.product_id p = Some r) /\
  (store_valid w -> BusinessUpdate_init du = inr u ->
   w_businesses w !! k = Some b0 ->
   match merge_business b0 u with
   | Some r =>
       update_business k u w =
         (Return r, put_businesses (<[k := r]> (w_businesses w)) w)
   | None =>
       is_ValidationError (update_business k u w).1 /\
       (update_business k u w).2 = w
   end).
Proof.
  intros Hn. split; [|split].
  - intros Hd Hk. pose proof (BusinessBase_init_sound Hn d b Hd) as Hb.
    rewrite create_business_run, Hk, (BusinessBase_init_dump _ Hb). cbv zeta.
    eexists _, _. split; [reflexivity|]. split; [by destruct b|].
    cbn [put_businesses w_businesses]. by rewrite lookup_insert_eq.
  - intros Hd Hk. pose proof (ProductBase_init_sound Hn dp p Hd) as Hp.
    rewrite create_product_run, Hk, (ProductBase_init_dump _ Hp). cbv zeta.
    eexists _, _. split; [reflexivity|]. split; [by destruct p|].
    cbn [put_products w_products]. by rewrite lookup_insert_eq.
  - intros Hw Hdu Hk. apply update_business_merged; [done| |].
    + by apply (proj1 Hw k).
    + by apply (BusinessUpdate_init_sound du).
Qed.

(** X14: create and delete undo each other on the store.  Deleting the
    key of a record just created gives back the store from before the
    create, and after a delete the key is free again: a create of a
    validated payload on it returns a record stamped with the readings of
    the clock taken by that create.  Both stores. *)
Theorem create_delete_inverse
    (w : world) (b : BusinessCreate) (p : ProductCreate) :
  (forall r, (create_business b w).1 = Return r ->
     (delete_business (BusinessBase.ein b) (create_business b w).2).1 =
       Return tt /\
     w_businesses
       (delete_business (BusinessBase.ein b) (create_business b w).2).2 =
       w_businesses w) /\
  (forall r, (create_product p w).1 = Return r ->
     (delete_product (ProductBase.product_id p) (create_product p w).2).1 =
       Return tt /\
     w_products
       (delete_product (ProductBase.product_id p) (create_product p w).2).2 =
       w_products w) /\
  (BusinessBase_valid b -> is_Some (w_businesses w !! BusinessBase.ein b) ->
   exists r w',
     create_business b (delete_business (BusinessBase.ein b) w).2 =
       (Return r, w') /\
     BusinessRead.base r = b /\
     BusinessRead.created_at r = clock (w_ticks w)) /\
  (ProductBase_valid p -> is_Some (w_products w !! ProductBase.product_id p) ->
   exists r w',
     create_product p (delete_product (ProductBase.product_id p) w).2 =
       (Return r, w') /\
     ProductRead_base r = p /\
     ProductRead.created_at r = clock (w_ticks w)).
Proof.
  split; [|split; [|split]].
  - intros r. rewrite create_business_run.
    destruct (w_businesses w !! BusinessBase.ein b) eqn:Hk; [done|].
    destruct (BusinessBase_init _); [done|]. intros _. cbv zeta.
    rewrite delete_business_run. cbn [snd put_businesses w_businesses].
    rewrite lookup_insert_eq. cbn [fst snd put_businesses w_businesses].
    split; [done|]. by apply delete_insert_id.
  - intros r. rewrite create_product_run.
    destruct (w_products w !! ProductBase.product_id p) eqn:Hk; [done|].
    destruct (ProductBase_init _) as [es|p'] eqn:Hp; [done|]. intros _.
    cbv zeta. rewrite (ProductBase_init_dump_id _ _ Hp).
    rewrite delete_product_run. cbn [snd put_products w_products].
    rewrite lookup_insert_eq. cbn [fst snd put_products w_products].
    split; [done|]. by apply delete_insert_id.
  - intros Hb [b0 Hk]. rewrite delete_business_run, Hk. cbn [snd].
    rewrite create_business_run. cbn [put_businesses w_businesses w_ticks].
    rewrite lookup_delete_eq, (BusinessBase_init_dump _ Hb). cbv zeta.
    eexists _, _. split; [reflexivity|]. split; [by destruct b | done].
  - intros Hp [p0 Hk]. rewrite delete_product_run, Hk. cbn [snd].
    rewrite create_product_run. cbn [put_products w_products w_ticks].
    rewrite lookup_delete_eq, (ProductBase_init_dump _ Hp). cbv zeta.
    eexists _, _. split; [reflexivity|]. split; [by destruct p | done].
Qed.

End RoundTrips.

(** ** Key fields set by an update, and listing *)

Section KeysAndLists.
Context `{rt : Runtime}.

(** X15: an update that sets the key field to the key field of another
    stored record is accepted without any check for the collision.  When
    the payload of a business update sets [ein] to the [ein] of a record
    stored under another key, the update returns; both entries stay, each
    under its own key, and a List filtered by that [ein] returns both
    records.  Likewise for a product update that sets [product_id]. *)
Theorem key_field_collision_unchecked
    (w : world) (k k' : string) (b b' : BusinessRead.t) (u : BusinessUpdate.t)
    (i i' : Z) (p p' : ProductRead.t) (up : ProductUpdate.t) :
  (k <> k' ->
   w_businesses w !! k = Some b -> w_businesses w !! k' = Some b' ->
   BusinessRead_valid b -> BusinessUpdate_valid u ->
   BusinessUpdate.ein u = Supplied (Some (BusinessRead.ein b')) ->
   BusinessUpdate.name u <> Supplied None ->
   BusinessUpdate.email u <> Supplied None ->
   exists r w' l,
     update_business k u w = (Return r, w') /\
     BusinessRead.ein r = BusinessRead.ein b' /\
     w_businesses w' !! k = Some r /\
     w_businesses w' !! k' = Some b' /\
     list_businesses (Some (BusinessRead.ein b')) None None None w' =
       (Return l, w') /\
     r ∈ l /\ b' ∈ l) /\
  (i <> i' ->
   w_products w !! i = Some p -> w_products w !! i' = Some p' ->
   ProductRead_valid p -> ProductUpdate_valid up ->
   ProductUpdate.product_id up = Supplied (Some (ProductRead.product_id p')) ->
   ProductUpdate.name up <> Supplied None ->
   ProductUpdate.business up <> Supplied None ->
   exists r w' l,
     update_product i up w = (Return r, w') /\
     ProductRead.product_id r = ProductRead.product_id p' /\
     w_products w' !! i = Some r /\
     w_products w' !! i' = Some p' /\
     list_products (Some (ProductRead.product_id p')) None None None w' =
       (Return l, w') /\
     r ∈ l /\ p' ∈ l).
Proof.
  split.
  - intros Hne Hk Hk' Hb Hu He Hn Hm.
    pose proof (update_business_merged w k b u Hk Hb Hu) as Hmg.
    unfold merge_business in Hmg. rewrite He in Hmg.
    assert (exists r, update_business k u w =
              (Return r, put_businesses (<[k := r]> (w_businesses w)) w) /\
              BusinessRead.ein r = BusinessRead.ein b') as (r & Hrun & Hr).
    { destruct (BusinessUpdate.name u) as [|[n|]]; [| |done];
        destruct (BusinessUpdate.email u) as [|[m|]]; try done;
        cbn in Hmg; eexists; (split; [exact Hmg | reflexivity]). }
    set (w' := put_businesses (<[k := r]> (w_businesses w)) w).
    assert (Hr1 : w_businesses w' !! k = Some r) by apply lookup_insert_eq.
    assert (Hr2 : w_businesses w' !! k' = Some b').
    { unfold w'. cbn [put_businesses w_businesses].
      by rewrite lookup_insert_ne. }
    destruct (list_businesses_run (Some (BusinessRead.ein b')) None None None w')
      as (l & Hl & Hin).
    exists r, w', l. repeat (split; [done|]).
    split; apply Hin; (split; [eauto|]); unfold business_matches;
      intuition congruence.
  - intros Hne Hk Hk' Hp Hu Hi Hn Hb.
    pose proof (update_product_merged w i p up Hk Hp Hu) as Hmg.
    unfold merge_product in Hmg. rewrite Hi in Hmg.
    assert (exists r, update_product i up w =
              (Return r, put_products (<[i := r]> (w_products w)) w) /\
              ProductRead.product_id r = ProductRead.product_id p')
      as (r & Hrun & Hr).
    { destruct (ProductUpdate.name up) as [|[n|]]; [| |done];
        destruct (ProductUpdate.business up) as [|[bb|]]; try done;
        cbn in Hmg; eexists; (split; [exact Hmg | reflexivity]). }
    set (w' := put_products (<[i := r]> (w_products w)) w).
    assert (Hr1 : w_products w' !! i = Some r) by apply lookup_insert_eq.
    assert (Hr2 : w_products w' !! i' = Some p').
    { unfold w'. cbn [put_products w_products].
      by rewrite lookup_insert_ne. }
    destruct (list_products_run (Some (ProductRead.product_id p')) None None
                None w') as (l & Hl & Hin).
    exists r, w', l. repeat (split; [done|]).
    split; apply Hin; (split; [eauto|]); unfold product_matches;
      intuition congruence.
Qed.

(** X16: a List with no filter returns as many records as the store
    holds, one per key; a List with filters returns a sublist of it, in the
    same order, made of records that satisfy every filter supplied; the
    state is left as it was.  Both stores. *)
Theorem list_is_a_sublist
    (w : world) (e n m ph : option string)
    (i : option Z) (pn be bn : option string) :
  (exists l0 l,
     list_businesses None None None None w = (Return l0, w) /\
     List.length l0 = size (w_businesses w) /\
     list_businesses e n m ph w = (Return l, w) /\
     l `sublist_of` l0 /\
     forall r, r ∈ l -> business_matches e n m ph r) /\
  (exists l0 l,
     list_products None None None None w = (Return l0, w) /\
     List.length l0 = size (w_products w) /\
     list_products i pn be bn w = (Return l, w) /\
     l `sublist_of` l0 /\
     forall r, r ∈ l -> product_matches i pn be bn r).
Proof.
  split.
  - eexists _, _. split; [reflexivity|].
    split; [by rewrite length_fmap, length_map_to_list|].
    split; [reflexivity|]. split.
    + destruct e, n, m, ph;
        repeat (etrans; [apply sublist_filter|]); reflexivity.
    + intros r Hr.
      destruct (list_businesses_run e n m ph w) as (l & Hl & Hin).
      injection Hl as <-. by apply Hin.
  - eexists _, _. split; [reflexivity|].
    split; [by rewrite length_fmap, length_map_to_list|].
    split; [reflexivity|]. split.
    + destruct i, pn, be, bn;
        repeat (etrans; [apply sublist_filter|]); reflexivity.
    + intros r Hr.
      destruct (list_products_run i pn be bn w) as (l & Hl & Hin).
      injection Hl as <-. by apply Hin.
Qed.

End KeysAndLists.

(** ** The further properties at the scenario *)

Lemma mall_businesses :
  w_businesses mall !! "12-3456789" = Some cupcakes_read /\
  w_businesses mall !! "98-7654321" = Some donuts_read.
Proof. split; vm_compute; reflexivity. Qed.

Lemma mall_products :
  w_products mall !! 0 = Some vanilla_read /\
  w_products mall !! 7 = Some glazed_read.
Proof. split; vm_compute; reflexivity. Qed.

Lemma failure_stores_nothing_witness :
  w_businesses (@create_business sample_runtime cupcakes shop).2 =
    w_businesses shop /\
  (@update_business sample_runtime "98-7654321" bakery_patch shop).2 = shop /\
  (delete_product 7 shop).2 = shop.
Proof.
  split; [|split].
  - destruct (@failure_stores_nothing sample_runtime shop cupcakes
                "98-7654321" bakery_patch vanilla 7 chocolate_patch
                (HTTPException 400 "Business with this EIN already exists"))
      as (Hc & _).
    apply Hc. vm_compute. reflexivity.
  - destruct (@failure_stores_nothing sample_runtime shop cupcakes
                "98-7654321" bakery_patch vanilla 7 chocolate_patch
                (HTTPException 404 "Business not found"))
      as (_ & _ & Hu & _).
    apply Hu. vm_compute. reflexivity.
  - destruct (@failure_stores_nothing sample_runtime shop cupcakes
                "98-7654321" bakery_patch vanilla 7 chocolate_patch
                (HTTPException 404 "Product not found"))
      as (_ & _ & _ & _ & _ & Hd & _).
    apply Hd. vm_compute. reflexivity.
Defined.

Lemma other_keys_untouched_witness :
  w_businesses (@create_business sample_runtime donuts shop).2 !! "12-3456789" =
    Some cupcakes_read /\
  size (w_businesses (@create_business sample_runtime donuts shop).2) = 2%nat /\
  w_products (@update_product sample_runtime 7 chocolate_patch mall).2 !! 0 =
    Some vanilla_read.
Proof.
  destruct (@other_keys_untouched sample_runtime shop donuts "12-3456789"
              bakery_patch glazed 0 chocolate_patch)
    as (Hc & _ & _ & _ & Hs & _).
  destruct (@other_keys_untouched sample_runtime mall donuts "12-3456789"
              bakery_patch glazed 7 chocolate_patch)
    as (_ & _ & _ & Hu & _).
  split; [|split].
  - rewrite Hc by discriminate. exact shop_businesses.
  - rewrite (Hs donuts_read) by (vm_compute; reflexivity).
    vm_compute. reflexivity.
  - rewrite Hu by discriminate. exact (proj1 mall_products).
Defined.

Lemma update_idempotent_witness :
  exists r w1,
    @update_business sample_runtime "12-3456789" bakery_patch shop =
      (Return r, w1) /\
    @update_business sample_runtime "12-3456789" bakery_patch w1 =
      (Return r, w1).
Proof.
  eexists _, _. split; [vm_compute; reflexivity|].
  refine (proj1 (@update_idempotent sample_runtime shop _ "12-3456789"
                   cupcakes_read _ bakery_patch shop 0 vanilla_read vanilla_read
                   ProductUpdate_empty)
            shop_businesses cupcakes_valid bakery_patch_valid _).
  vm_compute. reflexivity.
Defined.

Lemma updates_compose_witness :
  exists r1 w1 r w2,
    @update_business sample_runtime "12-3456789" bakery_patch shop =
      (Return r1, w1) /\
    @update_business sample_runtime "12-3456789" rekey_patch w1 =
      (Return r, w2) /\
    @update_business sample_runtime "12-3456789"
      (BusinessUpdate_then bakery_patch rekey_patch) shop = (Return r, w2).
Proof.
  eexists _, _, _, _. split; [vm_compute; reflexivity|].
  split; [vm_compute; reflexivity|].
  refine (proj1 (proj1 (proj1 (@updates_compose sample_runtime shop _
                   "12-3456789" cupcakes_read _ bakery_patch rekey_patch
                   shop 0 vanilla_read vanilla_read ProductUpdate_empty
                   ProductUpdate_empty)
            shop_businesses cupcakes_valid bakery_patch_valid
            rekey_patch_valid _) _ _) _).
  - vm_compute. reflexivity.
  - vm_compute. reflexivity.
Defined.

Lemma stamps_preserved_witness : @stamps_ok sample_runtime shop.
Proof.
  destruct (@stamps_preserved sample_runtime initial cupcakes "12-3456789"
              BusinessUpdate_empty vanilla 0 ProductUpdate_empty)
    as ((_ & Hcreate & _) & _).
  { split; intros k x Hk; vm_compute in Hk; discriminate Hk. }
  destruct (@stamps_preserved sample_runtime
              (@create_business sample_runtime cupcakes initial).2
              cupcakes "12-3456789" BusinessUpdate_empty vanilla 0
              ProductUpdate_empty Hcreate) as ((_ & _ & _ & _ & Hproduct & _) & _).
  exact Hproduct.
Defined.

Lemma required_fields_enforced_witness :
  exists es,
    @BusinessBase_init sample_runtime bakery_body = inl es /\
    (["ein"], missing) ∈ es.
Proof.
  apply (@required_fields_enforced sample_runtime bakery_body "ein").
  - left. reflexivity.
  - vm_compute. reflexivity.
Defined.

Lemma email_format_enforced_witness :
  raises_line ["email"] value_error
    (@create_business sample_runtime no_address shop).1 /\
  w_businesses (@create_business sample_runtime no_address shop).2 =
    w_businesses shop.
Proof.
  destruct (@email_format_enforced sample_runtime "nowhere" shop eq_refl)
    as (_ & Hc & _).
  destruct (Hc no_address eq_refl) as (Hr & Hs & _);
    [vm_compute; reflexivity|].
  split; assumption.
Defined.

Lemma BusinessUpdate_init_spec_witness :
  @BusinessUpdate_init sample_runtime
    (BusinessUpdate.model_dump_exclude_unset bakery_patch) = inr bakery_patch /\
  (BusinessUpdate.email bakery_patch = Omitted <->
   bakery_body !! "email" = None).
Proof.
  destruct (@BusinessUpdate_init_spec sample_runtime bakery_body bakery_patch)
    as (_ & Hp & _ & Hd).
  split.
  - exact (Hd bakery_patch_valid).
  - apply Hp. vm_compute. reflexivity.
Defined.

Lemma dump_then_construct_witness :
  @BusinessBase_init sample_runtime (BusinessBase.model_dump cupcakes) =
    inr cupcakes /\
  @BusinessRead_init sample_runtime (BusinessRead.model_dump cupcakes_read) shop =
    (Return cupcakes_read, shop).
Proof.
  destruct (@dump_then_construct sample_runtime cupcakes vanilla cupcakes_read
              vanilla_read shop bakery_body) as (Hb & _ & Hr & _).
  split; [exact (Hb cupcakes_valid) | exact (Hr cupcakes_valid)].
Defined.

Lemma validated_requests_witness :
  exists w',
    @update_business sample_runtime "12-3456789" bakery_patch shop =
      (Return (BusinessRead.mk "12-3456789" "Ashley's Bakery" "a@example.com"
                 None 0 1), w').
Proof.
  destruct (@validated_requests sample_runtime shop
              (BusinessBase.model_dump cupcakes) (ProductBase.model_dump vanilla)
              bakery_body cupcakes vanilla "12-3456789" cupcakes_read
              bakery_patch sample_normalises) as (_ & _ & Hu).
  eexists. apply Hu.
  - exact store_valid_preserved_witness.
  - vm_compute. reflexivity.
  - exact shop_businesses.
Defined.

Lemma create_delete_inverse_witness :
  w_businesses
    (delete_business "98-7654321"
       (@create_business sample_runtime donuts shop).2).2 =
    w_businesses shop /\
  (exists r w',
     @create_business sample_runtime cupcakes
       (delete_business "12-3456789" shop).2 = (Return r, w') /\
     BusinessRead.created_at r = 4).
Proof.
  destruct (@create_delete_inverse sample_runtime shop donuts vanilla)
    as (Hd & _).
  destruct (@create_delete_inverse sample_runtime shop cupcakes vanilla)
    as (_ & _ & Hc & _).
  split.
  - apply (Hd donuts_read). vm_compute. reflexivity.
  - destruct (Hc cupcakes_valid) as (r & w' & Hrun & _ & Hat).
    + exists cupcakes_read. exact shop_businesses.
    + exists r, w'. split; assumption.
Defined.

Lemma key_field_collision_unchecked_witness :
  (exists r w' l,
     @update_business sample_runtime "12-3456789" rekey_patch mall =
       (Return r, w') /\
     list_businesses (Some "98-7654321") None None None w' = (Return l, w') /\
     r ∈ l /\ donuts_read ∈ l) /\
  (exists r w' l,
     @update_product sample_runtime 0 renumber_patch mall = (Return r, w') /\
     list_products (Some 7) None None None w' = (Return l, w') /\
     r ∈ l /\ glazed_read ∈ l).
Proof.
  destruct (@key_field_collision_unchecked sample_runtime mall
              "12-3456789" "98-7654321" cupcakes_read donuts_read rekey_patch
              0 7 vanilla_read glazed_read renumber_patch) as [Hb Hp].
  split.
  - destruct Hb as (r & w' & l & Hrun & _ & _ & _ & Hl & Hr & Hd);
      [discriminate | exact (proj1 mall_businesses)
       | exact (proj2 mall_businesses) | exact cupcakes_valid
       | exact rekey_patch_valid | reflexivity | discriminate | discriminate |].
    exists r, w', l. repeat split; assumption.
  - destruct Hp as (r & w' & l & Hrun & _ & _ & _ & Hl & Hr & Hd);
      [discriminate | exact (proj1 mall_products)
       | exact (proj2 mall_products) | exact cupcakes_valid
       | exact renumber_patch_valid | reflexivity | discriminate | discriminate |].
    exists r, w', l. repeat split; assumption.
Defined.
